(** * Liebert GXE serial driver (drivers/liebert-gxe.c): frame codec,
      hex field decoding, command dispatch and the polling state machine.

    The C code is embedded shallowly.  Memory cells are bytes held as [Z]
    in [0, 256); C integers are [Z] with the wrap-around of their type
    written out ([int] has 32 bits, [long] and [size_t] 64); [char]
    buffers are [list Z].  The two places where the C text depends on the
    compiler or the host (signedness of plain [char], byte order seen by
    [htole16]) are fields of a [platform] record.  Of the output of the
    driver, the lines of [upslogx] are kept, without the arguments of
    their formats; the debug traces of [upsdebugx] are left out. *)

From Stdlib Require Import ZArith Lia List Bool Ascii String.
From Stdlib Require Import SpecFloat.
From stdpp Require Import base option list strings gmap.

Local Open Scope Z_scope.

(** ** Machine integers *)

Module CInt.

Definition wrap_unsigned (bits : Z) (v : Z) : Z := v mod 2 ^ bits.

Definition wrap_signed (bits : Z) (v : Z) : Z :=
  let u := v mod 2 ^ bits in
  if u <? 2 ^ (bits - 1) then u else u - 2 ^ bits.

Definition uint8 := wrap_unsigned 8.
Definition uint16 := wrap_unsigned 16.
Definition uint32 := wrap_unsigned 32.
Definition int32 := wrap_signed 32.
Definition int64 := wrap_signed 64.

Definition SIZE_MAX : Z := 2 ^ 64 - 1.
Definition LONG_MAX : Z := 2 ^ 63 - 1.
Definition LONG_MIN : Z := - 2 ^ 63.

(** C division on [int]: truncation toward zero. *)
Definition div (a b : Z) : Z := Z.quot a b.

End CInt.

(** ** Platform parameters *)

Record platform := {
  CHAR_SIGNED : bool;       (* plain char is a signed type *)
  WORDS_BIGENDIAN : bool    (* host byte order, as tested by htole16 *)
}.

Definition le_host : platform :=
  {| CHAR_SIGNED := true; WORDS_BIGENDIAN := false |}.

(** The value of a [char] object holding byte [b], once promoted to [int]. *)
Definition char_value (plat : platform) (b : Z) : Z :=
  if CHAR_SIGNED plat then CInt.wrap_signed 8 b else CInt.wrap_unsigned 8 b.

(** ** Character buffers *)

Definition byte_of_ascii (a : ascii) : Z := Z.of_N (N_of_ascii a).

(** The bytes of a string literal, without its terminating NUL. *)
Definition cstr (s : string) : list Z :=
  map byte_of_ascii (list_ascii_of_string s).

(** [buf + off], read for [n] cells. *)
Definition mem_read (buf : list Z) (off n : nat) : list Z :=
  take n (drop off buf).

(** [memcpy(buf + off, src, |src|)]; a write outside the object is
    undefined in C and is [None] here. *)
Definition mem_write (buf : list Z) (off : nat) (src : list Z) : option (list Z) :=
  if decide (off + length src <= length buf)%nat
  then Some (take off buf ++ src ++ drop (off + length src) buf)
  else None.

(** ** printf ["%0wX"] *)

Definition hex_digit (d : Z) : Z :=
  if d <? 10 then 48 + d else 65 + (d - 10).

Definition hex_len (v : Z) : nat :=
  if v <=? 0 then 1%nat else Z.to_nat (Z.log2 v / 4 + 1).

(** The [n] low hexadecimal digits of [v], most significant first. *)
Definition hex_digits (n : nat) (v : Z) : list Z :=
  map (fun i => hex_digit ((v / 16 ^ Z.of_nat i) mod 16)) (rev (seq 0 n)).

(** Upper-case hexadecimal, zero padded to at least [width] digits. *)
Definition fmt_04X (v : Z) : list Z :=
  hex_digits (Nat.max 4 (hex_len v)) v.

(** ** strtol(s, NULL, 16) *)

Definition isspace (c : Z) : bool :=
  (c =? 32) || ((9 <=? c) && (c <=? 13)).

(** Value of [c] as a digit in base 16, if it is one. *)
Definition xdigit_val (c : Z) : option Z :=
  if (48 <=? c) && (c <=? 57) then Some (c - 48)
  else if (65 <=? c) && (c <=? 70) then Some (c - 55)
  else if (97 <=? c) && (c <=? 102) then Some (c - 87)
  else None.

Fixpoint skip_space (s : list Z) : list Z :=
  match s with
  | c :: s' => if isspace c then skip_space s' else s
  | [] => []
  end.

(** Accumulates digits until the first character that is not one (the
    terminating NUL included). *)
Fixpoint strtol_digits (acc : Z) (s : list Z) : Z :=
  match s with
  | c :: s' =>
      match xdigit_val c with
      | Some d => strtol_digits (acc * 16 + d) s'
      | None => acc
      end
  | [] => acc
  end.

Definition skip_0x (s : list Z) : list Z :=
  match s with
  | 48 :: x :: s' => if (x =? 120) || (x =? 88) then s' else s
  | _ => s
  end.

Definition strtol16 (s : list Z) : Z :=
  let s1 := skip_space s in
  let '(neg, s2) :=
    match s1 with
    | 45 :: r => (true, r)
    | 43 :: r => (false, r)
    | _ => (false, s1)
    end in
  let mag := strtol_digits 0 (skip_0x s2) in
  if neg then Z.max CInt.LONG_MIN (- mag) else Z.min CInt.LONG_MAX mag.

(** ** val_from_hex *)

Definition val_from_hex (buf : list Z) (off : nat) (dlen : nat) : Z :=
  if decide (15 < dlen)%nat then 0
  else CInt.int32 (strtol16 (mem_read buf off dlen)).

(** ** Command identifiers (liebert-gxe.h) *)

(** [GXE_LAST] only counts the entries of the table and is not an index. *)
Inductive gxe_cmd :=
  | GXE_FIRST
  | GXE_GET_ANALOG_DATA
  | GXE_GET_ONOFF_DATA
  | GXE_GET_WARNING_DATA
  | GXE_REMOTE_COMMAND
  | GXE_GET_SYS_PARAM
  | GXE_SET_SYS_PARAM
  | GXE_GET_PROTO_VER
  | GXE_GET_DEV_ADDR
  | GXE_GET_VENDOR_INFO
  | GXE_GET_VENDOR_VER
  | GXE_GET_FW_VER
  | GXE_PARA_ANALOG_DATA.

Definition gxe_cmds (c : gxe_cmd) : list Z :=
  match c with
  | GXE_FIRST => cstr "0000"
  | GXE_GET_ANALOG_DATA => cstr "2A42"
  | GXE_GET_ONOFF_DATA => cstr "2A43"
  | GXE_GET_WARNING_DATA => cstr "2A44"
  | GXE_REMOTE_COMMAND => cstr "2A45"
  | GXE_GET_SYS_PARAM => cstr "2A47"
  | GXE_SET_SYS_PARAM => cstr "2A49"
  | GXE_GET_PROTO_VER => cstr "2A4F"
  | GXE_GET_DEV_ADDR => cstr "2A50"
  | GXE_GET_VENDOR_INFO => cstr "2A51"
  | GXE_GET_VENDOR_VER => cstr "2A80"
  | GXE_GET_FW_VER => cstr "2AE5"
  | GXE_PARA_ANALOG_DATA => cstr "2AE6"
  end.

Definition rtn_vals : list string :=
  ["OK"; "Bad VER"; "Bad CHKSUM"; "Bad LCHKSUM"; "Invalid CID2";
   "Bad Command Format"; "Bad Data"]%string.

(** [(size_t) rtn] on an LP64 host. *)
Definition RTN_TO_STR (rtn : Z) : string :=
  let idx := CInt.wrap_unsigned 64 rtn in
  if idx <? Z.of_nat (length rtn_vals)
  then nth (Z.to_nat idx) rtn_vals "Unknown RTN"%string
  else "Unknown RTN"%string.

(** ** Frame codec *)

Section Codec.

Variable plat : platform.

Definition htole16 (x : Z) : Z :=
  if WORDS_BIGENDIAN plat
  then CInt.uint16 (Z.lor (Z.shiftr x 8) (Z.shiftl x 8))
  else x.

(** The 16-bit word that [proto_lchecksum] prints. *)
Definition proto_lchecksum_word (dlen : Z) : Z :=
  let lelen := htole16 dlen in
  let lenchk := 0 in
  let lenchk := CInt.uint8 (lenchk + Z.land lelen 0x000f) in
  let lenchk := CInt.uint8 (lenchk + Z.land lelen 0x00f0) in
  let lenchk := CInt.uint8 (lenchk + Z.land lelen 0x0f00) in
  let lenchk := CInt.uint8 (lenchk + Z.land lelen 0xf000) in
  let lenchk := CInt.uint8 (lenchk mod 16) in
  let lenchk := CInt.uint8 (Z.lnot lenchk + 1) in
  CInt.uint16 (Z.lor lelen (Z.shiftl lenchk 12)).

(** The five bytes copied to [out]: the text and, when it has four
    digits, its terminating NUL. *)
Definition proto_lchecksum (dlen : Z) : list Z :=
  take 5 (fmt_04X (proto_lchecksum_word dlen) ++ [0]).

Definition proto_checksum_sum (buf : list Z) : Z :=
  fold_left (fun sum b => CInt.uint32 (sum + char_value plat b)) buf 0 mod 65536.

(** The [int] handed to printf: the cast applies to [~sum] alone. *)
Definition proto_checksum_arg (buf : list Z) : Z :=
  CInt.uint16 (CInt.uint32 (Z.lnot (proto_checksum_sum buf))) + 1.

Definition proto_checksum (buf : list Z) : list Z :=
  take 5 (fmt_04X (proto_checksum_arg buf) ++ [0]).

(** Reading [n] cells of a source array; past its end is undefined. *)
Definition src_read (src : list Z) (n : nat) : option (list Z) :=
  if decide (n <= length src)%nat then Some (take n src) else None.

Definition frame_make (buf : list Z) (cmdi : gxe_cmd)
    (ver adr dptr : list Z) (dlen : nat) : option (list Z * nat) :=
  b ← mem_write buf 0 [0x7e];
  v ← src_read ver 2;
  b ← mem_write b 1 v;
  a ← src_read adr 2;
  b ← mem_write b 3 a;
  b ← mem_write b 5 (gxe_cmds cmdi);
  b ← mem_write b 9 (proto_lchecksum (CInt.uint16 (Z.of_nat dlen)));
  d ← src_read dptr dlen;
  b ← mem_write b 13 d;
  b ← mem_write b (13 + dlen) (proto_checksum (mem_read b 1 (dlen + 12)));
  b ← mem_write b (17 + dlen) [0x0d];
  Some (b, (dlen + 18)%nat).

End Codec.

Definition cstrz (s : string) : list Z := cstr s ++ [0].

(** ** Single-precision arithmetic (the [float] expressions of the
    measurement facts), on the IEEE 754 binary32 format *)

(** The operations round to nearest even, as C does where [float]
    expressions are evaluated in their own format (FLT_EVAL_METHOD 0). *)

Module F32.
Definition prec : Z := 24.
Definition emax : Z := 128.
(** [(float) z] *)
Definition of_int (z : Z) : spec_float := binary_normalize prec emax z 0 false.
Definition mul : spec_float -> spec_float -> spec_float := SFmul prec emax.
Definition div : spec_float -> spec_float -> spec_float := SFdiv prec emax.
(** The literal [1.15f]: 9646899 * 2^-23. *)
Definition lit_1_15 : spec_float := S754_finite false 9646899 (-23).
End F32.

(** ** The state-publication collaborator *)

(** A published value: the conversion of the format and its argument. *)
Inductive fact :=
  | FInt (fmt : string) (v : Z)
  | FFloat (fmt : string) (v : spec_float)
  | FStr (v : string).

Record dstate := {
  status_buf : list string;    (* flags of the status transaction *)
  ups_status : list string;    (* status flags as last committed *)
  alarm_buf : list string;     (* alarms of the alarm transaction *)
  ups_alarm : list string;     (* alarms as last committed *)
  info : gmap string fact;     (* named facts *)
  stale : bool                 (* the current batch is marked stale *)
}.

(** Modelled from the spec: the state store of the NUT core (dstate.c),
    which is not part of these sources.  [init] clears the transaction,
    [set] accumulates the flags named by its argument (one per word),
    [commit] publishes the transaction, [status_get] tells whether a flag
    is active in the status transaction, [dstate_setinfo] sets one named
    fact, and the batch is marked stale or fresh as a whole. *)
Module Dstate.

Definition status_init (d : dstate) : dstate :=
  {| status_buf := []; ups_status := ups_status d;
     alarm_buf := alarm_buf d; ups_alarm := ups_alarm d;
     info := info d; stale := stale d |}.

Definition status_set (s : string) (d : dstate) : dstate :=
  {| status_buf := status_buf d ++ String.words s; ups_status := ups_status d;
     alarm_buf := alarm_buf d; ups_alarm := ups_alarm d;
     info := info d; stale := stale d |}.

Definition status_commit (d : dstate) : dstate :=
  {| status_buf := status_buf d; ups_status := status_buf d;
     alarm_buf := alarm_buf d; ups_alarm := ups_alarm d;
     info := info d; stale := stale d |}.

Definition status_get (s : string) (d : dstate) : bool :=
  bool_decide (s ∈ status_buf d).

Definition alarm_init (d : dstate) : dstate :=
  {| status_buf := status_buf d; ups_status := ups_status d;
     alarm_buf := []; ups_alarm := ups_alarm d;
     info := info d; stale := stale d |}.

Definition alarm_set (s : string) (d : dstate) : dstate :=
  {| status_buf := status_buf d; ups_status := ups_status d;
     alarm_buf := alarm_buf d ++ [s]; ups_alarm := ups_alarm d;
     info := info d; stale := stale d |}.

Definition alarm_commit (d : dstate) : dstate :=
  {| status_buf := status_buf d; ups_status := ups_status d;
     alarm_buf := alarm_buf d; ups_alarm := alarm_buf d;
     info := info d; stale := stale d |}.

Definition dstate_setinfo (name : string) (v : fact) (d : dstate) : dstate :=
  {| status_buf := status_buf d; ups_status := ups_status d;
     alarm_buf := alarm_buf d; ups_alarm := ups_alarm d;
     info := <[name := v]> (info d); stale := stale d |}.

Definition set_stale (b : bool) (d : dstate) : dstate :=
  {| status_buf := status_buf d; ups_status := ups_status d;
     alarm_buf := alarm_buf d; ups_alarm := ups_alarm d;
     info := info d; stale := b |}.

Definition dstate_datastale : dstate -> dstate := set_stale true.
Definition dstate_dataok : dstate -> dstate := set_stale false.

End Dstate.

(** ** The serial transport collaborator *)

Inductive recv_result :=
  | RecvFail (ret : Z)            (* 0: timeout, negative: I/O error *)
  | RecvData (data : list Z).     (* the bytes that arrived *)

Record serial := {
  ser_send_rets : list Z;         (* results of the sends to come *)
  ser_replies : list recv_result; (* results of the receives to come *)
  ser_sent : list (list Z)        (* frames handed to the line so far *)
}.

(** Modelled from the spec: the serial layer of the NUT core (serial.c),
    which is not part of these sources.  A send reports the bytes sent,
    zero on timeout or a negative value on an I/O error; a receive stores
    at most [buflen] bytes into the buffer and reports their count, or
    zero or a negative value.  What the line will answer is held in the
    two queues; an empty queue times out. *)
Module Serial.

Definition ser_send_buf (frame : list Z) (s : serial) : Z * serial :=
  let s' r rest :=
    {| ser_send_rets := rest; ser_replies := ser_replies s;
       ser_sent := ser_sent s ++ [frame] |} in
  match ser_send_rets s with
  | r :: rest => (r, s' r rest)
  | [] => (0, s' 0 [])
  end.

Definition ser_get_buf (buf : list Z) (buflen : nat) (s : serial)
    : Z * list Z * serial :=
  let s' rest :=
    {| ser_send_rets := ser_send_rets s; ser_replies := rest;
       ser_sent := ser_sent s |} in
  match ser_replies s with
  | RecvData data :: rest =>
      let d := take (Nat.min buflen (length buf)) data in
      (Z.of_nat (length d), d ++ drop (length d) buf, s' rest)
  | RecvFail r :: rest => (Z.min r 0, buf, s' rest)
  | [] => (0, buf, s' [])
  end.

End Serial.

(** ** Driver state *)

Inductive gxe_poll_state :=
  | GXE_ONOFF
  | GXE_ANALOG
  | GXE_WARNING
  | GXE_SYSPARAM.

(** The return values of an instant command (upshandler.h of the NUT
    core) that this driver uses. *)
Inductive instcmd_status :=
  | STAT_INSTCMD_HANDLED
  | STAT_INSTCMD_UNKNOWN
  | STAT_INSTCMD_FAILED.

Record driver := {
  poll_state : gxe_poll_state;
  devaddr : list Z;            (* the array [devaddr] points to *)
  ds : dstate;
  ser : serial;
  syslog : list string         (* lines written by upslogx *)
}.

(** Computations over the driver state; [None] is undefined behaviour
    (an access outside an object). *)
Definition M (A : Type) : Type := driver -> option (A * driver).

#[global] Instance M_ret : MRet M := fun A a st => Some (a, st).
#[global] Instance M_bind : MBind M := fun A B f m st =>
  match m st with
  | Some (a, st') => f a st'
  | None => None
  end.

Definition gets {A} (f : driver -> A) : M A := fun st => Some (f st, st).

Definition set_poll_state (p : gxe_poll_state) : M unit := fun st =>
  Some (tt, {| poll_state := p; devaddr := devaddr st; ds := ds st;
               ser := ser st; syslog := syslog st |}).

Definition with_ds (f : dstate -> dstate) : M unit := fun st =>
  Some (tt, {| poll_state := poll_state st; devaddr := devaddr st;
               ds := f (ds st); ser := ser st; syslog := syslog st |}).

Definition with_ser {A} (f : serial -> A * serial) : M A := fun st =>
  let '(a, s) := f (ser st) in
  Some (a, {| poll_state := poll_state st; devaddr := devaddr st;
              ds := ds st; ser := s; syslog := syslog st |}).

Definition upslogx (lines : list string) : M unit := fun st =>
  Some (tt, {| poll_state := poll_state st; devaddr := devaddr st;
               ds := ds st; ser := ser st; syslog := syslog st ++ lines |}).

Definition lift_option {A} (o : option A) : M A := fun st =>
  match o with
  | Some a => Some (a, st)
  | None => None
  end.

Definition when (b : bool) (m : M unit) : M unit :=
  if b then m else mret tt.

Definition DATAFLAG_WARN_MASK : Z := 1.
Definition DATAFLAG_ONOFF_MASK : Z := Z.shiftl 1 4.
Definition PROBE_RETRIES : nat := 3.

Definition gxe_warns : list (option string) :=
  [ None;
    Some "Inverter Out-of-Sync";
    Some "Unhealthy Main Circuit";
    Some "Rectifier Failure";
    Some "Inverter Failure";
    Some "Unhealthy Bypass";
    Some "Unhealthy Battery Voltage";
    None;
    None;
    Some "Power Module Overheated";
    Some "Unhealthy Fan";
    Some "Netural Input Missing";
    Some "Master Line Abnormally Turned-off";
    Some "Charger Failure";
    Some "Battery Discharge Declined";
    Some "Backup Power Supply Failure";
    Some "Ouput Overloaded";
    Some "Ouput Shorted";
    Some "Overload Timed-out";
    Some "Unhealthy Parallel Machine Current";
    Some "Parallel Machine Connection Failure";
    Some "Parallel Machine Address Error";
    Some "Unhealthy Internal Communication";
    Some "System Overloaded";
    Some "Battery Installed Backwards";
    Some "Battery Not Found" ]%string.

(** ** Hex field decoder: substr_from_hex *)

(** [n] counts the iterations left, [j] is [i/2]; [substr] is the object
    written to and [len] the capacity the caller announces. *)
Fixpoint substr_from_hex_loop (n j : nat) (substr : list Z) (len : nat)
    (dbuf : list Z) : option (list Z) :=
  match n with
  | O => mem_write substr j [0]
  | S n' =>
      let val := val_from_hex dbuf (2 * j) 2 in
      if val =? 0x20 then mem_write substr j [0]
      else if Z.of_nat j >? CInt.wrap_unsigned 64 (Z.of_nat len - 1)
      then mem_write substr j [0]
      else
        s ← mem_write substr j [CInt.uint8 val];
        substr_from_hex_loop n' (S j) s len dbuf
  end.

Definition substr_from_hex (substr : list Z) (len : nat)
    (dbuf : list Z) (dlen : nat) : option (list Z) :=
  substr_from_hex_loop (Nat.div2 (dlen + 1)) 0 substr len dbuf.

(** ** validate_ret *)

(** The value returned and the line logged. *)
Definition validate_ret (buf : list Z) (ret minlen : Z) : Z * list string :=
  if ret <? 0 then (-1, ["Read failed"%string])
  else if ret <? minlen then (-1, ["Short read from UPS"%string])
  else
    let ret := val_from_hex buf 7 2 in
    if negb (ret =? 0)
    then (-1, [("Command failed: " ++ RTN_TO_STR ret)%string])
    else (ret, []).

(** ** Transport adapter, command dispatcher and polling state machine *)

Section Driver.

Variable plat : platform.

(** A local array before anything is stored in it.  Its contents are
    indeterminate in C; the handlers read a reply only below the length
    they have validated. *)
Definition local_buf (n : nat) : list Z := replicate n 0.

(** Returns [ret] and the contents of [buf] after the call.  The flush
    of pending input before the frame is sent has no counterpart here:
    what the line answers to this exchange is the head of the queues. *)
Definition frame_send_and_recv (buf : list Z) (buflen : nat)
    (cmdi : gxe_cmd) (ver adr dptr : list Z) (dlen : nat) : M (Z * list Z) :=
  '(framebuf, framelen) ← lift_option
      (frame_make plat (local_buf 32) cmdi ver adr dptr dlen);
  ret ← with_ser (Serial.ser_send_buf (take framelen framebuf));
  if ret <=? 0 then mret (ret, buf)
  else
    with_ser (fun s =>
      let '(ret, buf', s') := Serial.ser_get_buf buf buflen s in
      ((ret, buf'), s')).

Definition validate_ret_logged (buf : list Z) (ret minlen : Z) : M Z :=
  let '(r, lines) := validate_ret buf ret minlen in
  upslogx lines;; mret r.

(** One turn of the retry loop of [instcmd], up to its test: the value
    of [validate_ret] and the contents of [cmdbuf] afterwards. *)
Definition instcmd_attempt (cmdbuf data : list Z) (len : nat)
    : M (Z * list Z) :=
  adr ← gets devaddr;
  '(ret, cmdbuf) ← frame_send_and_recv cmdbuf 64 GXE_REMOTE_COMMAND
      (cstrz "21") adr data len;
  v ← validate_ret_logged cmdbuf ret 13;
  mret (v, cmdbuf).

Fixpoint instcmd_retry (n : nat) (cmdbuf data : list Z) (len : nat)
    : M instcmd_status :=
  match n with
  | O =>
      upslogx ["instcmd: remote failed response, try again"%string];;
      mret STAT_INSTCMD_FAILED
  | S n' =>
      '(v, cmdbuf) ← instcmd_attempt cmdbuf data len;
      if negb (v <? 0)
      then set_poll_state GXE_SYSPARAM;; mret STAT_INSTCMD_HANDLED
      else instcmd_retry n' cmdbuf data len
  end.

(** [tolower] in the C locale. *)
Definition tolower (c : Z) : Z :=
  if (65 <=? c) && (c <=? 90) then c + 32 else c.

(** [strcasecmp] on the arrays two strings point to: the scan stops at
    the first difference or at a NUL (the end of the array is one). *)
Fixpoint strcasecmp (a b : list Z) : Z :=
  let hd s := match s with c :: _ => tolower c | [] => 0 end in
  let c1 := hd a in
  let c2 := hd b in
  if negb (c1 =? c2) then c1 - c2
  else if c1 =? 0 then 0
  else
    match a, b with
    | _ :: a', _ :: b' => strcasecmp a' b'
    | _, _ => 0
    end.

Definition instcmd_data (cmdname : list Z) : option (list Z) :=
  if strcasecmp cmdname (cstrz "test.battery.start") =? 0 then Some (cstrz "1002")
  else if strcasecmp cmdname (cstrz "test.battery.stop") =? 0 then Some (cstrz "1003")
  else if strcasecmp cmdname (cstrz "load.on") =? 0 then Some (cstrz "2001")
  else if strcasecmp cmdname (cstrz "load.off") =? 0 then Some (cstrz "2003")
  else None.

Definition instcmd (cmdname extra : list Z) : M instcmd_status :=
  match instcmd_data cmdname with
  | None =>
      upslogx ["instcmd: unknown command"%string];;
      mret STAT_INSTCMD_UNKNOWN
  | Some data => instcmd_retry PROBE_RETRIES (local_buf 64) data 4
  end.

Definition dstate_setinfo (name : string) (v : fact) : M unit :=
  with_ds (Dstate.dstate_setinfo name v).

(** The body of [upsdrv_updateinfo_onoff] once the reply is accepted. *)
Definition onoff_publish (onoff_buf : list Z) : M unit :=
    set_poll_state GXE_ANALOG;;
    let dflag := val_from_hex onoff_buf 13 2 in
    when (negb (Z.land dflag DATAFLAG_ONOFF_MASK =? 0))
      (set_poll_state GXE_ONOFF);;
    when (negb (Z.land dflag DATAFLAG_WARN_MASK =? 0))
      (set_poll_state GXE_WARNING);;
    with_ds Dstate.status_init;;
    let pwrval := val_from_hex onoff_buf 15 2 in
    let rectval := val_from_hex onoff_buf 19 2 in
    (if (pwrval =? 0x01) && (rectval =? 0xe2)
     then with_ds (Dstate.status_set "OB")
     else if pwrval =? 0x01 then with_ds (Dstate.status_set "OL")
     else if pwrval =? 0x02 then with_ds (Dstate.status_set "OL BYPASS")
     else mret tt);;
    with_ds Dstate.status_commit;;
    let bat := val_from_hex onoff_buf (15 + 6) 2 in
    (if bat =? 0xe0
     then dstate_setinfo "battery.charger.status" (FStr "resting")
     else if (bat =? 0xe1) || (bat =? 0xe2)
     then dstate_setinfo "battery.charger.status" (FStr "charging")
     else if bat =? 0xe3
     then dstate_setinfo "battery.charger.status" (FStr "discharging")
     else mret tt);;
    let tst := val_from_hex onoff_buf (15 + 8) 2 in
    (if tst =? 0xe0
     then dstate_setinfo "ups.test.result" (FStr "In progress")
     else if tst =? 0xe1
     then dstate_setinfo "ups.test.result" (FStr "Idle")
     else mret tt);;
    with_ds Dstate.dstate_dataok.

Definition upsdrv_updateinfo_onoff : M unit :=
  adr ← gets devaddr;
  '(ret, onoff_buf) ← frame_send_and_recv (local_buf 64) 64
      GXE_GET_ONOFF_DATA (cstrz "21") adr [] 0;
  v ← validate_ret_logged onoff_buf ret (13 + 0x14);
  if v <? 0 then
    set_poll_state GXE_ONOFF;;
    with_ds Dstate.dstate_datastale
  else onoff_publish onoff_buf.

(** [val_from_hex(buf+off, 4)/100.0f] *)
Definition centi (buf : list Z) (off : nat) : spec_float :=
  F32.div (F32.of_int (val_from_hex buf off 4)) (F32.of_int 100).

(** The body of [upsdrv_updateinfo_analog] once the reply is accepted. *)
Definition analog_publish (analog_buf : list Z) : M unit :=
    let dflag := val_from_hex analog_buf 13 2 in
    when (negb (Z.land dflag DATAFLAG_ONOFF_MASK =? 0))
      (set_poll_state GXE_ONOFF);;
    when (negb (Z.land dflag DATAFLAG_WARN_MASK =? 0))
      (set_poll_state GXE_WARNING);;
    let volt := CInt.div (val_from_hex analog_buf 15 4) 100 in
    ol ← gets (fun st => Dstate.status_get "OL" (ds st));
    when ((volt =? 0) && ol)
      (with_ds Dstate.status_init;;
       with_ds (Dstate.status_set "OB");;
       with_ds Dstate.status_commit;;
       set_poll_state GXE_WARNING);;
    ob ← gets (fun st => Dstate.status_get "OB" (ds st));
    when ((volt >? 0) && ob)
      (with_ds Dstate.status_init;;
       with_ds (Dstate.status_set "OL");;
       with_ds Dstate.status_commit;;
       set_poll_state GXE_WARNING);;
    dstate_setinfo "input.voltage" (FFloat "%.02f" (centi analog_buf 15));;
    dstate_setinfo "output.voltage"
      (FFloat "%.02f" (centi analog_buf (15 + 12)));;
    dstate_setinfo "output.current"
      (FFloat "%.02f" (centi analog_buf (15 + 24)));;
    dstate_setinfo "battery.voltage"
      (FFloat "%.02f" (centi analog_buf (15 + 36)));;
    dstate_setinfo "output.frequency"
      (FFloat "%.02f" (centi analog_buf (15 + 40)));;
    dstate_setinfo "input.frequency"
      (FFloat "%.02f" (centi analog_buf (15 + 52)));;
    dstate_setinfo "ups.realpower"
      (FInt "%d" (CInt.int32 (val_from_hex analog_buf (15 + 64) 4 * 10)));;
    dstate_setinfo "ups.power"
      (FInt "%d" (CInt.int32 (val_from_hex analog_buf (15 + 68) 4 * 10)));;
    dstate_setinfo "battery.runtime.low"
      (FFloat "%.2f" (F32.mul (centi analog_buf (15 + 80)) (F32.of_int 60)));;
    with_ds Dstate.dstate_dataok.

Definition upsdrv_updateinfo_analog : M unit :=
  adr ← gets devaddr;
  '(ret, analog_buf) ← frame_send_and_recv (local_buf 128) 128
      GXE_GET_ANALOG_DATA (cstrz "21") adr [] 0;
  v ← validate_ret_logged analog_buf ret (13 + 0x56);
  if v <? 0 then
    with_ds Dstate.dstate_datastale
  else analog_publish analog_buf.

(** The body of [upsdrv_updateinfo_sysparam] once the reply is accepted. *)
Definition sysparam_publish (sysparam_buf : list Z) : M unit :=
    set_poll_state GXE_WARNING;;
    dstate_setinfo "output.voltage.nominal"
      (FInt "%d" (val_from_hex sysparam_buf (13 + 18) 4));;
    dstate_setinfo "output.frequency.nominal"
      (FInt "%d" (val_from_hex sysparam_buf (13 + 18 + 4) 4));;
    when (val_from_hex sysparam_buf (13 + 18 + 16) 4 =? 1)
      (dstate_setinfo "input.transfer.bypass.high"
         (FFloat "%f"
            (F32.mul (F32.of_int (val_from_hex sysparam_buf (13 + 18) 4))
               F32.lit_1_15)));;
    when (val_from_hex sysparam_buf (13 + 18 + 20) 4 =? 1)
      (dstate_setinfo "input.transfer.bypass.low" (FInt "%d" 120));;
    dstate_setinfo "ups.test.interval"
      (FInt "%lu"
         (CInt.wrap_unsigned 64
            (CInt.int64
               (val_from_hex sysparam_buf (13 + 18 + 60) 4 * 3 * 108000))));;
    with_ds Dstate.dstate_dataok.

Definition upsdrv_updateinfo_sysparam : M unit :=
  adr ← gets devaddr;
  '(ret, sysparam_buf) ← frame_send_and_recv (local_buf 128) 128
      GXE_GET_SYS_PARAM (cstrz "21") adr [] 0;
  v ← validate_ret_logged sysparam_buf ret (13 + 0x6a);
  if v <? 0 then
    with_ds Dstate.dstate_datastale
  else sysparam_publish sysparam_buf.

Definition warning_active (val : Z) : bool :=
  (val =? 0x01) || (val =? 0x02) || (val =? 0x03) || (val =? 0xf0).

(** The loop over [gxe_warns], from index [i] on. *)
Fixpoint warning_scan (warn_buf : list Z) (i : nat)
    (tbl : list (option string)) : M unit :=
  match tbl with
  | [] => mret tt
  | None :: tbl' => warning_scan warn_buf (S i) tbl'
  | Some name :: tbl' =>
      let val := val_from_hex warn_buf (15 + i * 2) 2 in
      (if val =? 0x00 then mret tt
       else if warning_active val then with_ds (Dstate.alarm_set name)
       else mret tt);;
      warning_scan warn_buf (S i) tbl'
  end.

(** The body of [upsdrv_updateinfo_warning] once the reply is accepted. *)
Definition warning_publish (warn_buf : list Z) : M unit :=
    set_poll_state GXE_ONOFF;;
    with_ds Dstate.alarm_init;;
    warning_scan warn_buf 0 gxe_warns;;
    with_ds Dstate.alarm_commit;;
    with_ds Dstate.dstate_dataok.

Definition upsdrv_updateinfo_warning : M unit :=
  adr ← gets devaddr;
  '(ret, warn_buf) ← frame_send_and_recv (local_buf 128) 128
      GXE_GET_WARNING_DATA (cstrz "21") adr [] 0;
  v ← validate_ret_logged warn_buf ret (13 + 0x36);
  if v <? 0 then
    set_poll_state GXE_WARNING;;
    with_ds Dstate.dstate_datastale
  else warning_publish warn_buf.

Definition upsdrv_updateinfo : M unit :=
  st ← gets poll_state;
  match st with
  | GXE_ANALOG => upsdrv_updateinfo_analog
  | GXE_ONOFF => upsdrv_updateinfo_onoff
  | GXE_WARNING => upsdrv_updateinfo_warning
  | GXE_SYSPARAM => upsdrv_updateinfo_sysparam
  end.

End Driver.

(** * Specification-side definitions and sample data *)

(** ** Enumeration over a range *)

(** [f] holds of the [len] integers from [start] on. *)
Fixpoint all_from (f : Z -> bool) (start : Z) (len : nat) : bool :=
  match len with
  | O => true
  | S k => f start && all_from f (start + 1) k
  end.

(** ** Length checksum *)

(** Nibble [k] of [w], nibble 0 being the lowest. *)
Definition nibble (k w : Z) : Z := Z.land (Z.shiftr w (4 * k)) 0xf.

(** Following the specification's words: the four 4-bit nibbles of the
    16-bit length are summed, the sum is reduced modulo 16 and negated
    within 4 bits. *)
Definition lchecksum_spec (dlen : Z) : Z :=
  (16 - (nibble 0 dlen + nibble 1 dlen + nibble 2 dlen + nibble 3 dlen) mod 16)
  mod 16.

(** The receiver's test on a length word: checksum nibble plus the three
    data nibbles, modulo 16. *)
Definition lchecksum_resum (w : Z) : Z :=
  (nibble 3 w + (nibble 2 w + nibble 1 w + nibble 0 w)) mod 16.

(** The length word as a receiver decodes it from the four characters. *)
Definition decoded_length_word (plat : platform) (dlen : Z) : Z :=
  val_from_hex (proto_lchecksum plat dlen) 0 4.

(** ** Return codes *)

(** The names the specification gives to the return codes. *)
Definition failure_name (code : Z) : string :=
  match code with
  | 1 => "Bad VER"
  | 2 => "Bad CHKSUM"
  | 3 => "Bad LCHKSUM"
  | 4 => "Invalid CID2"
  | 5 => "Bad Command Format"
  | 6 => "Bad Data"
  | _ => "Unknown RTN"
  end.

(** An 18-byte reply with return code 00, as the device sends on success. *)
Definition reply_accepted : list Z := cstr "~21012A000000FDA2" ++ [13].

(** ** Fixed-width strings *)

(** The decoded pairs up to the first space. *)
Fixpoint until_space (vals : list Z) : list Z :=
  match vals with
  | v :: rest => if v =? 0x20 then [] else v :: until_space rest
  | [] => []
  end.

Definition hex_pairs_from (dbuf : list Z) (j n : nat) : list Z :=
  map (fun k => val_from_hex dbuf (2 * k) 2) (seq j n).

Definition hex_pairs (dbuf : list Z) (dlen : nat) : list Z :=
  hex_pairs_from dbuf 0 (Nat.div2 (dlen + 1)).

(** Following the specification's words: the pairs are decoded up to the
    first space, to the end of the input or to [capacity - 1] bytes,
    whichever comes first, and the string is terminated. *)
Definition string_from_hex_spec (capacity : nat) (dbuf : list Z) (dlen : nat)
    : list Z :=
  map CInt.uint8 (take (capacity - 1) (until_space (hex_pairs dbuf dlen))) ++ [0].

(** ** Payload checksum *)

Definition byte_sum (l : list Z) : Z := fold_right Z.add 0 l.

(** The bytes that enter the checksum, VER to the end of INFO, each with
    the value the C code reads from its [char]. *)
Definition checksummed (plat : platform) (frame : list Z) (dlen : nat) : list Z :=
  map (char_value plat) (mem_read frame 1 (dlen + 12)).

(** The checksum field as a receiver decodes it. *)
Definition decoded_checksum (frame : list Z) (dlen : nat) : Z :=
  val_from_hex frame (13 + dlen) 4.

(** A payload of 928 hexadecimal digits whose frame sums to 65536. *)
Definition payload_wrapping : list Z := replicate 925 70 ++ [48] ++ cstr "59".

(** ** State updates and the polling cycle *)

Definition add_log (lines : list string) (st : driver) : driver :=
  {| poll_state := poll_state st; devaddr := devaddr st; ds := ds st;
     ser := ser st; syslog := syslog st ++ lines |}.

(** The shape shared by the four handlers: request, validate, then either
    the failure branch or the publication of the reply. *)
Definition poll_cycle (plat : platform) (buflen : nat) (cmd : gxe_cmd)
    (minlen : Z) (failed : M unit) (publish : list Z -> M unit) : M unit :=
  adr ← gets devaddr;
  '(ret, buf) ← frame_send_and_recv plat (local_buf buflen) buflen cmd
      (cstrz "21") adr [] 0;
  v ← validate_ret_logged buf ret minlen;
  if v <? 0 then failed else publish buf.

(** The request, the buffer size and the minimum reply length of each
    phase, as the specification tabulates them. *)
Definition phase_request (p : gxe_poll_state) : gxe_cmd :=
  match p with
  | GXE_ONOFF => GXE_GET_ONOFF_DATA
  | GXE_ANALOG => GXE_GET_ANALOG_DATA
  | GXE_WARNING => GXE_GET_WARNING_DATA
  | GXE_SYSPARAM => GXE_GET_SYS_PARAM
  end.

Definition phase_buflen (p : gxe_poll_state) : nat :=
  match p with
  | GXE_ONOFF => 64
  | _ => 128
  end.

Definition phase_minlen (p : gxe_poll_state) : Z :=
  match p with
  | GXE_ONOFF => 13 + 0x14
  | GXE_ANALOG => 13 + 0x56
  | GXE_WARNING => 13 + 0x36
  | GXE_SYSPARAM => 13 + 0x6a
  end.

(** The exchange that a tick in phase [p] performs. *)
Definition phase_exchange (plat : platform) (p : gxe_poll_state) : M (Z * list Z) :=
  adr ← gets devaddr;
  frame_send_and_recv plat (local_buf (phase_buflen p)) (phase_buflen p)
    (phase_request p) (cstrz "21") adr [] 0.

(** A store whose status is on line, and a driver with the default
    address whose line accepts three frames and then answers with
    [replies]. *)
Definition sample_store : dstate :=
  {| status_buf := ["OL"%string]; ups_status := ["OL"%string];
     alarm_buf := []; ups_alarm := []; info := ∅; stale := false |}.

Definition sample_driver (p : gxe_poll_state) (d : dstate)
    (replies : list recv_result) : driver :=
  {| poll_state := p; devaddr := cstrz "01"; ds := d;
     ser := {| ser_send_rets := [18; 22; 22]; ser_replies := replies;
               ser_sent := [] |};
     syslog := [] |}.

Definition upd_ds (d : dstate) (st : driver) : driver :=
  {| poll_state := poll_state st; devaddr := devaddr st; ds := d;
     ser := ser st; syslog := syslog st |}.

Definition upd_poll (p : gxe_poll_state) (st : driver) : driver :=
  {| poll_state := p; devaddr := devaddr st; ds := ds st;
     ser := ser st; syslog := syslog st |}.

(** Computations that touch nothing but the store. *)
Definition ds_only (m : M unit) : Prop :=
  forall st, exists d, m st = Some (tt, upd_ds d st).

(** ** The four phases *)

(** What [onoff_publish] does after it has settled the next phase. *)
Definition onoff_facts (onoff_buf : list Z) : M unit :=
  with_ds Dstate.status_init;;
  let pwrval := val_from_hex onoff_buf 15 2 in
  let rectval := val_from_hex onoff_buf 19 2 in
  (if (pwrval =? 0x01) && (rectval =? 0xe2)
   then with_ds (Dstate.status_set "OB")
   else if pwrval =? 0x01 then with_ds (Dstate.status_set "OL")
   else if pwrval =? 0x02 then with_ds (Dstate.status_set "OL BYPASS")
   else mret tt);;
  with_ds Dstate.status_commit;;
  let bat := val_from_hex onoff_buf (15 + 6) 2 in
  (if bat =? 0xe0
   then dstate_setinfo "battery.charger.status" (FStr "resting")
   else if (bat =? 0xe1) || (bat =? 0xe2)
   then dstate_setinfo "battery.charger.status" (FStr "charging")
   else if bat =? 0xe3
   then dstate_setinfo "battery.charger.status" (FStr "discharging")
   else mret tt);;
  let tst := val_from_hex onoff_buf (15 + 8) 2 in
  (if tst =? 0xe0
   then dstate_setinfo "ups.test.result" (FStr "In progress")
   else if tst =? 0xe1
   then dstate_setinfo "ups.test.result" (FStr "Idle")
   else mret tt);;
  with_ds Dstate.dstate_dataok.

(** The phase in which an accepted ON/OFF reply leaves the driver. *)
Definition onoff_next (dflag : Z) : gxe_poll_state :=
  if Z.testbit dflag 0 then GXE_WARNING
  else if Z.testbit dflag 4 then GXE_ONOFF
  else GXE_ANALOG.

(** An accepted ON/OFF reply whose data flag is 0x11: bit 0 and bit 4. *)
Definition onoff_reply_both_flags : list Z :=
  cstr "~21012A00D014" ++ cstr "110100E1E0E100000000" ++ cstr "F000" ++ [13].

(** An accepted ON/OFF reply whose data flag is 0x10: bit 4 alone. *)
Definition onoff_reply_onoff_flag : list Z :=
  cstr "~21012A00D014" ++ cstr "100100E1E0E100000000" ++ cstr "F000" ++ [13].

(** Computations that publish facts and mark the batch, leaving the
    status and alarm sets alone. *)
Definition info_only (m : M unit) : Prop :=
  forall st, exists d,
    m st = Some (tt, upd_ds d st) /\
    status_buf d = status_buf (ds st) /\ ups_status d = ups_status (ds st) /\
    alarm_buf d = alarm_buf (ds st) /\ ups_alarm d = ups_alarm (ds st).

(** The facts [analog_publish] sets once the phase and the status are
    settled. *)
Definition analog_facts (analog_buf : list Z) : M unit :=
  dstate_setinfo "input.voltage" (FFloat "%.02f" (centi analog_buf 15));;
  dstate_setinfo "output.voltage"
    (FFloat "%.02f" (centi analog_buf (15 + 12)));;
  dstate_setinfo "output.current"
    (FFloat "%.02f" (centi analog_buf (15 + 24)));;
  dstate_setinfo "battery.voltage"
    (FFloat "%.02f" (centi analog_buf (15 + 36)));;
  dstate_setinfo "output.frequency"
    (FFloat "%.02f" (centi analog_buf (15 + 40)));;
  dstate_setinfo "input.frequency"
    (FFloat "%.02f" (centi analog_buf (15 + 52)));;
  dstate_setinfo "ups.realpower"
    (FInt "%d" (CInt.int32 (val_from_hex analog_buf (15 + 64) 4 * 10)));;
  dstate_setinfo "ups.power"
    (FInt "%d" (CInt.int32 (val_from_hex analog_buf (15 + 68) 4 * 10)));;
  dstate_setinfo "battery.runtime.low"
    (FFloat "%.2f" (F32.mul (centi analog_buf (15 + 80)) (F32.of_int 60)));;
  with_ds Dstate.dstate_dataok.

(** The correction of the status against the measured voltage. *)
Definition status_rewrite (flag : string) : M unit :=
  with_ds Dstate.status_init;;
  with_ds (Dstate.status_set flag);;
  with_ds Dstate.status_commit;;
  set_poll_state GXE_WARNING.

(** An accepted ANALOG reply: data flag 0, input voltage field 0032 (0.50
    V), every other field 0. *)
Definition analog_reply_half_volt : list Z :=
  cstr "~21012A001056" ++ cstr "00" ++ cstr "0032" ++ replicate 80 48
  ++ cstr "F000" ++ [13].

(** A store whose status is on battery. *)
Definition on_battery_store : dstate :=
  {| status_buf := ["OB"%string]; ups_status := ["OB"%string];
     alarm_buf := []; ups_alarm := []; info := ∅; stale := false |}.

(** An accepted ANALOG reply whose input-voltage field is 0000. *)
Definition analog_reply_no_volt : list Z :=
  cstr "~21012A001056" ++ cstr "00" ++ cstr "0000" ++ replicate 80 48
  ++ cstr "F000" ++ [13].

(** The value of the two characters the loop reads for table index [i]. *)
Definition warn_slot (warn_buf : list Z) (i : nat) : Z :=
  val_from_hex warn_buf (15 + i * 2) 2.

(** The raw codes that mean "active". *)
Definition slot_active (v : Z) : Prop :=
  v = 0x01 \/ v = 0x02 \/ v = 0x03 \/ v = 0xf0.

(** The names of the table entries from index [i] on whose slot is
    active, in table order. *)
Fixpoint active_names (warn_buf : list Z) (i : nat) (tbl : list (option string))
    : list string :=
  match tbl with
  | [] => []
  | None :: tbl' => active_names warn_buf (S i) tbl'
  | Some name :: tbl' =>
      (if warning_active (warn_slot warn_buf i) then [name] else [])
      ++ active_names warn_buf (S i) tbl'
  end.

(** The store after [alarm_set] for each of [names]. *)
Definition add_alarms (names : list string) (d : dstate) : dstate :=
  {| status_buf := status_buf d; ups_status := ups_status d;
     alarm_buf := alarm_buf d ++ names; ups_alarm := ups_alarm d;
     info := info d; stale := stale d |}.

(** An accepted WARNING reply: 02 in slot 3, 00 in every other slot. *)
Definition warning_reply_rectifier : list Z :=
  cstr "~21012A00B036" ++ cstr "00" ++ cstr "000000" ++ cstr "02"
  ++ replicate 44 48 ++ cstr "F000" ++ [13].

(** An accepted SYSPARAM reply: nominal voltage 00DC (220), nominal
    frequency 0032, both bypass flags 0001, test interval 0001. *)
Definition sysparam_reply_220 : list Z :=
  cstr "~21012A00906A" ++ replicate 18 48 ++ cstr "00DC" ++ cstr "0032"
  ++ replicate 8 48 ++ cstr "0001" ++ cstr "0001" ++ replicate 36 48
  ++ cstr "0001" ++ replicate 24 48 ++ cstr "F000" ++ [13].

(** ** Command names *)

(** The characters of the string an array holds: up to its first NUL. *)
Fixpoint c_chars (a : list Z) : list Z :=
  match a with
  | c :: rest => if c =? 0 then [] else c :: c_chars rest
  | [] => []
  end.

(** Two names are the same up to the case of their letters. *)
Definition same_nocase (a b : list Z) : Prop :=
  map tolower (c_chars a) = map tolower (c_chars b).

Definition known_commands : list string :=
  ["test.battery.start"; "test.battery.stop"; "load.on"; "load.off"]%string.

(** [k] attempts in a row that end in a failed validation, from the
    buffer [b] and the state [st] to [b'] and [st']. *)
Inductive failed_attempts (plat : platform) (data : list Z)
    : nat -> list Z -> driver -> list Z -> driver -> Prop :=
  | failed_none (b : list Z) (st : driver) :
      failed_attempts plat data 0 b st b st
  | failed_more (k : nat) (b b1 b2 : list Z) (st st1 st2 : driver) (v : Z) :
      instcmd_attempt plat b data 4 st = Some ((v, b1), st1) ->
      v < 0 ->
      failed_attempts plat data k b1 st1 b2 st2 ->
      failed_attempts plat data (S k) b st b2 st2.

(** A frame of the remote command carrying the four characters of [data]. *)
Definition remote_frame (data : list Z) (frame : list Z) : Prop :=
  length frame = 22%nat /\
  mem_read frame 5 4 = gxe_cmds GXE_REMOTE_COMMAND /\
  mem_read frame 13 4 = take 4 data.

(** [k] exchanges of the remote command in a row whose reply fails the
    validation against the minimum length 13, from the buffer [b] and the
    state [st] to [b'] and [st']; each leaves the line of the log that
    [validate_ret] writes. *)
Inductive rejected_exchanges (plat : platform) (data : list Z)
    : nat -> list Z -> driver -> list Z -> driver -> Prop :=
  | rejected_none (b : list Z) (st : driver) :
      rejected_exchanges plat data 0 b st b st
  | rejected_more (k : nat) (b b1 b2 : list Z) (st st1 st2 : driver) (ret : Z) :
      frame_send_and_recv plat b 64 GXE_REMOTE_COMMAND (cstrz "21")
        (devaddr st) data 4 st = Some ((ret, b1), st1) ->
      fst (validate_ret b1 ret 13) < 0 ->
      rejected_exchanges plat data k b1
        (add_log (snd (validate_ret b1 ret 13)) st1) b2 st2 ->
      rejected_exchanges plat data (S k) b st b2 st2.

(** An 18-byte reply with return code 04, as the device sends when it
    refuses a command. *)
Definition reply_refused : list Z := cstr "~21012A040000FD9E" ++ [13].

(** * Start-up: upsdrv_initups and upsdrv_initinfo *)





Section Startup.

Variable plat : platform.



End Startup.

(** * Further specification-side definitions and sample data *)

(** ** Frames *)

(** A seven-bit character: its value does not depend on the signedness
    of [char]. *)
Definition is_ascii (b : Z) : Prop := 0 <= b <= 127.

(** The eighteen bytes of a request without payload: SOI, version 2.1,
    the two characters of the address, the command, a zero LENGTH, the
    checksum and EOI. *)
Definition request_frame (plat : platform) (cmd : gxe_cmd) (adr : list Z)
    : list Z :=
  let body := cstr "21" ++ take 2 adr ++ gxe_cmds cmd ++ cstr "0000" in
  [0x7e] ++ body ++ take 4 (proto_checksum plat body) ++ [0x0d].

(** What the next send on the line will report. *)
Definition next_send (s : serial) : Z :=
  match ser_send_rets s with
  | r :: _ => r
  | [] => 0
  end.

(** ** Postconditions of the handlers *)

(** [m] returns from [st], has changed at most the phase and the store,
    and these satisfy [Q]. *)
Definition wp (m : M unit) (Q : gxe_poll_state -> dstate -> Prop)
    (st : driver) : Prop :=
  exists p d, m st = Some (tt, upd_poll p (upd_ds d st)) /\ Q p d.

(** The two branches of the handler of phase [p]. *)
Definition phase_failed (p : gxe_poll_state) : M unit :=
  match p with
  | GXE_ONOFF => set_poll_state GXE_ONOFF;; with_ds Dstate.dstate_datastale
  | GXE_WARNING => set_poll_state GXE_WARNING;; with_ds Dstate.dstate_datastale
  | GXE_ANALOG | GXE_SYSPARAM => with_ds Dstate.dstate_datastale
  end.

Definition phase_publish (p : gxe_poll_state) : list Z -> M unit :=
  match p with
  | GXE_ONOFF => onoff_publish
  | GXE_ANALOG => analog_publish
  | GXE_WARNING => warning_publish
  | GXE_SYSPARAM => sysparam_publish
  end.

(** The phase in which [analog_publish] leaves a driver that was in
    phase [cur]; [ol] and [ob] tell whether the status holds OL and OB
    when the reply arrives. *)
Definition analog_next (cur : gxe_poll_state) (dflag field : Z) (ol ob : bool)
    : gxe_poll_state :=
  let volt := CInt.div field 100 in
  if ((volt =? 0) && ol) || ((volt >? 0) && ob) then GXE_WARNING
  else if Z.testbit dflag 0 then GXE_WARNING
  else if Z.testbit dflag 4 then GXE_ONOFF
  else cur.

(** The transitions of the polling state machine on an accepted reply
    held in [buf], from phase [p] with the store [d]. *)
Definition next_phase (p : gxe_poll_state) (buf : list Z) (d : dstate)
    : gxe_poll_state :=
  match p with
  | GXE_SYSPARAM => GXE_WARNING
  | GXE_WARNING => GXE_ONOFF
  | GXE_ONOFF => onoff_next (val_from_hex buf 13 2)
  | GXE_ANALOG =>
      analog_next GXE_ANALOG (val_from_hex buf 13 2) (val_from_hex buf 15 4)
        (Dstate.status_get "OL" d) (Dstate.status_get "OB" d)
  end.

(** What an accepted ON/OFF reply in [buf] makes of the store [d0]. *)
Definition onoff_post (buf : list Z) (d0 d : dstate) : Prop :=
  let pwrval := val_from_hex buf 15 2 in
  let rectval := val_from_hex buf 19 2 in
  let bat := val_from_hex buf 21 2 in
  let tst := val_from_hex buf 23 2 in
  stale d = false /\
  status_buf d = ups_status d /\
  (pwrval = 0x01 -> rectval = 0xe2 -> ups_status d = ["OB"%string]) /\
  (pwrval = 0x01 -> rectval <> 0xe2 -> ups_status d = ["OL"%string]) /\
  (pwrval = 0x02 -> ups_status d = ["OL"; "BYPASS"]%string) /\
  (pwrval <> 0x01 -> pwrval <> 0x02 -> ups_status d = []) /\
  alarm_buf d = alarm_buf d0 /\ ups_alarm d = ups_alarm d0 /\
  (bat = 0xe0 ->
   info d !! "battery.charger.status"%string = Some (FStr "resting")) /\
  (bat = 0xe1 \/ bat = 0xe2 ->
   info d !! "battery.charger.status"%string = Some (FStr "charging")) /\
  (bat = 0xe3 ->
   info d !! "battery.charger.status"%string = Some (FStr "discharging")) /\
  (bat < 0xe0 \/ 0xe3 < bat ->
   info d !! "battery.charger.status"%string
   = info d0 !! "battery.charger.status"%string) /\
  (tst = 0xe0 ->
   info d !! "ups.test.result"%string = Some (FStr "In progress")) /\
  (tst = 0xe1 -> info d !! "ups.test.result"%string = Some (FStr "Idle")) /\
  (tst <> 0xe0 -> tst <> 0xe1 ->
   info d !! "ups.test.result"%string = info d0 !! "ups.test.result"%string) /\
  (forall name : string,
     name <> "battery.charger.status"%string ->
     name <> "ups.test.result"%string ->
     info d !! name = info d0 !! name).

(** The facts of the ANALOG phase. *)
Definition analog_names : list string :=
  ["input.voltage"; "output.voltage"; "output.current"; "battery.voltage";
   "output.frequency"; "input.frequency"; "ups.realpower"; "ups.power";
   "battery.runtime.low"]%string.

(** What [analog_facts] makes of the store [d0]. *)
Definition analog_facts_post (buf : list Z) (d0 d : dstate) : Prop :=
  stale d = false /\
  status_buf d = status_buf d0 /\ ups_status d = ups_status d0 /\
  alarm_buf d = alarm_buf d0 /\ ups_alarm d = ups_alarm d0 /\
  info d !! "input.voltage"%string = Some (FFloat "%.02f" (centi buf 15)) /\
  info d !! "output.voltage"%string = Some (FFloat "%.02f" (centi buf 27)) /\
  info d !! "output.current"%string = Some (FFloat "%.02f" (centi buf 39)) /\
  info d !! "battery.voltage"%string = Some (FFloat "%.02f" (centi buf 51)) /\
  info d !! "output.frequency"%string = Some (FFloat "%.02f" (centi buf 55)) /\
  info d !! "input.frequency"%string = Some (FFloat "%.02f" (centi buf 67)) /\
  info d !! "ups.realpower"%string
  = Some (FInt "%d" (val_from_hex buf 79 4 * 10)) /\
  info d !! "ups.power"%string
  = Some (FInt "%d" (val_from_hex buf 83 4 * 10)) /\
  info d !! "battery.runtime.low"%string
  = Some (FFloat "%.2f" (F32.mul (centi buf 95) (F32.of_int 60))) /\
  (forall name : string, name ∉ analog_names -> info d !! name = info d0 !! name).

(** The facts of the SYSPARAM phase. *)
Definition sysparam_names : list string :=
  ["output.voltage.nominal"; "output.frequency.nominal";
   "input.transfer.bypass.high"; "input.transfer.bypass.low";
   "ups.test.interval"]%string.

(** What an accepted SYSPARAM reply in [buf] makes of the store [d0]. *)
Definition sysparam_post (buf : list Z) (d0 d : dstate) : Prop :=
  let interval := val_from_hex buf 91 4 in
  stale d = false /\
  status_buf d = status_buf d0 /\ ups_status d = ups_status d0 /\
  alarm_buf d = alarm_buf d0 /\ ups_alarm d = ups_alarm d0 /\
  info d !! "output.voltage.nominal"%string
  = Some (FInt "%d" (val_from_hex buf 31 4)) /\
  info d !! "output.frequency.nominal"%string
  = Some (FInt "%d" (val_from_hex buf 35 4)) /\
  (0 <= interval ->
   info d !! "ups.test.interval"%string = Some (FInt "%lu" (interval * 324000))) /\
  (interval < 0 ->
   info d !! "ups.test.interval"%string
   = Some (FInt "%lu" (2 ^ 64 + interval * 324000))) /\
  (forall name : string, name ∉ sysparam_names -> info d !! name = info d0 !! name).

(** What an accepted WARNING reply in [buf] makes of the store [d0]. *)
Definition warning_post (buf : list Z) (d0 d : dstate) : Prop :=
  stale d = false /\
  status_buf d = status_buf d0 /\ ups_status d = ups_status d0 /\
  alarm_buf d = active_names buf 0 gxe_warns /\
  ups_alarm d = active_names buf 0 gxe_warns /\
  info d = info d0.

(** What the status correction of the ANALOG phase makes of the store
    [d0]: the status is rewritten when it contradicts the measured input
    voltage, and nothing else changes. *)
Definition analog_status_post (buf : list Z) (d0 d : dstate) : Prop :=
  let volt := CInt.div (val_from_hex buf 15 4) 100 in
  let ol := Dstate.status_get "OL" d0 in
  let ob := Dstate.status_get "OB" d0 in
  stale d = stale d0 /\ info d = info d0 /\
  alarm_buf d = alarm_buf d0 /\ ups_alarm d = ups_alarm d0 /\
  (volt = 0 -> ol = true ->
   status_buf d = ["OB"%string] /\ ups_status d = ["OB"%string]) /\
  (0 < volt -> ob = true ->
   status_buf d = ["OL"%string] /\ ups_status d = ["OL"%string]) /\
  ((volt =? 0) && ol = false -> (volt >? 0) && ob = false -> d = d0).

(** ** Ticks in a row *)

(** A tick from [st] whose reply, held in [buf], passes validation and
    which ends in [st2]. *)
Definition accepted_tick (plat : platform) (st : driver) (buf : list Z)
    (st2 : driver) : Prop :=
  exists ret st1,
    phase_exchange plat (poll_state st) st = Some ((ret, buf), st1) /\
    0 <= fst (validate_ret buf ret (phase_minlen (poll_state st))) /\
    upsdrv_updateinfo plat st = Some (tt, st2).

(** An accepted ON/OFF reply whose data flag is 00. *)
Definition onoff_reply_plain : list Z :=
  cstr "~21012A00D014" ++ cstr "000100E1E0E100000000" ++ cstr "F000" ++ [13].

(** The state a tick leaves; [st] itself where the tick is undefined. *)
Definition after_tick (plat : platform) (st : driver) : driver :=
  match upsdrv_updateinfo plat st with
  | Some (_, st') => st'
  | None => st
  end.

(** A driver about to poll the system parameters, whose line will answer
    the next three requests. *)
Definition cycle_start : driver :=
  sample_driver GXE_SYSPARAM sample_store
    [RecvData sysparam_reply_220; RecvData warning_reply_rectifier;
     RecvData onoff_reply_plain].

(** ** Start-up *)





(** * Properties *)

(** ** Bounded enumeration *)

Lemma all_from_spec (f : Z -> bool) (len : nat) :
  forall start, all_from f start len = true ->
  forall z, start <= z < start + Z.of_nat len -> f z = true.
Proof.
  induction len as [| k IH]; intros start Hall z Hz; [lia |].
  cbn [all_from] in Hall. apply andb_true_iff in Hall as [Hs Hrest].
  destruct (Z.eq_dec z start) as [-> | Hne]; [exact Hs |].
  apply (IH (start + 1) Hrest). lia.
Qed.

Lemma all_below (f : Z -> bool) (n : Z) :
  all_from f 0 (Z.to_nat n) = true ->
  forall z, 0 <= z < n -> f z = true.
Proof. intros Hall z Hz. apply (all_from_spec f _ 0 Hall). lia. Qed.

(** [range_fact f n x H] adds [H : f x = true] for [0 <= x < n] by running
    [f] over the whole range. *)
Ltac range_fact f n x H :=
  let Hall := fresh "Hall" in
  let Hr := fresh "Hr" in
  assert (Hall : all_from f 0 (Z.to_nat n) = true)
    by (vm_cast_no_check (eq_refl true));
  assert (Hr : 0 <= x < n) by lia;
  pose proof (all_below f n Hall x Hr) as H;
  cbv beta in H; clear Hall Hr.

(** ** Length checksum *)

Lemma proto_lchecksum_word_le (plat : platform) (dlen : Z) :
  WORDS_BIGENDIAN plat = false ->
  proto_lchecksum_word plat dlen = proto_lchecksum_word le_host dlen.
Proof.
  intros Hle. unfold proto_lchecksum_word, htole16. rewrite Hle. reflexivity.
Qed.

Lemma decoded_length_word_le (plat : platform) (dlen : Z) :
  WORDS_BIGENDIAN plat = false ->
  decoded_length_word plat dlen = decoded_length_word le_host dlen.
Proof.
  intros Hle. unfold decoded_length_word, proto_lchecksum.
  rewrite (proto_lchecksum_word_le plat) by exact Hle. reflexivity.
Qed.

(** The masks are added without being shifted down, so that only the low
    nibble of the length survives the reduction modulo 16. *)
Lemma proto_lchecksum_word_low_nibble (plat : platform) (dlen : Z) :
  WORDS_BIGENDIAN plat = false ->
  0 <= dlen <= 110 ->
  proto_lchecksum_word plat dlen = dlen + 4096 * ((16 - dlen mod 16) mod 16).
Proof.
  intros Hle Hd.
  rewrite (proto_lchecksum_word_le plat) by exact Hle.
  range_fact (fun d => proto_lchecksum_word le_host d
                       =? d + 4096 * ((16 - d mod 16) mod 16)) 111 dlen H.
  apply Z.eqb_eq in H. exact H.
Qed.

(** The four characters decode back to the word that was printed. *)
Lemma decoded_length_word_eq (plat : platform) (dlen : Z) :
  WORDS_BIGENDIAN plat = false ->
  0 <= dlen <= 110 ->
  decoded_length_word plat dlen = proto_lchecksum_word plat dlen.
Proof.
  intros Hle Hd.
  rewrite (proto_lchecksum_word_le plat), (decoded_length_word_le plat) by exact Hle.
  range_fact (fun d => decoded_length_word le_host d
                       =? proto_lchecksum_word le_host d) 111 dlen H.
  apply Z.eqb_eq in H. exact H.
Qed.

(** Where the code and the specification agree: lengths below 16. *)
Lemma proto_lchecksum_agrees_iff (plat : platform) (dlen : Z) :
  WORDS_BIGENDIAN plat = false ->
  0 <= dlen <= 110 ->
  nibble 3 (decoded_length_word plat dlen) = lchecksum_spec dlen <-> dlen < 16.
Proof.
  intros Hle Hd.
  rewrite (decoded_length_word_le plat) by exact Hle.
  range_fact (fun d => Bool.eqb (nibble 3 (decoded_length_word le_host d)
                                 =? lchecksum_spec d) (d <? 16)) 111 dlen H.
  apply Bool.eqb_prop in H.
  rewrite <- Z.eqb_eq, H, Z.ltb_lt. reflexivity.
Qed.

Lemma proto_lchecksum_resum_iff (plat : platform) (dlen : Z) :
  WORDS_BIGENDIAN plat = false ->
  0 <= dlen <= 110 ->
  lchecksum_resum (decoded_length_word plat dlen) = 0 <-> dlen < 16.
Proof.
  intros Hle Hd.
  rewrite (decoded_length_word_le plat) by exact Hle.
  range_fact (fun d => Bool.eqb (lchecksum_resum (decoded_length_word le_host d) =? 0)
                                (d <? 16)) 111 dlen H.
  apply Bool.eqb_prop in H.
  rewrite <- Z.eqb_eq, H, Z.ltb_lt. reflexivity.
Qed.

(** C1 (the code departs from the specification): for the payload length 16 the
    code prints the length field "0010".  Its checksum nibble is 0 where
    the sum of the four nibbles, negated within 4 bits, is 15, and the
    re-sum of the field's nibbles is 1 rather than 0; the same holds on a
    big-endian host. *)
Theorem proto_lchecksum_ignores_upper_nibbles :
  proto_lchecksum le_host 16 = cstrz "0010" /\
  nibble 3 (decoded_length_word le_host 16) = 0 /\
  lchecksum_spec 16 = 15 /\
  lchecksum_resum (decoded_length_word le_host 16) = 1 /\
  lchecksum_resum
    (decoded_length_word {| CHAR_SIGNED := true; WORDS_BIGENDIAN := true |} 16)
  <> 0.
Proof. vm_compute. repeat split; discriminate. Qed.

(** ** Reply validation *)

Lemma int32_range (v : Z) : - 2 ^ 31 <= CInt.int32 v < 2 ^ 31.
Proof.
  unfold CInt.int32, CInt.wrap_signed.
  pose proof (Z.mod_pos_bound v (2 ^ 32) eq_refl) as Hm.
  change (2 ^ (32 - 1)) with 2147483648. change (2 ^ 31) with 2147483648.
  change (2 ^ 32) with 4294967296 in *.
  destruct (Z.ltb_spec (v mod 4294967296) 2147483648); lia.
Qed.

Lemma val_from_hex_range (buf : list Z) (off dlen : nat) :
  - 2 ^ 31 <= val_from_hex buf off dlen < 2 ^ 31.
Proof.
  unfold val_from_hex. destruct (decide (15 < dlen)%nat).
  - change (2 ^ 31) with 2147483648. lia.
  - apply int32_range.
Qed.

Lemma RTN_TO_STR_failure_name (code : Z) :
  - 2 ^ 31 <= code < 2 ^ 31 -> code <> 0 ->
  RTN_TO_STR code = failure_name code.
Proof.
  change (2 ^ 31) with 2147483648. intros Hr Hnz.
  destruct (Z_lt_le_dec code 0) as [Hneg | Hpos].
  - unfold RTN_TO_STR, CInt.wrap_unsigned.
    change (2 ^ 64) with 18446744073709551616.
    replace (code mod 18446744073709551616) with (code + 18446744073709551616).
    2:{ apply Z.mod_unique with (q := -1); lia. }
    destruct (Z.ltb_spec (code + 18446744073709551616) (Z.of_nat (length rtn_vals)));
      [simpl in *; lia|].
    destruct code; try lia; reflexivity.
  - destruct (Z_lt_le_dec code 7) as [Hs | Hb].
    + assert (Hc : code = 1 \/ code = 2 \/ code = 3 \/ code = 4 \/ code = 5 \/ code = 6)
        by lia.
      destruct Hc as [-> | [-> | [-> | [-> | [-> | ->]]]]]; reflexivity.
    + unfold RTN_TO_STR, CInt.wrap_unsigned.
      change (2 ^ 64) with 18446744073709551616.
      rewrite Z.mod_small by lia.
      destruct (Z.ltb_spec code (Z.of_nat (length rtn_vals))); [simpl in *; lia|].
      destruct code as [| p | p]; try lia.
      do 3 (destruct p as [p | p |]; try reflexivity; try lia).
Qed.

Lemma failure_name_unknown (code : Z) :
  7 <= code -> failure_name code = "Unknown RTN"%string.
Proof.
  intros H. destruct code as [| p | p]; try lia; try reflexivity.
  do 3 (destruct p as [p | p |]; try reflexivity; try lia).
Qed.

(** C2 (counterexample to the specification as worded): on an accepted reply of
    18 bytes [validate_ret] returns 0, the decoded return code, and not
    the byte count. *)
Lemma validate_ret_returns_code_not_count :
  validate_ret reply_accepted 18 13 = (0, []) /\
  fst (validate_ret reply_accepted 18 13) <> 18.
Proof. vm_compute. split; [reflexivity | discriminate]. Qed.

(** C2 (amended): [validate_ret] returns -1 on a negative transport
    result and on a count below the minimum length; otherwise it decodes
    the two characters at offset 7, returns -1 when they are not zero,
    logging the name of codes 1 to 6 and "Unknown RTN" for any other code,
    and returns 0 when they are zero. *)
Theorem validate_ret_outcomes (buf : list Z) (ret minlen : Z) :
  let code := val_from_hex buf 7 2 in
  (ret < 0 -> fst (validate_ret buf ret minlen) = -1) /\
  (ret < minlen -> fst (validate_ret buf ret minlen) = -1) /\
  (0 <= ret -> minlen <= ret -> code <> 0 ->
   validate_ret buf ret minlen
   = (-1, [("Command failed: " ++ failure_name code)%string]) /\
   (7 <= code -> failure_name code = "Unknown RTN"%string)) /\
  (0 <= ret -> minlen <= ret -> code = 0 ->
   validate_ret buf ret minlen = (0, [])).
Proof.
  intros code. unfold validate_ret. fold code.
  destruct (Z.ltb_spec ret 0) as [Hneg | Hpos].
  { repeat split; intros; simpl; lia || reflexivity. }
  destruct (Z.ltb_spec ret minlen) as [Hshort | Hlen].
  { repeat split; intros; simpl; lia || reflexivity. }
  destruct (Z.eqb_spec code 0) as [Hz | Hnz]; simpl.
  - rewrite Hz. repeat split; intros; lia || reflexivity.
  - split; [intros; lia |]. split; [intros; lia |]. split; [| intros; lia].
    intros _ _ _. split.
    + rewrite RTN_TO_STR_failure_name;
        [reflexivity | apply val_from_hex_range | exact Hnz].
    + apply failure_name_unknown.
Qed.

(** The four outcomes of C2, on replies of 18 bytes. *)
Lemma validate_ret_outcomes_witness :
  fst (validate_ret reply_accepted (-1) 13) = -1 /\
  fst (validate_ret reply_accepted 12 13) = -1 /\
  validate_ret (cstr "~21012A020000FDA0" ++ [13]) 18 13
  = (-1, ["Command failed: Bad CHKSUM"%string]) /\
  validate_ret (cstr "~21012A070000FD9B" ++ [13]) 18 13
  = (-1, ["Command failed: Unknown RTN"%string]) /\
  validate_ret reply_accepted 18 13 = (0, []).
Proof.
  split; [apply (validate_ret_outcomes reply_accepted (-1) 13); lia |].
  split; [apply (validate_ret_outcomes reply_accepted 12 13); lia |].
  split.
  { apply (validate_ret_outcomes (cstr "~21012A020000FDA0" ++ [13]) 18 13);
      [lia | lia | vm_compute; discriminate]. }
  split.
  { apply (validate_ret_outcomes (cstr "~21012A070000FD9B" ++ [13]) 18 13);
      [lia | lia | vm_compute; discriminate]. }
  apply (validate_ret_outcomes reply_accepted 18 13); [lia | lia | reflexivity].
Defined.

(** ** Fixed-width strings *)

Lemma mem_write_Some (buf : list Z) (off : nat) (src : list Z) :
  (off + length src <= length buf)%nat ->
  mem_write buf off src
  = Some (take off buf ++ src ++ drop (off + length src) buf).
Proof. intros H. unfold mem_write. rewrite decide_True by exact H. reflexivity. Qed.

Lemma mem_write_None (buf : list Z) (off : nat) (src : list Z) :
  (length buf < off + length src)%nat -> mem_write buf off src = None.
Proof. intros H. unfold mem_write. rewrite decide_False by lia. reflexivity. Qed.

Lemma mem_write_None' (buf : list Z) (off : nat) (src : list Z) :
  mem_write buf off src = None <-> (length buf < off + length src)%nat.
Proof.
  unfold mem_write. destruct (decide _); split; intros; try discriminate; try lia.
  reflexivity.
Qed.

Lemma mem_write_length (buf : list Z) (off : nat) (src b' : list Z) :
  mem_write buf off src = Some b' -> length b' = length buf.
Proof.
  unfold mem_write. destruct (decide _) as [H | H]; [| discriminate].
  intros [= <-]. rewrite !length_app, length_take, length_drop. lia.
Qed.

Lemma size_wrap_pred (len : nat) :
  (1 <= len)%nat -> Z.of_nat len <= CInt.SIZE_MAX ->
  CInt.wrap_unsigned 64 (Z.of_nat len - 1) = Z.of_nat len - 1.
Proof.
  unfold CInt.SIZE_MAX, CInt.wrap_unsigned.
  change (2 ^ 64) with 18446744073709551616.
  intros H1 H2. apply Z.mod_small. lia.
Qed.

Lemma hex_pairs_from_S (dbuf : list Z) (j n : nat) :
  hex_pairs_from dbuf j (S n)
  = val_from_hex dbuf (2 * j) 2 :: hex_pairs_from dbuf (S j) n.
Proof. reflexivity. Qed.

Lemma substr_from_hex_loop_S (n j : nat) (substr : list Z) (len : nat)
    (dbuf : list Z) :
  substr_from_hex_loop (S n) j substr len dbuf
  = if val_from_hex dbuf (2 * j) 2 =? 0x20 then mem_write substr j [0]
    else if Z.of_nat j >? CInt.wrap_unsigned 64 (Z.of_nat len - 1)
    then mem_write substr j [0]
    else
      s ← mem_write substr j [CInt.uint8 (val_from_hex dbuf (2 * j) 2)];
      substr_from_hex_loop n (S j) s len dbuf.
Proof. reflexivity. Qed.

Lemma substr_from_hex_loop_fits (dbuf : list Z) (len n : nat) :
  Z.of_nat len <= CInt.SIZE_MAX ->
  forall (j : nat) (substr : list Z),
    let pre := until_space (hex_pairs_from dbuf j n) in
    (j + length pre < len)%nat -> (len <= length substr)%nat ->
    substr_from_hex_loop n j substr len dbuf
    = Some (take j substr ++ map CInt.uint8 pre ++ [0]
            ++ drop (j + length pre + 1) substr).
Proof.
  intros Hsz. induction n as [| n IH]; intros j substr pre Hfit Hcap; subst pre.
  - simpl in *. rewrite mem_write_Some by (simpl; lia).
    simpl. repeat f_equal; lia.
  - rewrite hex_pairs_from_S in *. rewrite substr_from_hex_loop_S.
    cbn [until_space] in *.
    destruct (Z.eqb_spec (val_from_hex dbuf (2 * j) 2) 32) as [Hsp | Hns].
    + cbn [length] in Hfit. clear Hsp IH.
      rewrite mem_write_Some by (cbn [length]; lia).
      cbn [length map app]. repeat f_equal; lia.
    + cbn [length] in Hfit.
      rewrite size_wrap_pred by lia.
      destruct (Z.gtb_spec (Z.of_nat j) (Z.of_nat len - 1)) as [Hgt | Hle]; [lia |].
      rewrite mem_write_Some by (cbn [length]; lia). cbn [length].
      cbn [mbind option_bind].
      set (v := CInt.uint8 (val_from_hex dbuf (2 * j) 2)).
      set (s := take j substr ++ [v] ++ drop (j + 1) substr).
      assert (Hls : length s = length substr).
      { unfold s. rewrite !length_app, length_take, length_drop. cbn [length]. lia. }
      rewrite (IH (S j) s) by lia.
      f_equal.
      assert (Ht : take (S j) s = take j substr ++ [v]).
      { unfold s. rewrite app_assoc.
        rewrite take_app_le by (rewrite length_app, length_take; cbn [length]; lia).
        rewrite take_ge by (rewrite length_app, length_take; cbn [length]; lia).
        reflexivity. }
      rewrite Ht.
      assert (Hd : forall k, drop (S j + k) s = drop (S j + k) substr).
      { intros k. unfold s. rewrite app_assoc.
        rewrite drop_app_ge by (rewrite length_app, length_take; cbn [length]; lia).
        rewrite length_app, length_take. cbn [length].
        rewrite drop_drop. f_equal. lia. }
      set (pre := until_space (hex_pairs_from dbuf (S j) n)) in *.
      replace (S j + length pre + 1)%nat with (S j + (length pre + 1))%nat by lia.
      replace (j + S (length pre) + 1)%nat with (S j + (length pre + 1))%nat by lia.
      rewrite Hd. cbn [map]. fold v. rewrite <- !app_assoc. reflexivity.
Qed.

Lemma substr_from_hex_loop_overflow (dbuf : list Z) (len n : nat) :
  (1 <= len)%nat -> Z.of_nat len <= CInt.SIZE_MAX ->
  forall (j : nat) (substr : list Z),
    (len <= j + length (until_space (hex_pairs_from dbuf j n)))%nat ->
    (j <= len)%nat -> length substr = len ->
    substr_from_hex_loop n j substr len dbuf = None.
Proof.
  intros Hpos Hsz. induction n as [| n IH]; intros j substr Hlong Hj Hlen.
  - simpl in *. apply mem_write_None. simpl. lia.
  - rewrite hex_pairs_from_S in *. rewrite substr_from_hex_loop_S.
    cbn [until_space] in *.
    destruct (Z.eqb_spec (val_from_hex dbuf (2 * j) 2) 32) as [Hsp | Hns].
    + cbn [length] in Hlong. clear Hsp IH. apply mem_write_None. cbn [length]. lia.
    + cbn [length] in Hlong. rewrite size_wrap_pred by lia.
      destruct (Z.gtb_spec (Z.of_nat j) (Z.of_nat len - 1)) as [Hgt | Hle].
      * apply mem_write_None. cbn [length]. lia.
      * rewrite mem_write_Some by (cbn [length]; lia). cbn [mbind option_bind].
        apply IH; [lia | lia |].
        rewrite !length_app, length_take, length_drop. cbn [length]. lia.
Qed.

(** Within the capacity the code does what the specification says. *)
Lemma substr_from_hex_fits (substr : list Z) (len : nat) (dbuf : list Z) (dlen : nat) :
  Z.of_nat len <= CInt.SIZE_MAX ->
  (length (until_space (hex_pairs dbuf dlen)) < len)%nat ->
  (len <= length substr)%nat ->
  substr_from_hex substr len dbuf dlen
  = Some (string_from_hex_spec len dbuf dlen
          ++ drop (length (until_space (hex_pairs dbuf dlen)) + 1) substr).
Proof.
  intros Hsz Hfit Hcap. unfold substr_from_hex, string_from_hex_spec.
  unfold hex_pairs in *.
  set (pre := until_space (hex_pairs_from dbuf 0 (Nat.div2 (dlen + 1)))) in *.
  rewrite (substr_from_hex_loop_fits dbuf len _ Hsz 0 substr) by (fold pre; lia).
  fold pre. change (take 0 substr) with (@nil Z).
  rewrite (take_ge pre (len - 1)) by lia.
  cbn [app Nat.add]. rewrite <- app_assoc. reflexivity.
Qed.

(** A field that does not end within [len - 1] bytes is stored for [len]
    bytes, and the terminator goes one cell past the capacity. *)
Lemma substr_from_hex_overflow (substr : list Z) (len : nat) (dbuf : list Z) (dlen : nat) :
  (1 <= len)%nat -> Z.of_nat len <= CInt.SIZE_MAX ->
  (len <= length (until_space (hex_pairs dbuf dlen)))%nat ->
  length substr = len ->
  substr_from_hex substr len dbuf dlen = None.
Proof.
  intros Hpos Hsz Hlong Hlen. unfold substr_from_hex.
  unfold hex_pairs in Hlong.
  apply substr_from_hex_loop_overflow; try assumption; lia.
Qed.

(** C9 (the code departs from the specification): with a capacity of 2 and the
    input "414243" the specification's string is "A" and its terminator.
    The code stores "AB" and puts the terminator at index 2, outside an
    object of 2 cells; in a larger object the cell after the capacity is
    overwritten. *)
Theorem substr_from_hex_writes_past_capacity :
  string_from_hex_spec 2 (cstr "414243") 6 = [65; 0] /\
  substr_from_hex [7; 7] 2 (cstr "414243") 6 = None /\
  substr_from_hex [7; 7; 7; 7] 2 (cstr "414243") 6 = Some [65; 66; 0; 7].
Proof. vm_compute. repeat split. Qed.

(** ** Payload checksum *)

Lemma mem_write_lookup (buf : list Z) (off : nat) (src b' : list Z) (i : nat) :
  mem_write buf off src = Some b' ->
  b' !! i = if decide (off <= i < off + length src)%nat
            then src !! (i - off)%nat else buf !! i.
Proof.
  unfold mem_write. destruct (decide _) as [Hin | Hout]; [| discriminate].
  intros [= <-].
  destruct (decide (off <= i < off + length src)%nat) as [Hi | Hi].
  - rewrite lookup_app_r by (rewrite length_take; lia).
    rewrite length_take, Nat.min_l by lia.
    rewrite lookup_app_l by lia. reflexivity.
  - destruct (decide (i < off)%nat) as [Hlt | Hge].
    + rewrite lookup_app_l by (rewrite length_take; lia).
      apply lookup_take_lt. exact Hlt.
    + rewrite lookup_app_r by (rewrite length_take; lia).
      rewrite length_take, Nat.min_l by lia.
      rewrite lookup_app_r by lia.
      rewrite lookup_drop. f_equal. lia.
Qed.

Lemma mem_read_lookup (buf : list Z) (off n i : nat) :
  mem_read buf off n !! i = if decide (i < n)%nat then buf !! (off + i)%nat else None.
Proof.
  unfold mem_read. destruct (decide (i < n)%nat) as [Hi | Hi].
  - rewrite lookup_take_lt by exact Hi. apply lookup_drop.
  - apply lookup_take_ge. lia.
Qed.

(** A read below a write sees the old contents. *)
Lemma mem_read_write_below (buf : list Z) (off : nat) (src b' : list Z) (offr n : nat) :
  mem_write buf off src = Some b' -> (offr + n <= off)%nat ->
  mem_read b' offr n = mem_read buf offr n.
Proof.
  intros Hw Hb. apply list_eq. intros i. rewrite !mem_read_lookup.
  destruct (decide (i < n)%nat); [| reflexivity].
  rewrite (mem_write_lookup _ _ _ _ _ Hw). rewrite decide_False by lia. reflexivity.
Qed.

(** A read of what was just written. *)
Lemma mem_read_write_at (buf : list Z) (off : nat) (src b' : list Z) (n : nat) :
  mem_write buf off src = Some b' -> (n <= length src)%nat ->
  mem_read b' off n = take n src.
Proof.
  intros Hw Hn. apply list_eq. intros i. rewrite mem_read_lookup.
  destruct (decide (i < n)%nat) as [Hi | Hi].
  - rewrite (mem_write_lookup _ _ _ _ _ Hw). rewrite decide_True by lia.
    rewrite lookup_take_lt by exact Hi. f_equal. lia.
  - symmetry. apply lookup_take_ge. lia.
Qed.

Lemma checksum_fold (plat : platform) (l : list Z) (a : Z) :
  fold_left (fun sum b => CInt.uint32 (sum + char_value plat b)) l (a mod 2 ^ 32)
  = (a + byte_sum (map (char_value plat) l)) mod 2 ^ 32.
Proof.
  revert a. induction l as [| b l IH]; intros a; cbn [fold_left map byte_sum fold_right].
  - rewrite Z.add_0_r. reflexivity.
  - unfold CInt.uint32 at 2, CInt.wrap_unsigned.
    rewrite Zplus_mod_idemp_l, IH. f_equal. fold (byte_sum (map (char_value plat) l)). lia.
Qed.

Lemma proto_checksum_sum_spec (plat : platform) (l : list Z) :
  proto_checksum_sum plat l = byte_sum (map (char_value plat) l) mod 65536.
Proof.
  unfold proto_checksum_sum.
  change 0 with (0 mod 2 ^ 32) at 1. rewrite checksum_fold, Z.add_0_l.
  apply Z.mod_mod_divide. exists 65536. reflexivity.
Qed.

(** On a host whose plain [char] is signed a byte above 0x7f enters the
    sum as a negative value; where it is unsigned, as the byte. *)
Lemma proto_checksum_sum_high_byte :
  proto_checksum_sum {| CHAR_SIGNED := true; WORDS_BIGENDIAN := false |} [0x80]
  = 65536 - 128 /\
  proto_checksum_sum {| CHAR_SIGNED := false; WORDS_BIGENDIAN := false |} [0x80]
  = 128.
Proof. split; reflexivity. Qed.

(** What is printed when the sum is not a multiple of 65536: its 16-bit
    two's complement. *)
Lemma proto_checksum_arg_spec (plat : platform) (l : list Z) :
  proto_checksum_sum plat l <> 0 ->
  proto_checksum_arg plat l = 65536 - proto_checksum_sum plat l.
Proof.
  intros Hnz. unfold proto_checksum_arg.
  assert (Hr : 0 <= proto_checksum_sum plat l < 65536)
    by (rewrite proto_checksum_sum_spec; apply Z.mod_pos_bound; reflexivity).
  set (s := proto_checksum_sum plat l) in *.
  unfold CInt.uint16, CInt.uint32, CInt.wrap_unsigned, Z.lnot.
  change (2 ^ 32) with 4294967296. change (2 ^ 16) with 65536.
  replace ((Z.pred (- s)) mod 4294967296) with (4294967295 - s)
    by (apply Z.mod_unique with (q := -1); lia).
  replace ((4294967295 - s) mod 65536) with (65535 - s)
    by (apply Z.mod_unique with (q := 65535); lia).
  lia.
Qed.

(** Four upper-case digits decode to the value printed. *)
Lemma fmt_04X_decodes (v : Z) :
  0 <= v < 65536 ->
  val_from_hex (take 4 (fmt_04X v ++ [0])) 0 4 = v.
Proof.
  intros Hv.
  range_fact (fun v => val_from_hex (take 4 (fmt_04X v ++ [0])) 0 4 =? v)
             65536 v H.
  apply Z.eqb_eq in H. exact H.
Qed.

(** The last two stores of [frame_make]: the checksum field is computed
    from the bytes 1 .. 12+dlen of the frame and neither store changes
    them. *)
Lemma frame_make_checksum_field (plat : platform) (buf : list Z) (cmdi : gxe_cmd)
    (ver adr dptr : list Z) (dlen : nat) (frame : list Z) (n : nat) :
  frame_make plat buf cmdi ver adr dptr dlen = Some (frame, n) ->
  n = (dlen + 18)%nat /\
  mem_read frame (13 + dlen) 4
  = take 4 (proto_checksum plat (mem_read frame 1 (dlen + 12))).
Proof.
  unfold frame_make. intros H.
  apply bind_Some in H as (b1 & _ & H).
  apply bind_Some in H as (v & _ & H).
  apply bind_Some in H as (b2 & _ & H).
  apply bind_Some in H as (a & _ & H).
  apply bind_Some in H as (b3 & _ & H).
  apply bind_Some in H as (b4 & _ & H).
  apply bind_Some in H as (b5 & _ & H).
  apply bind_Some in H as (d & _ & H).
  apply bind_Some in H as (b6 & _ & H).
  apply bind_Some in H as (b7 & Hck & H).
  apply bind_Some in H as (b8 & Heoi & H).
  injection H as <- <-. split; [reflexivity |].
  set (l := mem_read b6 1 (dlen + 12)) in *.
  assert (Hlen : length (proto_checksum plat l) = 5%nat).
  { unfold proto_checksum. rewrite length_take, length_app. cbn [length].
    assert (4 <= length (fmt_04X (proto_checksum_arg plat l)))%nat
      by (unfold fmt_04X, hex_digits; rewrite length_map, length_rev, length_seq; lia).
    lia. }
  rewrite (mem_read_write_below _ _ _ _ (13 + dlen) 4 Heoi) by lia.
  rewrite (mem_read_write_at _ _ _ _ 4 Hck) by lia.
  rewrite (mem_read_write_below _ _ _ _ 1 (dlen + 12) Heoi) by lia.
  rewrite (mem_read_write_below _ _ _ _ 1 (dlen + 12) Hck) by lia.
  reflexivity.
Qed.

(** Whenever the byte sum is not a multiple of 65536, the frame carries
    its 16-bit two's complement: sum and decoded checksum add up to 0
    modulo 65536. *)
Lemma frame_make_checksum_consistent (plat : platform) (buf : list Z)
    (cmdi : gxe_cmd) (ver adr dptr : list Z) (dlen : nat) (frame : list Z) (n : nat) :
  frame_make plat buf cmdi ver adr dptr dlen = Some (frame, n) ->
  byte_sum (checksummed plat frame dlen) mod 65536 <> 0 ->
  decoded_checksum frame dlen
  = 65536 - byte_sum (checksummed plat frame dlen) mod 65536 /\
  (byte_sum (checksummed plat frame dlen) + decoded_checksum frame dlen) mod 65536 = 0.
Proof.
  intros Hmk Hnz.
  destruct (frame_make_checksum_field _ _ _ _ _ _ _ _ _ Hmk) as [_ Hfield].
  unfold checksummed in *. rewrite <- proto_checksum_sum_spec in *.
  set (l := mem_read frame 1 (dlen + 12)) in *.
  assert (Hr : 0 <= proto_checksum_sum plat l < 65536)
    by (rewrite proto_checksum_sum_spec; apply Z.mod_pos_bound; reflexivity).
  assert (Hdec : decoded_checksum frame dlen = 65536 - proto_checksum_sum plat l).
  { unfold decoded_checksum, val_from_hex. fold (mem_read frame (13 + dlen) 4).
    rewrite Hfield. unfold proto_checksum.
    rewrite take_take, Nat.min_l by lia.
    rewrite proto_checksum_arg_spec by exact Hnz.
    pose proof (fmt_04X_decodes (65536 - proto_checksum_sum plat l)) as Hd.
    unfold val_from_hex in Hd. unfold mem_read in Hd at 1.
    rewrite drop_0 in Hd.
    rewrite take_ge in Hd by (rewrite length_take; lia).
    apply Hd. lia. }
  split; [exact Hdec |].
  rewrite Hdec, proto_checksum_sum_spec.
  set (s := byte_sum (map (char_value plat) l)).
  replace (s + (65536 - s mod 65536)) with (s - s mod 65536 + 1 * 65536) by lia.
  rewrite Z.mod_add by lia.
  rewrite Zminus_mod_idemp_r. rewrite Z.sub_diag. reflexivity.
Qed.

(** Whenever the byte sum is a multiple of 65536, the value printed is
    65536 and the checksum field reads "1000". *)
Lemma frame_make_checksum_wraps (plat : platform) (buf : list Z)
    (cmdi : gxe_cmd) (ver adr dptr : list Z) (dlen : nat) (frame : list Z) (n : nat) :
  frame_make plat buf cmdi ver adr dptr dlen = Some (frame, n) ->
  byte_sum (checksummed plat frame dlen) mod 65536 = 0 ->
  mem_read frame (13 + dlen) 4 = cstr "1000" /\
  decoded_checksum frame dlen = 4096.
Proof.
  intros Hmk Hz.
  destruct (frame_make_checksum_field _ _ _ _ _ _ _ _ _ Hmk) as [_ Hfield].
  unfold checksummed in Hz. rewrite <- proto_checksum_sum_spec in Hz.
  assert (Hf : mem_read frame (13 + dlen) 4 = cstr "1000").
  { rewrite Hfield. unfold proto_checksum, proto_checksum_arg. rewrite Hz.
    reflexivity. }
  split; [exact Hf |].
  unfold decoded_checksum, val_from_hex. fold (mem_read frame (13 + dlen) 4).
  rewrite Hf. reflexivity.
Qed.

(** C3 (the code departs from the specification): for the remote command with the
    928 payload characters [payload_wrapping] the checksummed bytes sum to
    exactly 65536.  The two's complement of the sum is 0, but the code
    prints 65536 as "10000"; the frame holds "1000" in the checksum field,
    which decodes to 4096, and sum plus checksum is 4096 modulo 65536. *)
Theorem frame_make_checksum_of_zero_sum :
  match frame_make le_host (local_buf 946) GXE_REMOTE_COMMAND
          (cstrz "21") (cstrz "01") payload_wrapping 928 with
  | Some (frame, n) =>
      n = 946%nat /\
      byte_sum (checksummed le_host frame 928) = 65536 /\
      proto_checksum le_host (mem_read frame 1 940) = cstr "10000" /\
      mem_read frame 941 5 = cstr "1000" ++ [13] /\
      decoded_checksum frame 928 = 4096 /\
      (byte_sum (checksummed le_host frame 928) + decoded_checksum frame 928)
        mod 65536 = 4096
  | None => False
  end.
Proof. vm_compute. repeat split. Qed.

(** ** The transport adapter *)

Lemma frame_make_length (plat : platform) (buf : list Z) (cmdi : gxe_cmd)
    (ver adr dptr : list Z) (dlen : nat) (frame : list Z) (n : nat) :
  frame_make plat buf cmdi ver adr dptr dlen = Some (frame, n) ->
  length frame = length buf /\ n = (dlen + 18)%nat.
Proof.
  unfold frame_make. intros H.
  apply bind_Some in H as (b1 & H1 & H).
  apply bind_Some in H as (v & _ & H).
  apply bind_Some in H as (b2 & H2 & H).
  apply bind_Some in H as (a & _ & H).
  apply bind_Some in H as (b3 & H3 & H).
  apply bind_Some in H as (b4 & H4 & H).
  apply bind_Some in H as (b5 & H5 & H).
  apply bind_Some in H as (d & _ & H).
  apply bind_Some in H as (b6 & H6 & H).
  apply bind_Some in H as (b7 & H7 & H).
  apply bind_Some in H as (b8 & H8 & H).
  injection H as <- <-. split; [| reflexivity].
  apply mem_write_length in H1, H2, H3, H4, H5, H6, H7, H8. congruence.
Qed.

Lemma gxe_cmds_length (c : gxe_cmd) : length (gxe_cmds c) = 4%nat.
Proof. destruct c; reflexivity. Qed.

Lemma proto_lchecksum_length (plat : platform) (dlen : Z) :
  length (proto_lchecksum plat dlen) = 5%nat.
Proof.
  unfold proto_lchecksum. rewrite length_take, length_app. cbn [length].
  assert (4 <= length (fmt_04X (proto_lchecksum_word plat dlen)))%nat
    by (unfold fmt_04X, hex_digits; rewrite length_map, length_rev, length_seq; lia).
  lia.
Qed.

Lemma proto_checksum_length (plat : platform) (l : list Z) :
  length (proto_checksum plat l) = 5%nat.
Proof.
  unfold proto_checksum. rewrite length_take, length_app. cbn [length].
  assert (4 <= length (fmt_04X (proto_checksum_arg plat l)))%nat
    by (unfold fmt_04X, hex_digits; rewrite length_map, length_rev, length_seq; lia).
  lia.
Qed.

(** [frame_make] is defined as soon as the buffer holds the frame and the
    sources are as long as what is copied from them. *)
Lemma frame_make_defined (plat : platform) (buf : list Z) (cmdi : gxe_cmd)
    (ver adr dptr : list Z) (dlen : nat) :
  (dlen + 18 <= length buf)%nat ->
  (2 <= length ver)%nat -> (2 <= length adr)%nat -> (dlen <= length dptr)%nat ->
  exists frame, frame_make plat buf cmdi ver adr dptr dlen = Some (frame, (dlen + 18)%nat).
Proof.
  intros Hbuf Hver Hadr Hd. unfold frame_make, src_read.
  rewrite !decide_True by assumption.
  destruct (mem_write buf 0 [126]) as [b1 |] eqn:H1;
    [| rewrite mem_write_None' in H1; cbn [length] in H1; lia].
  pose proof (mem_write_length _ _ _ _ H1) as L1. cbn [mbind option_bind].
  destruct (mem_write b1 1 (take 2 ver)) as [b2 |] eqn:H2;
    [| rewrite mem_write_None' in H2; rewrite length_take in H2; lia].
  pose proof (mem_write_length _ _ _ _ H2) as L2. cbn [mbind option_bind].
  destruct (mem_write b2 3 (take 2 adr)) as [b3 |] eqn:H3;
    [| rewrite mem_write_None' in H3; rewrite length_take in H3; lia].
  pose proof (mem_write_length _ _ _ _ H3) as L3. cbn [mbind option_bind].
  destruct (mem_write b3 5 (gxe_cmds cmdi)) as [b4 |] eqn:H4;
    [| rewrite mem_write_None' in H4; rewrite gxe_cmds_length in H4; lia].
  pose proof (mem_write_length _ _ _ _ H4) as L4. cbn [mbind option_bind].
  destruct (mem_write b4 9 (proto_lchecksum plat (CInt.uint16 (Z.of_nat dlen))))
    as [b5 |] eqn:H5;
    [| rewrite mem_write_None' in H5; rewrite proto_lchecksum_length in H5; lia].
  pose proof (mem_write_length _ _ _ _ H5) as L5. cbn [mbind option_bind].
  destruct (mem_write b5 13 (take dlen dptr)) as [b6 |] eqn:H6;
    [| rewrite mem_write_None' in H6; rewrite length_take in H6; lia].
  pose proof (mem_write_length _ _ _ _ H6) as L6. cbn [mbind option_bind].
  destruct (mem_write b6 (13 + dlen) (proto_checksum plat (mem_read b6 1 (dlen + 12))))
    as [b7 |] eqn:H7;
    [| rewrite mem_write_None' in H7; rewrite proto_checksum_length in H7; lia].
  pose proof (mem_write_length _ _ _ _ H7) as L7. cbn [mbind option_bind].
  destruct (mem_write b7 (17 + dlen) [13]) as [b8 |] eqn:H8;
    [| rewrite mem_write_None' in H8; cbn [length] in H8; lia].
  cbn [mbind option_bind]. exists b8. reflexivity.
Qed.

Lemma ser_send_buf_sent (frame : list Z) (s : serial) :
  ser_sent (snd (Serial.ser_send_buf frame s)) = ser_sent s ++ [frame].
Proof. unfold Serial.ser_send_buf. destruct (ser_send_rets s); reflexivity. Qed.

Lemma ser_get_buf_sent (buf : list Z) (buflen : nat) (s : serial) :
  ser_sent (snd (Serial.ser_get_buf buf buflen s)) = ser_sent s.
Proof.
  unfold Serial.ser_get_buf.
  destruct (ser_replies s) as [| [r | data] rest]; reflexivity.
Qed.

(** An exchange puts exactly one frame on the line and touches nothing
    but the line. *)
Lemma frame_send_and_recv_effect (plat : platform) (buf : list Z) (buflen : nat)
    (cmdi : gxe_cmd) (ver adr dptr : list Z) (dlen : nat)
    (st st1 : driver) (r : Z * list Z) :
  frame_send_and_recv plat buf buflen cmdi ver adr dptr dlen st = Some (r, st1) ->
  poll_state st1 = poll_state st /\ devaddr st1 = devaddr st /\
  ds st1 = ds st /\ syslog st1 = syslog st /\
  exists frame,
    frame_make plat (local_buf 32) cmdi ver adr dptr dlen
    = Some (frame, (dlen + 18)%nat) /\
    ser_sent (ser st1) = ser_sent (ser st) ++ [take (dlen + 18) frame].
Proof.
  unfold frame_send_and_recv, mbind, M_bind, lift_option, with_ser, mret, M_ret.
  destruct (frame_make plat (local_buf 32) cmdi ver adr dptr dlen)
    as [[frame n] |] eqn:Hmk; [| discriminate].
  destruct (frame_make_length _ _ _ _ _ _ _ _ _ Hmk) as [_ ->].
  pose proof (ser_send_buf_sent (take (dlen + 18) frame) (ser st)) as Hsent.
  destruct (Serial.ser_send_buf (take (dlen + 18) frame) (ser st)) as [ret s1].
  cbn [snd] in Hsent.
  destruct (ret <=? 0).
  - intros [= <- <-]. cbn. repeat split; try reflexivity.
    exists frame. split; [reflexivity | exact Hsent].
  - cbn [ser]. pose proof (ser_get_buf_sent buf buflen s1) as Hget.
    destruct (Serial.ser_get_buf buf buflen s1) as [[ret' buf'] s2].
    cbn [snd] in Hget.
    intros [= <- <-]. cbn. repeat split; try reflexivity.
    exists frame. split; [reflexivity | congruence].
Qed.

(** With an address of two characters the exchanges of this driver (no
    payload, or the four characters of a command) are defined. *)
Lemma frame_send_and_recv_defined (plat : platform) (buf : list Z) (buflen : nat)
    (cmdi : gxe_cmd) (dptr : list Z) (dlen : nat) (st : driver) :
  (2 <= length (devaddr st))%nat -> (dlen <= 14)%nat -> (dlen <= length dptr)%nat ->
  exists r st1,
    frame_send_and_recv plat buf buflen cmdi (cstrz "21") (devaddr st) dptr dlen st
    = Some (r, st1).
Proof.
  intros Hadr Hd Hp.
  destruct (frame_make_defined plat (local_buf 32) cmdi (cstrz "21") (devaddr st)
              dptr dlen) as [frame Hmk]; try assumption.
  { unfold local_buf. rewrite length_replicate. lia. }
  { cbn. lia. }
  unfold frame_send_and_recv, mbind, M_bind, lift_option, with_ser, mret, M_ret.
  rewrite Hmk.
  destruct (Serial.ser_send_buf (take (dlen + 18) frame) (ser st)) as [ret s1].
  destruct (ret <=? 0); [eauto |].
  cbn [ser]. destruct (Serial.ser_get_buf buf buflen s1) as [[ret' buf'] s2]. eauto.
Qed.

(** ** The polling cycle *)

Lemma poll_cycle_run (plat : platform) (buflen : nat) (cmd : gxe_cmd)
    (minlen : Z) (failed : M unit) (publish : list Z -> M unit)
    (st st1 : driver) (ret : Z) (buf : list Z) :
  frame_send_and_recv plat (local_buf buflen) buflen cmd (cstrz "21")
    (devaddr st) [] 0 st = Some ((ret, buf), st1) ->
  poll_cycle plat buflen cmd minlen failed publish st
  = if fst (validate_ret buf ret minlen) <? 0
    then failed (add_log (snd (validate_ret buf ret minlen)) st1)
    else publish buf (add_log (snd (validate_ret buf ret minlen)) st1).
Proof.
  intros Hx. unfold poll_cycle, mbind, M_bind, gets. rewrite Hx.
  unfold validate_ret_logged.
  destruct (validate_ret buf ret minlen) as [r lines].
  unfold mbind, M_bind, upslogx, add_log, mret, M_ret. cbn [fst snd].
  destruct (r <? 0); reflexivity.
Qed.

Lemma upsdrv_updateinfo_onoff_cycle (plat : platform) :
  upsdrv_updateinfo_onoff plat
  = poll_cycle plat 64 GXE_GET_ONOFF_DATA (13 + 0x14)
      (set_poll_state GXE_ONOFF;; with_ds Dstate.dstate_datastale)
      onoff_publish.
Proof. reflexivity. Qed.

Lemma upsdrv_updateinfo_analog_cycle (plat : platform) :
  upsdrv_updateinfo_analog plat
  = poll_cycle plat 128 GXE_GET_ANALOG_DATA (13 + 0x56)
      (with_ds Dstate.dstate_datastale) analog_publish.
Proof. reflexivity. Qed.

Lemma upsdrv_updateinfo_warning_cycle (plat : platform) :
  upsdrv_updateinfo_warning plat
  = poll_cycle plat 128 GXE_GET_WARNING_DATA (13 + 0x36)
      (set_poll_state GXE_WARNING;; with_ds Dstate.dstate_datastale)
      warning_publish.
Proof. reflexivity. Qed.

Lemma upsdrv_updateinfo_sysparam_cycle (plat : platform) :
  upsdrv_updateinfo_sysparam plat
  = poll_cycle plat 128 GXE_GET_SYS_PARAM (13 + 0x6a)
      (with_ds Dstate.dstate_datastale) sysparam_publish.
Proof. reflexivity. Qed.

Lemma phase_exchange_eq (plat : platform) (p : gxe_poll_state) (st : driver) :
  phase_exchange plat p st
  = frame_send_and_recv plat (local_buf (phase_buflen p)) (phase_buflen p)
      (phase_request p) (cstrz "21") (devaddr st) [] 0 st.
Proof. reflexivity. Qed.

Lemma phase_exchange_defined (plat : platform) (p : gxe_poll_state) (st : driver) :
  (2 <= length (devaddr st))%nat ->
  exists r st1, phase_exchange plat p st = Some (r, st1).
Proof.
  intros Hadr. rewrite phase_exchange_eq.
  apply frame_send_and_recv_defined; [exact Hadr | lia | cbn; lia].
Qed.

(** C8: in whichever phase the driver is, when the reply to the phase's
    request fails validation, the tick ends in the same phase, the store
    is marked stale and is otherwise as it was before the tick: no fact,
    status or alarm is published. *)
Theorem failed_validation_keeps_phase (plat : platform) (st st1 : driver)
    (ret : Z) (buf : list Z) :
  phase_exchange plat (poll_state st) st = Some ((ret, buf), st1) ->
  fst (validate_ret buf ret (phase_minlen (poll_state st))) < 0 ->
  exists st2,
    upsdrv_updateinfo plat st = Some (tt, st2) /\
    poll_state st2 = poll_state st /\
    ds st2 = Dstate.dstate_datastale (ds st) /\
    stale (ds st2) = true /\
    info (ds st2) = info (ds st) /\
    ups_status (ds st2) = ups_status (ds st) /\
    ups_alarm (ds st2) = ups_alarm (ds st).
Proof.
  intros Hx Hfail. rewrite phase_exchange_eq in Hx.
  destruct (frame_send_and_recv_effect _ _ _ _ _ _ _ _ _ _ _ Hx)
    as (Hp & _ & Hds & _ & _).
  apply Z.ltb_lt in Hfail.
  unfold upsdrv_updateinfo, mbind at 1, M_bind at 1, gets at 1.
  destruct (poll_state st) eqn:Hphase; cbn [phase_request phase_buflen phase_minlen] in *.
  - rewrite upsdrv_updateinfo_onoff_cycle, (poll_cycle_run _ _ _ _ _ _ _ _ _ _ Hx), Hfail.
    eexists. split; [reflexivity |]. cbn. rewrite Hds. repeat split; reflexivity.
  - rewrite upsdrv_updateinfo_analog_cycle, (poll_cycle_run _ _ _ _ _ _ _ _ _ _ Hx), Hfail.
    eexists. split; [reflexivity |]. cbn. rewrite Hds, Hp. repeat split; reflexivity.
  - rewrite upsdrv_updateinfo_warning_cycle, (poll_cycle_run _ _ _ _ _ _ _ _ _ _ Hx), Hfail.
    eexists. split; [reflexivity |]. cbn. rewrite Hds. repeat split; reflexivity.
  - rewrite upsdrv_updateinfo_sysparam_cycle, (poll_cycle_run _ _ _ _ _ _ _ _ _ _ Hx), Hfail.
    eexists. split; [reflexivity |]. cbn. rewrite Hds, Hp. repeat split; reflexivity.
Qed.

Lemma failed_validation_keeps_phase_witness :
  exists st1,
    phase_exchange le_host GXE_ANALOG (sample_driver GXE_ANALOG sample_store [])
    = Some ((0, local_buf 128), st1) /\
    fst (validate_ret (local_buf 128) 0 (phase_minlen GXE_ANALOG)) < 0 /\
    exists st2,
      upsdrv_updateinfo le_host (sample_driver GXE_ANALOG sample_store [])
      = Some (tt, st2) /\
      poll_state st2 = GXE_ANALOG /\
      ds st2 = Dstate.dstate_datastale sample_store /\
      stale (ds st2) = true /\
      info (ds st2) = ∅ /\
      ups_status (ds st2) = ["OL"%string] /\
      ups_alarm (ds st2) = [].
Proof.
  eexists. split; [vm_compute; reflexivity |].
  split; [vm_compute; reflexivity |].
  eapply (failed_validation_keeps_phase le_host
            (sample_driver GXE_ANALOG sample_store [])).
  - vm_compute. reflexivity.
  - vm_compute. reflexivity.
Defined.

(** ** Computations that only touch the store *)

Create HintDb ds_only.

Lemma ds_only_with_ds (f : dstate -> dstate) : ds_only (with_ds f).
Proof. intros st. exists (f (ds st)). reflexivity. Qed.

Lemma ds_only_setinfo (name : string) (v : fact) : ds_only (dstate_setinfo name v).
Proof. apply ds_only_with_ds. Qed.

Lemma ds_only_ret : ds_only (mret tt).
Proof. intros st. exists (ds st). destruct st; reflexivity. Qed.

Lemma ds_only_seq (m1 m2 : M unit) :
  ds_only m1 -> ds_only m2 -> ds_only (m1;; m2).
Proof.
  intros H1 H2 st. destruct (H1 st) as [d1 E1].
  destruct (H2 (upd_ds d1 st)) as [d2 E2].
  exists d2. unfold mbind, M_bind. rewrite E1, E2. reflexivity.
Qed.

Lemma ds_only_if (b : bool) (m1 m2 : M unit) :
  ds_only m1 -> ds_only m2 -> ds_only (if b then m1 else m2).
Proof. destruct b; auto. Qed.

Lemma ds_only_when (b : bool) (m : M unit) : ds_only m -> ds_only (when b m).
Proof. intros H. unfold when. apply ds_only_if; [exact H | apply ds_only_ret]. Qed.

#[local] Hint Resolve ds_only_with_ds ds_only_setinfo ds_only_ret ds_only_seq
  ds_only_if ds_only_when : ds_only.

(** ** The ON/OFF phase *)

Lemma onoff_publish_split (onoff_buf : list Z) :
  onoff_publish onoff_buf
  = (set_poll_state GXE_ANALOG;;
     when (negb (Z.land (val_from_hex onoff_buf 13 2) DATAFLAG_ONOFF_MASK =? 0))
       (set_poll_state GXE_ONOFF);;
     when (negb (Z.land (val_from_hex onoff_buf 13 2) DATAFLAG_WARN_MASK =? 0))
       (set_poll_state GXE_WARNING);;
     onoff_facts onoff_buf).
Proof. reflexivity. Qed.

Lemma onoff_facts_ds_only (onoff_buf : list Z) : ds_only (onoff_facts onoff_buf).
Proof. unfold onoff_facts. cbv zeta. auto 20 with ds_only. Qed.

(** Bit 0 and bit 4 of the data flag, as the masks test them. *)
Lemma dataflag_warn_bit (dflag : Z) :
  negb (Z.land dflag DATAFLAG_WARN_MASK =? 0) = Z.testbit dflag 0.
Proof.
  unfold DATAFLAG_WARN_MASK. change 1 with (Z.ones 1).
  rewrite Z.land_ones by lia. rewrite Z.bit0_odd.
  change (2 ^ 1) with 2. rewrite Zmod_odd.
  destruct (Z.odd dflag); reflexivity.
Qed.

Lemma dataflag_onoff_bit (dflag : Z) :
  negb (Z.land dflag DATAFLAG_ONOFF_MASK =? 0) = Z.testbit dflag 4.
Proof.
  unfold DATAFLAG_ONOFF_MASK. change (Z.shiftl 1 4) with (2 ^ 4).
  destruct (Z.testbit dflag 4) eqn:Hb.
  - destruct (Z.eqb_spec (Z.land dflag (2 ^ 4)) 0) as [H0 | _]; [| reflexivity].
    assert (Hc : Z.testbit (Z.land dflag (2 ^ 4)) 4 = true)
      by (rewrite Z.land_spec, Hb, Z.pow2_bits_true by lia; reflexivity).
    rewrite H0 in Hc. rewrite Z.bits_0 in Hc. discriminate.
  - destruct (Z.eqb_spec (Z.land dflag (2 ^ 4)) 0) as [_ | Hn]; [reflexivity |].
    exfalso. apply Hn. apply Z.bits_inj'. intros n Hn0.
    rewrite Z.land_spec, Z.bits_0.
    destruct (Z.eq_dec n 4) as [-> | Hne].
    + rewrite Hb. reflexivity.
    + rewrite Z.pow2_bits_false by lia. apply andb_false_r.
Qed.

Lemma onoff_publish_next (onoff_buf : list Z) (st : driver) :
  exists st2,
    onoff_publish onoff_buf st = Some (tt, st2) /\
    poll_state st2 = onoff_next (val_from_hex onoff_buf 13 2).
Proof.
  rewrite onoff_publish_split. rewrite dataflag_warn_bit, dataflag_onoff_bit.
  unfold onoff_next, mbind, M_bind, when, set_poll_state.
  destruct (Z.testbit (val_from_hex onoff_buf 13 2) 4),
           (Z.testbit (val_from_hex onoff_buf 13 2) 0); cbn [mret M_ret];
  match goal with
  | |- context [onoff_facts onoff_buf ?s] =>
      destruct (onoff_facts_ds_only onoff_buf s) as [d ->]
  end; eexists; split; reflexivity.
Qed.

(** C4 (counterexample to the specification as worded): the reply
    [onoff_reply_both_flags] is accepted and has bit 4 of its data flag
    set, yet the next phase is WARNING and not ONOFF. *)
Lemma onoff_bit4_with_bit0_goes_to_warning :
  exists st1 st2,
    phase_exchange le_host GXE_ONOFF
      (sample_driver GXE_ONOFF sample_store [RecvData onoff_reply_both_flags])
    = Some ((38, onoff_reply_both_flags ++ replicate 26 0), st1) /\
    0 <= fst (validate_ret (onoff_reply_both_flags ++ replicate 26 0) 38 (13 + 0x14)) /\
    Z.testbit (val_from_hex (onoff_reply_both_flags ++ replicate 26 0) 13 2) 4 = true /\
    upsdrv_updateinfo_onoff le_host
      (sample_driver GXE_ONOFF sample_store [RecvData onoff_reply_both_flags])
    = Some (tt, st2) /\
    poll_state st2 = GXE_WARNING /\
    poll_state st2 <> GXE_ONOFF.
Proof.
  eexists. eexists.
  split; [vm_compute; reflexivity |].
  split; [vm_compute; discriminate |].
  split; [vm_compute; reflexivity |].
  split; [vm_compute; reflexivity |].
  split; [reflexivity | discriminate].
Qed.

(** C4 (amended): after an accepted ON/OFF reply the next phase is ANALOG
    when the data flag is 0, WARNING when bit 0 of the data flag is set,
    whatever the other bits, and ONOFF when bit 4 is set and bit 0 is
    clear. *)
Theorem onoff_next_phase (plat : platform) (st st1 : driver) (ret : Z) (buf : list Z) :
  phase_exchange plat GXE_ONOFF st = Some ((ret, buf), st1) ->
  0 <= fst (validate_ret buf ret (13 + 0x14)) ->
  exists st2,
    upsdrv_updateinfo_onoff plat st = Some (tt, st2) /\
    (val_from_hex buf 13 2 = 0 -> poll_state st2 = GXE_ANALOG) /\
    (Z.testbit (val_from_hex buf 13 2) 0 = true -> poll_state st2 = GXE_WARNING) /\
    (Z.testbit (val_from_hex buf 13 2) 4 = true ->
     Z.testbit (val_from_hex buf 13 2) 0 = false -> poll_state st2 = GXE_ONOFF).
Proof.
  intros Hx Hok. rewrite phase_exchange_eq in Hx.
  rewrite upsdrv_updateinfo_onoff_cycle, (poll_cycle_run _ _ _ _ _ _ _ _ _ _ Hx).
  destruct (Z.ltb_spec (fst (validate_ret buf ret (13 + 0x14))) 0) as [Hlt | _]; [lia |].
  destruct (onoff_publish_next buf
              (add_log (snd (validate_ret buf ret (13 + 0x14))) st1))
    as (st2 & Hrun & Hnext).
  exists st2. split; [exact Hrun |]. rewrite Hnext. unfold onoff_next.
  repeat split.
  - intros ->. reflexivity.
  - intros ->. reflexivity.
  - intros -> ->. reflexivity.
Qed.

Lemma onoff_next_phase_witness :
  exists st1,
    phase_exchange le_host GXE_ONOFF
      (sample_driver GXE_ONOFF sample_store [RecvData onoff_reply_onoff_flag])
    = Some ((38, onoff_reply_onoff_flag ++ replicate 26 0), st1) /\
    0 <= fst (validate_ret (onoff_reply_onoff_flag ++ replicate 26 0) 38 (13 + 0x14)) /\
    exists st2,
      upsdrv_updateinfo_onoff le_host
        (sample_driver GXE_ONOFF sample_store [RecvData onoff_reply_onoff_flag])
      = Some (tt, st2) /\
      poll_state st2 = GXE_ONOFF.
Proof.
  eexists. split; [vm_compute; reflexivity |].
  split; [vm_compute; discriminate |].
  destruct (onoff_next_phase le_host
              (sample_driver GXE_ONOFF sample_store [RecvData onoff_reply_onoff_flag])
              _ _ _ eq_refl) as (st2 & Hrun & _ & _ & Hself).
  - vm_compute. discriminate.
  - exists st2. split; [exact Hrun |].
    apply Hself; vm_compute; reflexivity.
Defined.

(** ** Running a computation step by step *)

Lemma bind_with_ds {B} (f : dstate -> dstate) (k : unit -> M B) (st : driver) :
  (with_ds f ≫= k) st = k tt (upd_ds (f (ds st)) st).
Proof. reflexivity. Qed.

Lemma bind_set_poll_state {B} (p : gxe_poll_state) (k : unit -> M B) (st : driver) :
  (set_poll_state p ≫= k) st = k tt (upd_poll p st).
Proof. reflexivity. Qed.

Lemma bind_gets {A B} (g : driver -> A) (k : A -> M B) (st : driver) :
  (gets g ≫= k) st = k (g st) st.
Proof. reflexivity. Qed.

Lemma bind_mret {A B} (a : A) (k : A -> M B) (st : driver) :
  (mret a ≫= k) st = k a st.
Proof. reflexivity. Qed.

Lemma bind_bind {A B C} (m : M A) (f : A -> M B) (g : B -> M C) (st : driver) :
  ((m ≫= f) ≫= g) st = (m ≫= fun a => f a ≫= g) st.
Proof.
  unfold mbind, M_bind. destruct (m st) as [[a st'] |]; reflexivity.
Qed.

Lemma run_with_ds (f : dstate -> dstate) (st : driver) :
  with_ds f st = Some (tt, upd_ds (f (ds st)) st).
Proof. reflexivity. Qed.

Lemma run_set_poll_state (p : gxe_poll_state) (st : driver) :
  set_poll_state p st = Some (tt, upd_poll p st).
Proof. reflexivity. Qed.

(** Runs the leading steps of a computation applied to a state. *)
Ltac run_M :=
  repeat first
    [ rewrite bind_bind
    | rewrite bind_with_ds
    | rewrite bind_set_poll_state
    | rewrite bind_gets
    | rewrite bind_mret
    | rewrite run_with_ds
    | rewrite run_set_poll_state ];
  cbv beta.

Create HintDb info_only.

Lemma info_only_setinfo (name : string) (v : fact) : info_only (dstate_setinfo name v).
Proof. intros st. eexists. split; [reflexivity |]. repeat split. Qed.

Lemma info_only_set_stale (b : bool) : info_only (with_ds (Dstate.set_stale b)).
Proof. intros st. eexists. split; [reflexivity |]. repeat split. Qed.

Lemma info_only_ret : info_only (mret tt).
Proof.
  intros st. exists (ds st). split; [destruct st; reflexivity |]. repeat split.
Qed.

Lemma info_only_seq (m1 m2 : M unit) :
  info_only m1 -> info_only m2 -> info_only (m1;; m2).
Proof.
  intros H1 H2 st. destruct (H1 st) as (d1 & E1 & ? & ? & ? & ?).
  destruct (H2 (upd_ds d1 st)) as (d2 & E2 & ? & ? & ? & ?).
  exists d2. unfold mbind, M_bind. rewrite E1, E2.
  cbn [ds upd_ds] in *. split; [reflexivity |]. repeat split; congruence.
Qed.

Lemma info_only_if (b : bool) (m1 m2 : M unit) :
  info_only m1 -> info_only m2 -> info_only (if b then m1 else m2).
Proof. destruct b; auto. Qed.

Lemma info_only_when (b : bool) (m : M unit) : info_only m -> info_only (when b m).
Proof. intros H. unfold when. apply info_only_if; [exact H | apply info_only_ret]. Qed.

#[local] Hint Resolve info_only_setinfo info_only_set_stale info_only_ret
  info_only_seq info_only_if info_only_when : info_only.

(** ** The ANALOG phase *)

Lemma analog_facts_info_only (analog_buf : list Z) : info_only (analog_facts analog_buf).
Proof.
  unfold analog_facts, Dstate.dstate_dataok. auto 20 with info_only.
Qed.

Lemma analog_publish_split (analog_buf : list Z) :
  analog_publish analog_buf
  = (when (negb (Z.land (val_from_hex analog_buf 13 2) DATAFLAG_ONOFF_MASK =? 0))
       (set_poll_state GXE_ONOFF);;
     when (negb (Z.land (val_from_hex analog_buf 13 2) DATAFLAG_WARN_MASK =? 0))
       (set_poll_state GXE_WARNING);;
     ol ← gets (fun st => Dstate.status_get "OL" (ds st));
     when ((CInt.div (val_from_hex analog_buf 15 4) 100 =? 0) && ol)
       (status_rewrite "OB");;
     ob ← gets (fun st => Dstate.status_get "OB" (ds st));
     when ((CInt.div (val_from_hex analog_buf 15 4) 100 >? 0) && ob)
       (status_rewrite "OL");;
     analog_facts analog_buf).
Proof. reflexivity. Qed.

(** Power failed while the status says on line: the handler rewrites the
    status to OB and asks for the warnings next. *)
Lemma analog_publish_power_failed (analog_buf : list Z) (st : driver) :
  CInt.div (val_from_hex analog_buf 15 4) 100 = 0 ->
  Dstate.status_get "OL" (ds st) = true ->
  exists st2,
    analog_publish analog_buf st = Some (tt, st2) /\
    poll_state st2 = GXE_WARNING /\
    status_buf (ds st2) = ["OB"%string] /\
    ups_status (ds st2) = ["OB"%string].
Proof.
  intros Hv Hol. rewrite analog_publish_split. rewrite Hv.
  change (0 =? 0) with true. change (0 >? 0) with false. cbn [andb].
  unfold when at 4. unfold when, status_rewrite.
  destruct (negb (Z.land (val_from_hex analog_buf 13 2) DATAFLAG_ONOFF_MASK =? 0)),
           (negb (Z.land (val_from_hex analog_buf 13 2) DATAFLAG_WARN_MASK =? 0));
    run_M; cbn [ds upd_ds upd_poll]; rewrite Hol; run_M;
    match goal with
    | |- context [analog_facts analog_buf ?s] =>
        destruct (analog_facts_info_only analog_buf s) as (d & -> & Hsb & Hus & _ & _)
    end;
    (eexists; split; [reflexivity |]);
    cbn [ds upd_ds upd_poll poll_state] in *; rewrite Hsb, Hus;
    repeat split; reflexivity.
Qed.

(** Power is back while the status says on battery: the handler rewrites
    the status to OL and asks for the warnings next. *)
Lemma analog_publish_power_back (analog_buf : list Z) (st : driver) :
  0 < CInt.div (val_from_hex analog_buf 15 4) 100 ->
  Dstate.status_get "OB" (ds st) = true ->
  exists st2,
    analog_publish analog_buf st = Some (tt, st2) /\
    poll_state st2 = GXE_WARNING /\
    status_buf (ds st2) = ["OL"%string] /\
    ups_status (ds st2) = ["OL"%string].
Proof.
  intros Hv Hob. rewrite analog_publish_split.
  destruct (Z.eqb_spec (CInt.div (val_from_hex analog_buf 15 4) 100) 0) as [H0 | _];
    [lia |].
  destruct (Z.gtb_spec (CInt.div (val_from_hex analog_buf 15 4) 100) 0) as [_ | Hle];
    [| lia].
  cbn [andb]. unfold when at 3. unfold when, status_rewrite.
  destruct (negb (Z.land (val_from_hex analog_buf 13 2) DATAFLAG_ONOFF_MASK =? 0)),
           (negb (Z.land (val_from_hex analog_buf 13 2) DATAFLAG_WARN_MASK =? 0));
    run_M; cbn [ds upd_ds upd_poll]; rewrite Hob; run_M;
    match goal with
    | |- context [analog_facts analog_buf ?s] =>
        destruct (analog_facts_info_only analog_buf s) as (d & -> & Hsb & Hus & _ & _)
    end;
    (eexists; split; [reflexivity |]);
    cbn [ds upd_ds upd_poll poll_state] in *; rewrite Hsb, Hus;
    repeat split; reflexivity.
Qed.

Lemma analog_publish_defined (analog_buf : list Z) (st : driver) :
  exists st2, analog_publish analog_buf st = Some (tt, st2).
Proof.
  rewrite analog_publish_split. unfold when, status_rewrite.
  destruct (negb (Z.land (val_from_hex analog_buf 13 2) DATAFLAG_ONOFF_MASK =? 0)),
           (negb (Z.land (val_from_hex analog_buf 13 2) DATAFLAG_WARN_MASK =? 0));
    run_M; cbn [ds upd_ds upd_poll];
    destruct ((CInt.div (val_from_hex analog_buf 15 4) 100 =? 0)
              && Dstate.status_get "OL" (ds st));
    run_M; cbn [ds upd_ds upd_poll];
    match goal with
    | |- context [if ?c then _ else _] => destruct c
    end;
    run_M;
    match goal with
    | |- context [analog_facts analog_buf ?s] =>
        destruct (analog_facts_info_only analog_buf s) as (d & -> & _)
    end;
    eexists; reflexivity.
Qed.

(** C6 (counterexample to the specification as worded): the accepted reply
    [analog_reply_half_volt] reports an input voltage of 0.50 V, which is
    not zero, while the status set holds OB; the status stays OB and the
    phase stays ANALOG. *)
Lemma analog_half_volt_keeps_on_battery :
  exists st1 st2,
    phase_exchange le_host GXE_ANALOG
      (sample_driver GXE_ANALOG on_battery_store [RecvData analog_reply_half_volt])
    = Some ((104, analog_reply_half_volt ++ replicate 24 0), st1) /\
    0 <= fst (validate_ret (analog_reply_half_volt ++ replicate 24 0) 104 (13 + 0x56)) /\
    val_from_hex (analog_reply_half_volt ++ replicate 24 0) 15 4 = 50 /\
    Dstate.status_get "OB" on_battery_store = true /\
    upsdrv_updateinfo_analog le_host
      (sample_driver GXE_ANALOG on_battery_store [RecvData analog_reply_half_volt])
    = Some (tt, st2) /\
    ups_status (ds st2) = ["OB"%string] /\
    poll_state st2 = GXE_ANALOG /\
    info (ds st2) !! "input.voltage"%string
    = Some (FFloat "%.02f" (S754_finite false 8388608 (-24))).
Proof.
  eexists. eexists.
  split; [vm_compute; reflexivity |].
  split; [vm_compute; discriminate |].
  split; [vm_compute; reflexivity |].
  split; [vm_compute; reflexivity |].
  split; [vm_compute; reflexivity |].
  repeat split; vm_compute; reflexivity.
Qed.

Lemma quot_100_pos (v : Z) : 100 <= v -> 0 < CInt.div v 100.
Proof.
  intros Hv. unfold CInt.div. rewrite Z.quot_div_nonneg by lia.
  apply Z.div_str_pos. lia.
Qed.

(** C6 (amended): after an accepted ANALOG reply whose input-voltage field
    decodes to 0 while the status set holds OL, the status set is
    rewritten to OB and committed and the next phase is WARNING; after one
    whose field decodes to 100 or more (1.00 V; the test is made on the
    integer quotient of the field by 100) while the status set holds OB,
    the status set is rewritten to OL and the next phase is WARNING. *)
Theorem analog_status_correction (plat : platform) (st st1 : driver)
    (ret : Z) (buf : list Z) :
  phase_exchange plat GXE_ANALOG st = Some ((ret, buf), st1) ->
  0 <= fst (validate_ret buf ret (13 + 0x56)) ->
  exists st2,
    upsdrv_updateinfo_analog plat st = Some (tt, st2) /\
    (val_from_hex buf 15 4 = 0 -> Dstate.status_get "OL" (ds st) = true ->
     status_buf (ds st2) = ["OB"%string] /\ ups_status (ds st2) = ["OB"%string] /\
     poll_state st2 = GXE_WARNING) /\
    (100 <= val_from_hex buf 15 4 -> Dstate.status_get "OB" (ds st) = true ->
     status_buf (ds st2) = ["OL"%string] /\ ups_status (ds st2) = ["OL"%string] /\
     poll_state st2 = GXE_WARNING).
Proof.
  intros Hx Hok. rewrite phase_exchange_eq in Hx.
  destruct (frame_send_and_recv_effect _ _ _ _ _ _ _ _ _ _ _ Hx)
    as (_ & _ & Hds & _ & _).
  rewrite upsdrv_updateinfo_analog_cycle, (poll_cycle_run _ _ _ _ _ _ _ _ _ _ Hx).
  destruct (Z.ltb_spec (fst (validate_ret buf ret (13 + 0x56))) 0) as [Hlt | _]; [lia |].
  set (st' := add_log (snd (validate_ret buf ret (13 + 0x56))) st1).
  assert (Hds' : ds st' = ds st) by (unfold st'; cbn [ds add_log]; exact Hds).
  destruct (analog_publish_defined buf st') as [st2 Hrun].
  exists st2. split; [exact Hrun |]. split.
  - intros Hv Hol.
    destruct (analog_publish_power_failed buf st') as (s & Hs & Hp & Hb & Hu).
    { rewrite Hv. reflexivity. }
    { rewrite Hds'. exact Hol. }
    rewrite Hs in Hrun. injection Hrun as <-. auto.
  - intros Hv Hob.
    destruct (analog_publish_power_back buf st') as (s & Hs & Hp & Hb & Hu).
    { apply quot_100_pos. exact Hv. }
    { rewrite Hds'. exact Hob. }
    rewrite Hs in Hrun. injection Hrun as <-. auto.
Qed.

Lemma analog_status_correction_witness :
  exists st1,
    phase_exchange le_host GXE_ANALOG
      (sample_driver GXE_ANALOG sample_store [RecvData analog_reply_no_volt])
    = Some ((104, analog_reply_no_volt ++ replicate 24 0), st1) /\
    0 <= fst (validate_ret (analog_reply_no_volt ++ replicate 24 0) 104 (13 + 0x56)) /\
    val_from_hex (analog_reply_no_volt ++ replicate 24 0) 15 4 = 0 /\
    Dstate.status_get "OL" sample_store = true /\
    exists st2,
      upsdrv_updateinfo_analog le_host
        (sample_driver GXE_ANALOG sample_store [RecvData analog_reply_no_volt])
      = Some (tt, st2) /\
      status_buf (ds st2) = ["OB"%string] /\ ups_status (ds st2) = ["OB"%string] /\
      poll_state st2 = GXE_WARNING.
Proof.
  eexists. split; [vm_compute; reflexivity |].
  split; [vm_compute; discriminate |].
  split; [vm_compute; reflexivity |].
  split; [vm_compute; reflexivity |].
  destruct (analog_status_correction le_host
              (sample_driver GXE_ANALOG sample_store [RecvData analog_reply_no_volt])
              _ _ _ eq_refl) as (st2 & Hrun & Hfail & _).
  - vm_compute. discriminate.
  - exists st2. split; [exact Hrun |].
    apply Hfail; vm_compute; reflexivity.
Defined.

(** ** The WARNING phase *)

Lemma warning_active_spec (v : Z) : warning_active v = true <-> slot_active v.
Proof.
  unfold warning_active, slot_active.
  rewrite !orb_true_iff, !Z.eqb_eq. tauto.
Qed.

Lemma add_alarms_nil (d : dstate) : add_alarms [] d = d.
Proof. unfold add_alarms. rewrite app_nil_r. destruct d; reflexivity. Qed.

Lemma add_alarms_app (l1 l2 : list string) (d : dstate) :
  add_alarms l2 (add_alarms l1 d) = add_alarms (l1 ++ l2) d.
Proof. unfold add_alarms. cbn. rewrite app_assoc. reflexivity. Qed.

Lemma upd_ds_same (st : driver) : upd_ds (ds st) st = st.
Proof. destruct st; reflexivity. Qed.

Lemma upd_ds_upd_ds (d d' : dstate) (st : driver) :
  upd_ds d (upd_ds d' st) = upd_ds d st.
Proof. reflexivity. Qed.

Lemma warning_scan_run (warn_buf : list Z) (tbl : list (option string)) :
  forall (i : nat) (st : driver),
    warning_scan warn_buf i tbl st
    = Some (tt, upd_ds (add_alarms (active_names warn_buf i tbl) (ds st)) st).
Proof.
  induction tbl as [| [name |] tbl IH]; intros i st; cbn [warning_scan active_names].
  - rewrite add_alarms_nil, upd_ds_same. reflexivity.
  - fold (warn_slot warn_buf i).
    assert (Hstep :
      (if warn_slot warn_buf i =? 0 then mret tt
       else if warning_active (warn_slot warn_buf i)
            then with_ds (Dstate.alarm_set name) else mret tt) st
      = Some (tt, upd_ds (add_alarms (if warning_active (warn_slot warn_buf i)
                                      then [name] else []) (ds st)) st)).
    { destruct (Z.eqb_spec (warn_slot warn_buf i) 0) as [-> | _].
      - cbn. rewrite add_alarms_nil, upd_ds_same. reflexivity.
      - destruct (warning_active (warn_slot warn_buf i)).
        + reflexivity.
        + cbn. rewrite add_alarms_nil, upd_ds_same. reflexivity. }
    unfold mbind, M_bind. rewrite Hstep, IH.
    cbn [ds upd_ds]. rewrite add_alarms_app. reflexivity.
  - apply IH.
Qed.

Lemma active_names_elem (warn_buf : list Z) (tbl : list (option string)) (name : string) :
  forall i,
    name ∈ active_names warn_buf i tbl <->
    exists k, tbl !! k = Some (Some name) /\ slot_active (warn_slot warn_buf (i + k)).
Proof.
  induction tbl as [| [n |] tbl IH]; intros i; cbn [active_names].
  - split; [intros H; inversion H | intros (k & Hk & _); discriminate].
  - rewrite elem_of_app, IH. split.
    + intros [Hhd | (k & Hk & Hact)].
      * destruct (warning_active (warn_slot warn_buf i)) eqn:Hw;
          [| inversion Hhd].
        apply list_elem_of_singleton in Hhd as ->.
        exists 0%nat. split; [reflexivity |].
        rewrite Nat.add_0_r. apply warning_active_spec. exact Hw.
      * exists (S k). split; [exact Hk |].
        replace (i + S k)%nat with (S i + k)%nat by lia. exact Hact.
    + intros ([| k] & Hk & Hact).
      * left. injection Hk as ->. rewrite Nat.add_0_r in Hact.
        apply warning_active_spec in Hact. rewrite Hact.
        apply list_elem_of_singleton. reflexivity.
      * right. exists k. split; [exact Hk |].
        replace (S i + k)%nat with (i + S k)%nat by lia. exact Hact.
  - rewrite IH. split.
    + intros (k & Hk & Hact). exists (S k). split; [exact Hk |].
      replace (i + S k)%nat with (S i + k)%nat by lia. exact Hact.
    + intros ([| k] & Hk & Hact); [discriminate |].
      exists k. split; [exact Hk |].
      replace (S i + k)%nat with (i + S k)%nat by lia. exact Hact.
Qed.

Lemma warning_publish_run (warn_buf : list Z) (st : driver) :
  exists st2,
    warning_publish warn_buf st = Some (tt, st2) /\
    poll_state st2 = GXE_ONOFF /\
    ups_alarm (ds st2) = active_names warn_buf 0 gxe_warns /\
    stale (ds st2) = false.
Proof.
  unfold warning_publish. run_M.
  rewrite (bind_bind (warning_scan warn_buf 0 gxe_warns)) || idtac.
  unfold mbind at 1, M_bind at 1. rewrite warning_scan_run. run_M.
  eexists. split; [reflexivity |].
  cbn [poll_state ds upd_ds upd_poll ups_alarm alarm_buf Dstate.dstate_dataok
       Dstate.set_stale Dstate.alarm_commit Dstate.alarm_init add_alarms stale app].
  repeat split; reflexivity.
Qed.

Lemma active_names_sublist (warn_buf : list Z) (tbl : list (option string)) :
  forall i, sublist (active_names warn_buf i tbl) (omap id tbl).
Proof.
  induction tbl as [| [n |] tbl IH]; intros i; cbn [active_names omap].
  - constructor.
  - cbn. destruct (warning_active (warn_slot warn_buf i)); cbn.
    + apply sublist_skip, IH.
    + apply sublist_cons, IH.
  - apply IH.
Qed.

Lemma gxe_warns_distinct : NoDup (omap id gxe_warns).
Proof.
  apply (bool_decide_eq_true_1 (NoDup (omap id gxe_warns))).
  vm_compute. reflexivity.
Qed.

(** C7: after an accepted WARNING reply the committed alarm set holds a
    warning name exactly when the name stands in the table at an index
    whose slot decodes to 0x01, 0x02, 0x03 or 0xF0, each name once; slots
    with 0x00 or any other value and the table's unnamed entries add
    nothing.  In particular, 0x02 in the slot of "Rectifier Failure" and
    0x00 in all the others gives that alarm alone. *)
Theorem warning_alarm_set (plat : platform) (st st1 : driver) (ret : Z) (buf : list Z) :
  phase_exchange plat GXE_WARNING st = Some ((ret, buf), st1) ->
  0 <= fst (validate_ret buf ret (13 + 0x36)) ->
  exists st2,
    upsdrv_updateinfo_warning plat st = Some (tt, st2) /\
    (forall name,
       name ∈ ups_alarm (ds st2) <->
       exists i, gxe_warns !! i = Some (Some name) /\ slot_active (warn_slot buf i)) /\
    NoDup (ups_alarm (ds st2)) /\
    (gxe_warns !! 3%nat = Some (Some "Rectifier Failure"%string) /\
     (warn_slot buf 3 = 0x02 ->
      (forall i, (i < 26)%nat -> i <> 3%nat -> warn_slot buf i = 0x00) ->
      ups_alarm (ds st2) = ["Rectifier Failure"%string])).
Proof.
  intros Hx Hok. rewrite phase_exchange_eq in Hx.
  rewrite upsdrv_updateinfo_warning_cycle, (poll_cycle_run _ _ _ _ _ _ _ _ _ _ Hx).
  destruct (Z.ltb_spec (fst (validate_ret buf ret (13 + 0x36))) 0) as [Hlt | _]; [lia |].
  destruct (warning_publish_run buf
              (add_log (snd (validate_ret buf ret (13 + 0x36))) st1))
    as (st2 & Hrun & _ & Hal & _).
  exists st2. split; [exact Hrun |]. rewrite Hal. split; [| split; [| split]].
  - intros name. rewrite active_names_elem. reflexivity.
  - apply (sublist_NoDup _ (omap id gxe_warns));
      [apply gxe_warns_distinct | apply active_names_sublist].
  - reflexivity.
  - intros H3 H0. unfold gxe_warns. cbn [active_names].
    rewrite H3. rewrite !H0 by lia. reflexivity.
Qed.

Lemma warning_alarm_set_witness :
  exists st1,
    phase_exchange le_host GXE_WARNING
      (sample_driver GXE_WARNING sample_store [RecvData warning_reply_rectifier])
    = Some ((72, warning_reply_rectifier ++ replicate 56 0), st1) /\
    0 <= fst (validate_ret (warning_reply_rectifier ++ replicate 56 0) 72 (13 + 0x36)) /\
    exists st2,
      upsdrv_updateinfo_warning le_host
        (sample_driver GXE_WARNING sample_store [RecvData warning_reply_rectifier])
      = Some (tt, st2) /\
      ups_alarm (ds st2) = ["Rectifier Failure"%string].
Proof.
  eexists. split; [vm_compute; reflexivity |].
  split; [vm_compute; discriminate |].
  destruct (warning_alarm_set le_host
              (sample_driver GXE_WARNING sample_store [RecvData warning_reply_rectifier])
              _ _ _ eq_refl) as (st2 & Hrun & _ & _ & _ & Honly).
  - vm_compute. discriminate.
  - exists st2. split; [exact Hrun |]. apply Honly.
    + vm_compute. reflexivity.
    + intros i Hi Hne.
      do 26 (destruct i as [| i]; [first [congruence | vm_compute; reflexivity] |]).
      lia.
Defined.

(** ** The SYSPARAM phase *)

Lemma sysparam_publish_run (sysparam_buf : list Z) (st : driver) :
  exists st2,
    sysparam_publish sysparam_buf st = Some (tt, st2) /\
    poll_state st2 = GXE_WARNING /\
    info (ds st2) !! "input.transfer.bypass.low"%string
    = (if val_from_hex sysparam_buf (13 + 18 + 20) 4 =? 1
       then Some (FInt "%d" 120)
       else info (ds st) !! "input.transfer.bypass.low"%string) /\
    info (ds st2) !! "input.transfer.bypass.high"%string
    = (if val_from_hex sysparam_buf (13 + 18 + 16) 4 =? 1
       then Some (FFloat "%f"
                    (F32.mul (F32.of_int (val_from_hex sysparam_buf (13 + 18) 4))
                       F32.lit_1_15))
       else info (ds st) !! "input.transfer.bypass.high"%string) /\
    info (ds st2) !! "output.voltage.nominal"%string
    = Some (FInt "%d" (val_from_hex sysparam_buf (13 + 18) 4)).
Proof.
  unfold sysparam_publish, when, dstate_setinfo.
  destruct (val_from_hex sysparam_buf (13 + 18 + 20) 4 =? 1),
           (val_from_hex sysparam_buf (13 + 18 + 16) 4 =? 1);
    run_M; (eexists; split; [reflexivity |]);
    cbn [poll_state ds upd_ds upd_poll info Dstate.dstate_setinfo
         Dstate.dstate_dataok Dstate.set_stale];
    (split; [reflexivity |]);
    repeat split;
    repeat (first [ rewrite lookup_insert_eq
                  | rewrite lookup_insert_ne by discriminate ]);
    reflexivity.
Qed.

(** C10: after an accepted SYSPARAM reply whose field at 13+18+20 decodes
    to 1 the fact input.transfer.bypass.low is the integer 120, whatever
    else the reply holds; the fact input.transfer.bypass.high, set when the
    field at 13+18+16 decodes to 1, is the single-precision product of the
    decoded nominal voltage and 1.15, and is left as it was otherwise. *)
Theorem sysparam_bypass_thresholds (plat : platform) (st st1 : driver)
    (ret : Z) (buf : list Z) :
  phase_exchange plat GXE_SYSPARAM st = Some ((ret, buf), st1) ->
  0 <= fst (validate_ret buf ret (13 + 0x6a)) ->
  val_from_hex buf (13 + 18 + 20) 4 = 1 ->
  exists st2,
    upsdrv_updateinfo_sysparam plat st = Some (tt, st2) /\
    info (ds st2) !! "input.transfer.bypass.low"%string = Some (FInt "%d" 120) /\
    (val_from_hex buf (13 + 18 + 16) 4 = 1 ->
     info (ds st2) !! "input.transfer.bypass.high"%string
     = Some (FFloat "%f"
               (F32.mul (F32.of_int (val_from_hex buf (13 + 18) 4)) F32.lit_1_15))) /\
    (val_from_hex buf (13 + 18 + 16) 4 <> 1 ->
     info (ds st2) !! "input.transfer.bypass.high"%string
     = info (ds st) !! "input.transfer.bypass.high"%string).
Proof.
  intros Hx Hok Hlow. rewrite phase_exchange_eq in Hx.
  destruct (frame_send_and_recv_effect _ _ _ _ _ _ _ _ _ _ _ Hx)
    as (_ & _ & Hds & _ & _).
  rewrite upsdrv_updateinfo_sysparam_cycle, (poll_cycle_run _ _ _ _ _ _ _ _ _ _ Hx).
  destruct (Z.ltb_spec (fst (validate_ret buf ret (13 + 0x6a))) 0) as [Hlt | _]; [lia |].
  destruct (sysparam_publish_run buf
              (add_log (snd (validate_ret buf ret (13 + 0x6a))) st1))
    as (st2 & Hrun & _ & Hl & Hh & _).
  cbn [ds add_log] in Hl, Hh. rewrite Hds in Hh.
  exists st2. split; [exact Hrun |]. split; [| split].
  - rewrite Hl, Hlow. reflexivity.
  - intros Hhigh. rewrite Hh, Hhigh. reflexivity.
  - intros Hhigh. rewrite Hh.
    destruct (Z.eqb_spec (val_from_hex buf (13 + 18 + 16) 4) 1); [contradiction | reflexivity].
Qed.

Lemma sysparam_bypass_thresholds_witness :
  exists st1,
    phase_exchange le_host GXE_SYSPARAM
      (sample_driver GXE_SYSPARAM sample_store [RecvData sysparam_reply_220])
    = Some ((124, sysparam_reply_220 ++ replicate 4 0), st1) /\
    0 <= fst (validate_ret (sysparam_reply_220 ++ replicate 4 0) 124 (13 + 0x6a)) /\
    val_from_hex (sysparam_reply_220 ++ replicate 4 0) (13 + 18 + 20) 4 = 1 /\
    exists st2,
      upsdrv_updateinfo_sysparam le_host
        (sample_driver GXE_SYSPARAM sample_store [RecvData sysparam_reply_220])
      = Some (tt, st2) /\
      info (ds st2) !! "input.transfer.bypass.low"%string = Some (FInt "%d" 120) /\
      info (ds st2) !! "input.transfer.bypass.high"%string
      = Some (FFloat "%f" (S754_finite false 16580608 (-16))).
Proof.
  eexists. split; [vm_compute; reflexivity |].
  split; [vm_compute; discriminate |].
  split; [vm_compute; reflexivity |].
  destruct (sysparam_bypass_thresholds le_host
              (sample_driver GXE_SYSPARAM sample_store [RecvData sysparam_reply_220])
              _ _ _ eq_refl) as (st2 & Hrun & Hlow & Hhigh & _).
  - vm_compute. discriminate.
  - vm_compute. reflexivity.
  - exists st2. split; [exact Hrun |]. split; [exact Hlow |].
    rewrite Hhigh by (vm_compute; reflexivity).
    vm_compute. reflexivity.
Defined.

(** ** Frame layout *)

Lemma mem_read_write_disjoint (buf : list Z) (off : nat) (src b' : list Z)
    (offr n : nat) :
  mem_write buf off src = Some b' ->
  (offr + n <= off \/ off + length src <= offr)%nat ->
  mem_read b' offr n = mem_read buf offr n.
Proof.
  intros Hw Hd. apply list_eq. intros i. rewrite !mem_read_lookup.
  destruct (decide (i < n)%nat); [| reflexivity].
  rewrite (mem_write_lookup _ _ _ _ _ Hw). rewrite decide_False by lia. reflexivity.
Qed.

Lemma src_read_Some (src : list Z) (n : nat) (l : list Z) :
  src_read src n = Some l -> l = take n src /\ length l = n.
Proof.
  unfold src_read. destruct (decide (n <= length src)%nat); [| discriminate].
  intros [= <-]. split; [reflexivity |]. rewrite length_take. lia.
Qed.

Lemma mem_read_take (l : list Z) (m off n : nat) :
  (off + n <= m)%nat -> mem_read (take m l) off n = mem_read l off n.
Proof.
  intros H. apply list_eq. intros i. rewrite !mem_read_lookup.
  destruct (decide (i < n)%nat); [| reflexivity].
  apply lookup_take_lt. lia.
Qed.

(** The fields of a built frame: SOI, VER, ADR, CID1 and CID2, LENGTH,
    INFO, EOI. *)
Lemma frame_make_layout (plat : platform) (buf : list Z) (cmdi : gxe_cmd)
    (ver adr dptr : list Z) (dlen : nat) (frame : list Z) (n : nat) :
  frame_make plat buf cmdi ver adr dptr dlen = Some (frame, n) ->
  mem_read frame 0 1 = [0x7e] /\
  mem_read frame 1 2 = take 2 ver /\
  mem_read frame 3 2 = take 2 adr /\
  mem_read frame 5 4 = gxe_cmds cmdi /\
  mem_read frame 9 4 = take 4 (proto_lchecksum plat (CInt.uint16 (Z.of_nat dlen))) /\
  mem_read frame 13 dlen = take dlen dptr /\
  mem_read frame (17 + dlen) 1 = [0x0d].
Proof.
  unfold frame_make. intros H.
  apply bind_Some in H as (b1 & W1 & H).
  apply bind_Some in H as (v & R1 & H).
  apply bind_Some in H as (b2 & W2 & H).
  apply bind_Some in H as (a & R2 & H).
  apply bind_Some in H as (b3 & W3 & H).
  apply bind_Some in H as (b4 & W4 & H).
  apply bind_Some in H as (b5 & W5 & H).
  apply bind_Some in H as (d & R3 & H).
  apply bind_Some in H as (b6 & W6 & H).
  apply bind_Some in H as (b7 & W7 & H).
  apply bind_Some in H as (b8 & W8 & H).
  injection H as <- <-.
  apply src_read_Some in R1 as [-> Lv], R2 as [-> La], R3 as [-> Ld].
  pose proof (gxe_cmds_length cmdi) as Lc.
  pose proof (proto_lchecksum_length plat (CInt.uint16 (Z.of_nat dlen))) as Ll.
  pose proof (proto_checksum_length plat (mem_read b6 1 (dlen + 12))) as Lk.
  repeat split.
  - rewrite (mem_read_write_disjoint _ _ _ _ _ _ W8) by (cbn [length]; lia).
    rewrite (mem_read_write_disjoint _ _ _ _ _ _ W7) by lia.
    rewrite (mem_read_write_disjoint _ _ _ _ _ _ W6) by lia.
    rewrite (mem_read_write_disjoint _ _ _ _ _ _ W5) by lia.
    rewrite (mem_read_write_disjoint _ _ _ _ _ _ W4) by lia.
    rewrite (mem_read_write_disjoint _ _ _ _ _ _ W3) by lia.
    rewrite (mem_read_write_disjoint _ _ _ _ _ _ W2) by lia.
    apply (mem_read_write_at _ _ _ _ 1 W1). cbn [length]. lia.
  - rewrite (mem_read_write_disjoint _ _ _ _ _ _ W8) by (cbn [length]; lia).
    rewrite (mem_read_write_disjoint _ _ _ _ _ _ W7) by lia.
    rewrite (mem_read_write_disjoint _ _ _ _ _ _ W6) by lia.
    rewrite (mem_read_write_disjoint _ _ _ _ _ _ W5) by lia.
    rewrite (mem_read_write_disjoint _ _ _ _ _ _ W4) by lia.
    rewrite (mem_read_write_disjoint _ _ _ _ _ _ W3) by lia.
    rewrite (mem_read_write_at _ _ _ _ 2 W2) by lia.
    apply take_ge. lia.
  - rewrite (mem_read_write_disjoint _ _ _ _ _ _ W8) by (cbn [length]; lia).
    rewrite (mem_read_write_disjoint _ _ _ _ _ _ W7) by lia.
    rewrite (mem_read_write_disjoint _ _ _ _ _ _ W6) by lia.
    rewrite (mem_read_write_disjoint _ _ _ _ _ _ W5) by lia.
    rewrite (mem_read_write_disjoint _ _ _ _ _ _ W4) by lia.
    rewrite (mem_read_write_at _ _ _ _ 2 W3) by lia.
    apply take_ge. lia.
  - rewrite (mem_read_write_disjoint _ _ _ _ _ _ W8) by (cbn [length]; lia).
    rewrite (mem_read_write_disjoint _ _ _ _ _ _ W7) by lia.
    rewrite (mem_read_write_disjoint _ _ _ _ _ _ W6) by lia.
    rewrite (mem_read_write_disjoint _ _ _ _ _ _ W5) by lia.
    rewrite (mem_read_write_at _ _ _ _ 4 W4) by lia.
    apply take_ge. lia.
  - rewrite (mem_read_write_disjoint _ _ _ _ _ _ W8) by (cbn [length]; lia).
    rewrite (mem_read_write_disjoint _ _ _ _ _ _ W7) by lia.
    rewrite (mem_read_write_disjoint _ _ _ _ _ _ W6) by lia.
    apply (mem_read_write_at _ _ _ _ 4 W5). lia.
  - rewrite (mem_read_write_disjoint _ _ _ _ _ _ W8) by (cbn [length]; lia).
    rewrite (mem_read_write_disjoint _ _ _ _ _ _ W7) by lia.
    rewrite (mem_read_write_at _ _ _ _ dlen W6) by lia.
    apply take_ge. lia.
  - apply (mem_read_write_at _ _ _ _ 1 W8). cbn [length]. lia.
Qed.

(** ** Command dispatch *)

Lemma tolower_zero (c : Z) : tolower c = 0 <-> c = 0.
Proof.
  unfold tolower.
  destruct (Z.leb_spec 65 c), (Z.leb_spec c 90); cbn [andb]; lia.
Qed.

Lemma strcasecmp_cons (c d : Z) (a b : list Z) :
  strcasecmp (c :: a) (d :: b)
  = if negb (tolower c =? tolower d) then tolower c - tolower d
    else if tolower c =? 0 then 0 else strcasecmp a b.
Proof. reflexivity. Qed.

Lemma strcasecmp_zero (a : list Z) :
  forall b, strcasecmp a b = 0 <-> same_nocase a b.
Proof.
  unfold same_nocase.
  induction a as [| c a IH]; intros [| d b].
  - cbn. tauto.
  - cbn [strcasecmp c_chars]. change (tolower 0) with 0.
    destruct (Z.eqb_spec 0 (tolower d)) as [Hd | Hd]; cbn [negb].
    + symmetry in Hd. apply tolower_zero in Hd as ->. cbn. tauto.
    + destruct (Z.eqb_spec d 0) as [-> | Hnz]; [exfalso; apply Hd; reflexivity |].
      cbn. split; [lia | discriminate].
  - cbn [strcasecmp c_chars]. change (tolower 0) with 0.
    destruct (Z.eqb_spec (tolower c) 0) as [Hc | Hc]; cbn [negb].
    + apply tolower_zero in Hc as ->. cbn. tauto.
    + destruct (Z.eqb_spec c 0) as [-> | Hnz]; [exfalso; apply Hc; reflexivity |].
      cbn. split; [lia | discriminate].
  - rewrite strcasecmp_cons. cbn [c_chars].
    destruct (Z.eqb_spec (tolower c) (tolower d)) as [Heq | Hne]; cbn [negb].
    + destruct (Z.eqb_spec (tolower c) 0) as [Hc | Hc].
      * assert (Hd : tolower d = 0) by congruence.
        apply tolower_zero in Hc as ->. apply tolower_zero in Hd as ->.
        cbn. tauto.
      * assert (Hd : tolower d <> 0) by congruence.
        destruct (Z.eqb_spec c 0) as [-> | _]; [exfalso; apply Hc; reflexivity |].
        destruct (Z.eqb_spec d 0) as [-> | _]; [exfalso; apply Hd; reflexivity |].
        cbn [map]. rewrite IH. split; [intros ->; rewrite Heq; reflexivity |].
        intros [= _ H]. exact H.
    + split; [lia |]. intros Heq. exfalso. apply Hne.
      destruct (Z.eqb_spec c 0) as [-> | Hc], (Z.eqb_spec d 0) as [-> | Hd];
        cbn [map] in Heq; try discriminate; try reflexivity.
      injection Heq as H _. exact H.
Qed.

Lemma strcasecmp_eqb (a b : list Z) :
  (strcasecmp a b =? 0) = true <-> same_nocase a b.
Proof. rewrite Z.eqb_eq. apply strcasecmp_zero. Qed.

(** The payload chosen for a name that is "load.on" up to case. *)
Lemma instcmd_data_load_on (cmdname : list Z) :
  same_nocase cmdname (cstrz "load.on") ->
  instcmd_data cmdname = Some (cstrz "2001").
Proof.
  intros Hon. unfold instcmd_data.
  destruct (strcasecmp cmdname (cstrz "test.battery.start") =? 0) eqn:H1.
  { apply strcasecmp_eqb in H1. unfold same_nocase in *. rewrite Hon in H1.
    vm_compute in H1. discriminate. }
  destruct (strcasecmp cmdname (cstrz "test.battery.stop") =? 0) eqn:H2.
  { apply strcasecmp_eqb in H2. unfold same_nocase in *. rewrite Hon in H2.
    vm_compute in H2. discriminate. }
  apply strcasecmp_eqb in Hon. rewrite Hon. reflexivity.
Qed.

(** No payload for a name that is none of the four, up to case. *)
Lemma instcmd_data_unknown (cmdname : list Z) :
  (forall k, k ∈ known_commands -> ~ same_nocase cmdname (cstrz k)) ->
  instcmd_data cmdname = None.
Proof.
  intros Hun. unfold instcmd_data.
  assert (Hk : forall k, k ∈ known_commands ->
                 (strcasecmp cmdname (cstrz k) =? 0) = false).
  { intros k Hin. destruct (strcasecmp cmdname (cstrz k) =? 0) eqn:E; [| reflexivity].
    apply strcasecmp_eqb in E. exfalso. exact (Hun k Hin E). }
  rewrite !Hk by (unfold known_commands; set_solver). reflexivity.
Qed.

Lemma instcmd_retry_S (plat : platform) (n : nat) (cmdbuf data : list Z)
    (len : nat) (st : driver) :
  instcmd_retry plat (S n) cmdbuf data len st
  = match instcmd_attempt plat cmdbuf data len st with
    | Some ((v, b), st1) =>
        if negb (v <? 0)
        then Some (STAT_INSTCMD_HANDLED, upd_poll GXE_SYSPARAM st1)
        else instcmd_retry plat n b data len st1
    | None => None
    end.
Proof.
  cbn [instcmd_retry]. unfold mbind at 1, M_bind at 1.
  destruct (instcmd_attempt plat cmdbuf data len st) as [[[v b] st1] |];
    [| reflexivity].
  destruct (negb (v <? 0)); reflexivity.
Qed.

Lemma instcmd_retry_after_failures (plat : platform) (data : list Z) (n k : nat)
    (b b' : list Z) (st st' : driver) :
  failed_attempts plat data k b st b' st' ->
  instcmd_retry plat (k + n) b data 4 st = instcmd_retry plat n b' data 4 st'.
Proof.
  induction 1 as [| k b b1 b2 st st1 st2 v Hatt Hneg _ IH]; [reflexivity |].
  cbn [Nat.add]. rewrite instcmd_retry_S, Hatt.
  apply Z.ltb_lt in Hneg. rewrite Hneg. exact IH.
Qed.

(** What one attempt leaves behind: one more frame on the line, whose
    command id is that of the remote command and whose payload is the
    command's data; phase and store are as before. *)
Lemma instcmd_attempt_effect (plat : platform) (b data : list Z) (st st1 : driver)
    (r : Z * list Z) :
  instcmd_attempt plat b data 4 st = Some (r, st1) ->
  poll_state st1 = poll_state st /\ ds st1 = ds st /\ devaddr st1 = devaddr st /\
  exists frame,
    ser_sent (ser st1) = ser_sent (ser st) ++ [frame] /\
    length frame = 22%nat /\
    mem_read frame 5 4 = gxe_cmds GXE_REMOTE_COMMAND /\
    mem_read frame 13 4 = take 4 data.
Proof.
  unfold instcmd_attempt. rewrite bind_gets.
  unfold mbind at 1, M_bind at 1.
  destruct (frame_send_and_recv plat b 64 GXE_REMOTE_COMMAND (cstrz "21")
              (devaddr st) data 4 st) as [[[ret b1] sa] |] eqn:Hx; [| discriminate].
  destruct (frame_send_and_recv_effect _ _ _ _ _ _ _ _ _ _ _ Hx)
    as (Hp & Ha & Hd & _ & frame & Hmk & Hsent).
  unfold validate_ret_logged. destruct (validate_ret b1 ret 13) as [v lines].
  unfold mbind, M_bind, upslogx, mret, M_ret. intros [= <- <-].
  cbn [poll_state ds devaddr ser]. repeat split; try assumption.
  exists (take (4 + 18) frame). split; [exact Hsent |].
  destruct (frame_make_length _ _ _ _ _ _ _ _ _ Hmk) as [Hlen _].
  destruct (frame_make_layout _ _ _ _ _ _ _ _ _ Hmk) as (_ & _ & _ & Hcid & _ & Hinfo & _).
  unfold local_buf in Hlen. rewrite length_replicate in Hlen.
  split; [rewrite length_take; lia |].
  rewrite !mem_read_take by lia. split; assumption.
Qed.

Lemma failed_attempts_effect (plat : platform) (data : list Z) (k : nat)
    (b b' : list Z) (st st' : driver) :
  failed_attempts plat data k b st b' st' ->
  poll_state st' = poll_state st /\ ds st' = ds st /\
  exists frames,
    ser_sent (ser st') = ser_sent (ser st) ++ frames /\
    length frames = k /\ Forall (remote_frame data) frames.
Proof.
  induction 1 as [b st | k b b1 b2 st st1 st2 v Hatt _ _ IH].
  - repeat split. exists []. rewrite app_nil_r. repeat split. constructor.
  - destruct (instcmd_attempt_effect _ _ _ _ _ _ Hatt)
      as (Hp & Hd & _ & frame & Hsent & Hfr).
    destruct IH as (Hp' & Hd' & frames & Hsent' & Hlen & Hall).
    split; [congruence |]. split; [congruence |].
    exists (frame :: frames). split; [| split].
    + rewrite Hsent', Hsent, <- app_assoc. reflexivity.
    + cbn [length]. lia.
    + constructor; assumption.
Qed.

(** A reply is accepted exactly when it is long enough and its return
    code is 0. *)
Lemma validate_ret_accepts_iff (buf : list Z) (ret minlen : Z) :
  0 <= fst (validate_ret buf ret minlen) <->
  0 <= ret /\ minlen <= ret /\ val_from_hex buf 7 2 = 0.
Proof.
  unfold validate_ret.
  destruct (Z.ltb_spec ret 0); [cbn; lia |].
  destruct (Z.ltb_spec ret minlen); [cbn; lia |].
  destruct (Z.eqb_spec (val_from_hex buf 7 2) 0) as [E | E]; cbn [negb fst]; lia.
Qed.

(** C5 (counterexample to the specification as worded): "LOAD.ON" is not one of
    the four command names, yet the dispatcher does not report it unknown:
    it sends the frame of "load.on" and, the reply being accepted, reports
    handled. *)
Lemma instcmd_upper_case_name_is_dispatched :
  ("LOAD.ON"%string ∉ known_commands) /\
  exists st2,
    instcmd le_host (cstrz "LOAD.ON") (cstrz "")
      (sample_driver GXE_ONOFF sample_store [RecvData reply_accepted])
    = Some (STAT_INSTCMD_HANDLED, st2) /\
    ser_sent (ser st2) = [cstr "~21012A45C0042001FCC6" ++ [13]] /\
    poll_state st2 = GXE_SYSPARAM.
Proof.
  split.
  - unfold known_commands. intros H.
    repeat (apply elem_of_cons in H as [H | H]; [discriminate |]).
    inversion H.
  - eexists. split; [vm_compute; reflexivity |]. split; reflexivity.
Qed.

(** The dispatcher in terms of its attempts: for a name equal to
    "load.on" up to case, the first attempt that [validate_ret] does not
    report negative ends the command as handled, three negative attempts
    end it as failed; a name unlike the four is unknown. *)
Lemma instcmd_by_attempts (plat : platform) (st : driver) (extra : list Z) :
  (forall cmdname, same_nocase cmdname (cstrz "load.on") ->
     (forall k b1 b2 st1 st2 v,
        (k < 3)%nat ->
        failed_attempts plat (cstrz "2001") k (local_buf 64) st b1 st1 ->
        instcmd_attempt plat b1 (cstrz "2001") 4 st1 = Some ((v, b2), st2) ->
        0 <= v ->
        instcmd plat cmdname extra st
        = Some (STAT_INSTCMD_HANDLED, upd_poll GXE_SYSPARAM st2) /\
        exists frames,
          ser_sent (ser st2) = ser_sent (ser st) ++ frames /\
          length frames = S k /\ Forall (remote_frame (cstr "2001")) frames) /\
     (forall b3 st3,
        failed_attempts plat (cstrz "2001") 3 (local_buf 64) st b3 st3 ->
        instcmd plat cmdname extra st
        = Some (STAT_INSTCMD_FAILED,
                add_log ["instcmd: remote failed response, try again"%string] st3) /\
        poll_state st3 = poll_state st /\
        exists frames,
          ser_sent (ser st3) = ser_sent (ser st) ++ frames /\
          length frames = 3%nat /\ Forall (remote_frame (cstr "2001")) frames)) /\
  (forall cmdname,
     (forall k, k ∈ known_commands -> ~ same_nocase cmdname (cstrz k)) ->
     instcmd plat cmdname extra st
     = Some (STAT_INSTCMD_UNKNOWN, add_log ["instcmd: unknown command"%string] st)).
Proof.
  split.
  - intros cmdname Hon. unfold instcmd. rewrite (instcmd_data_load_on _ Hon).
    split.
    + intros k b1 b2 st1 st2 v Hk Hfail Hatt Hv.
      split.
      * assert (E : PROBE_RETRIES = (k + S (2 - k))%nat)
          by (unfold PROBE_RETRIES; lia).
        rewrite E, (instcmd_retry_after_failures _ _ _ _ _ _ _ _ Hfail).
        rewrite instcmd_retry_S, Hatt.
        destruct (Z.ltb_spec v 0); [lia | reflexivity].
      * destruct (failed_attempts_effect _ _ _ _ _ _ _ Hfail)
          as (_ & _ & frames & Hsent & Hlen & Hall).
        destruct (instcmd_attempt_effect _ _ _ _ _ _ Hatt)
          as (_ & _ & _ & frame & Hsent' & Hfr).
        exists (frames ++ [frame]). split; [| split].
        -- rewrite Hsent', Hsent, <- app_assoc. reflexivity.
        -- rewrite length_app. cbn [length]. lia.
        -- apply Forall_app. split; [exact Hall |]. constructor; [exact Hfr | constructor].
    + intros b3 st3 Hfail.
      destruct (failed_attempts_effect _ _ _ _ _ _ _ Hfail)
        as (Hp & _ & frames & Hsent & Hlen & Hall).
      split; [| split; [exact Hp | exists frames; auto]].
      assert (E : PROBE_RETRIES = (3 + 0)%nat) by reflexivity.
      rewrite E, (instcmd_retry_after_failures _ _ _ _ _ _ _ _ Hfail).
      reflexivity.
  - intros cmdname Hun. unfold instcmd. rewrite (instcmd_data_unknown _ Hun).
    reflexivity.
Qed.

(** One attempt, from what the exchange returns. *)
Lemma instcmd_attempt_run (plat : platform) (b data : list Z) (len : nat)
    (st st1 : driver) (ret : Z) (b1 : list Z) :
  frame_send_and_recv plat b 64 GXE_REMOTE_COMMAND (cstrz "21") (devaddr st)
    data len st = Some ((ret, b1), st1) ->
  instcmd_attempt plat b data len st
  = Some ((fst (validate_ret b1 ret 13), b1),
          add_log (snd (validate_ret b1 ret 13)) st1).
Proof.
  intros Hx. unfold instcmd_attempt, mbind, M_bind, gets. rewrite Hx.
  unfold validate_ret_logged. destruct (validate_ret b1 ret 13) as [r lines].
  unfold mbind, M_bind, upslogx, add_log, mret, M_ret. reflexivity.
Qed.

Lemma rejected_exchanges_failed (plat : platform) (data : list Z) (k : nat)
    (b b' : list Z) (st st' : driver) :
  rejected_exchanges plat data k b st b' st' ->
  failed_attempts plat data k b st b' st'.
Proof.
  induction 1 as [b st | k b b1 b2 st st1 st2 ret Hx Hrej _ IH].
  - constructor.
  - eapply failed_more; [exact (instcmd_attempt_run _ _ _ _ _ _ _ _ Hx) | exact Hrej | exact IH].
Qed.

(** The validation of line 264: negative exactly for a reply shorter
    than 13 bytes (a failed send or receive included) or with a return
    code other than 0. *)
Lemma validate_ret_13_rejects (buf : list Z) (ret : Z) :
  fst (validate_ret buf ret 13) < 0 <-> ret < 13 \/ val_from_hex buf 7 2 <> 0.
Proof.
  pose proof (validate_ret_accepts_iff buf ret 13) as H.
  destruct (Z.eq_dec (val_from_hex buf 7 2) 0) as [E | E]; split; intros H1.
  - destruct (Z_lt_le_dec ret 13) as [Hl | Hl]; [left; exact Hl |].
    exfalso. assert (0 <= fst (validate_ret buf ret 13)) by (apply H; lia). lia.
  - destruct (Z_lt_le_dec (fst (validate_ret buf ret 13)) 0) as [Hl | Hl]; [exact Hl |].
    apply H in Hl. lia.
  - right. exact E.
  - destruct (Z_lt_le_dec (fst (validate_ret buf ret 13)) 0) as [Hl | Hl]; [exact Hl |].
    apply H in Hl. lia.
Qed.

(** C5 (amended): for a name equal to "load.on" up to the case of its
    letters the dispatcher makes up to three exchanges, each sending one
    frame of the remote command with the payload "2001".  An exchange is
    rejected when validate_ret with minimum length 13 is negative, that
    is when fewer than 13 bytes came back (a failed send or receive
    included) or the return code at offset 7 is not 0.  The first
    exchange that returns at least 13 bytes with return code 0 ends the
    command as handled with the poll phase set to SYSPARAM; three
    rejected exchanges in a row end it as failed, the phase unchanged.
    For a name that differs from each of the four known names even up to
    case it reports unknown and the line is not used. *)
Theorem instcmd_dispatch (plat : platform) (st : driver) (extra : list Z) :
  (forall buf ret,
     fst (validate_ret buf ret 13) < 0
     <-> ret < 13 \/ val_from_hex buf 7 2 <> 0) /\
  (forall cmdname, same_nocase cmdname (cstrz "load.on") ->
     (forall k b1 b2 st1 st2 ret,
        (k < 3)%nat ->
        rejected_exchanges plat (cstrz "2001") k (local_buf 64) st b1 st1 ->
        frame_send_and_recv plat b1 64 GXE_REMOTE_COMMAND (cstrz "21")
          (devaddr st1) (cstrz "2001") 4 st1 = Some ((ret, b2), st2) ->
        13 <= ret -> val_from_hex b2 7 2 = 0 ->
        validate_ret b2 ret 13 = (0, []) /\
        instcmd plat cmdname extra st
        = Some (STAT_INSTCMD_HANDLED, upd_poll GXE_SYSPARAM st2) /\
        exists frames,
          ser_sent (ser st2) = ser_sent (ser st) ++ frames /\
          length frames = S k /\ Forall (remote_frame (cstr "2001")) frames) /\
     (forall b3 st3,
        rejected_exchanges plat (cstrz "2001") 3 (local_buf 64) st b3 st3 ->
        instcmd plat cmdname extra st
        = Some (STAT_INSTCMD_FAILED,
                add_log ["instcmd: remote failed response, try again"%string] st3) /\
        poll_state st3 = poll_state st /\
        exists frames,
          ser_sent (ser st3) = ser_sent (ser st) ++ frames /\
          length frames = 3%nat /\ Forall (remote_frame (cstr "2001")) frames)) /\
  (forall cmdname,
     (forall k, k ∈ known_commands -> ~ same_nocase cmdname (cstrz k)) ->
     instcmd plat cmdname extra st
     = Some (STAT_INSTCMD_UNKNOWN, add_log ["instcmd: unknown command"%string] st)).
Proof.
  destruct (instcmd_by_attempts plat st extra) as [Hon Hun].
  split; [apply validate_ret_13_rejects |]. split; [| exact Hun].
  intros cmdname Hname. destruct (Hon cmdname Hname) as [Hhandled Hfailed].
  split.
  - intros k b1 b2 st1 st2 ret Hk Hrej Hx Hlen Hcode.
    assert (Hv : validate_ret b2 ret 13 = (0, [])).
    { unfold validate_ret.
      destruct (Z.ltb_spec ret 0); [lia |].
      destruct (Z.ltb_spec ret 13); [lia |].
      rewrite Hcode. reflexivity. }
    split; [exact Hv |].
    pose proof (instcmd_attempt_run _ _ _ _ _ _ _ _ Hx) as Hatt.
    rewrite Hv in Hatt. cbn [fst snd] in Hatt.
    assert (E : add_log [] st2 = st2)
      by (destruct st2; unfold add_log; cbn; rewrite app_nil_r; reflexivity).
    rewrite E in Hatt.
    exact (Hhandled k b1 b2 st1 st2 0 Hk (rejected_exchanges_failed _ _ _ _ _ _ _ Hrej)
             Hatt ltac:(lia)).
  - intros b3 st3 Hrej.
    exact (Hfailed b3 st3 (rejected_exchanges_failed _ _ _ _ _ _ _ Hrej)).
Qed.

(** C5 at work: "load.on" handled at the second exchange when the first
    reply carries return code 04; failed after a refusal, a timeout and a
    short reply; and "reboot" reported unknown. *)
Lemma instcmd_dispatch_witness :
  same_nocase (cstrz "load.on") (cstrz "load.on") /\
  val_from_hex reply_refused 7 2 = 4 /\
  (exists st2,
     instcmd le_host (cstrz "load.on") (cstrz "")
       (sample_driver GXE_ONOFF sample_store
          [RecvData reply_refused; RecvData reply_accepted])
     = Some (STAT_INSTCMD_HANDLED, st2) /\ poll_state st2 = GXE_SYSPARAM /\
     length (ser_sent (ser st2)) = 2%nat) /\
  (exists st3,
     instcmd le_host (cstrz "load.on") (cstrz "")
       (sample_driver GXE_ONOFF sample_store
          [RecvData reply_refused; RecvFail 0; RecvData (cstr "~21012A00")])
     = Some (STAT_INSTCMD_FAILED, st3) /\ poll_state st3 = GXE_ONOFF /\
     length (ser_sent (ser st3)) = 3%nat) /\
  (forall k, k ∈ known_commands -> ~ same_nocase (cstrz "reboot") (cstrz k)) /\
  instcmd le_host (cstrz "reboot") (cstrz "")
    (sample_driver GXE_ONOFF sample_store [RecvData reply_accepted])
  = Some (STAT_INSTCMD_UNKNOWN,
          add_log ["instcmd: unknown command"%string]
            (sample_driver GXE_ONOFF sample_store [RecvData reply_accepted])).
Proof.
  pose proof (instcmd_dispatch le_host
                (sample_driver GXE_ONOFF sample_store [RecvData reply_accepted])
                (cstrz "")) as (_ & _ & Hun).
  assert (Hrb : forall k, k ∈ known_commands -> ~ same_nocase (cstrz "reboot") (cstrz k)).
  { intros k Hk. unfold known_commands in Hk.
    repeat (apply elem_of_cons in Hk as [-> | Hk]; [vm_compute; discriminate |]).
    inversion Hk. }
  split; [reflexivity |]. split; [reflexivity |].
  split; [| split; [| split; [exact Hrb | exact (Hun _ Hrb)]]].
  - destruct (instcmd_dispatch le_host
                (sample_driver GXE_ONOFF sample_store
                   [RecvData reply_refused; RecvData reply_accepted])
                (cstrz "")) as (_ & Hon & _).
    destruct (Hon (cstrz "load.on") eq_refl) as [Hhandled _].
    edestruct (Hhandled 1%nat) as (_ & Hrun & _).
    + lia.
    + eapply rejected_more; [vm_compute; reflexivity | vm_compute; reflexivity |].
      apply rejected_none.
    + vm_compute. reflexivity.
    + vm_compute. discriminate.
    + vm_compute. reflexivity.
    + eexists. split; [exact Hrun |]. split; reflexivity.
  - destruct (instcmd_dispatch le_host
                (sample_driver GXE_ONOFF sample_store
                   [RecvData reply_refused; RecvFail 0; RecvData (cstr "~21012A00")])
                (cstrz "")) as (_ & Hon & _).
    destruct (Hon (cstrz "load.on") eq_refl) as [_ Hfailed].
    edestruct Hfailed as (Hrun & Hp & frames & Hsent & Hlen & _).
    + eapply rejected_more; [vm_compute; reflexivity | vm_compute; reflexivity |].
      eapply rejected_more; [vm_compute; reflexivity | vm_compute; reflexivity |].
      eapply rejected_more; [vm_compute; reflexivity | vm_compute; reflexivity |].
      apply rejected_none.
    + eexists. split; [exact Hrun |]. split; [exact Hp |].
      vm_compute. reflexivity.
Defined.

(** * Further properties *)

(** ** Hexadecimal fields: bounds and round trip *)

(** A digit is worth at most 15. *)
Lemma xdigit_val_range (c d : Z) : xdigit_val c = Some d -> 0 <= d <= 15.
Proof.
  unfold xdigit_val.
  destruct ((48 <=? c) && (c <=? 57)) eqn:E1;
    [| destruct ((65 <=? c) && (c <=? 70)) eqn:E2;
       [| destruct ((97 <=? c) && (c <=? 102)) eqn:E3 ] ];
    intros [= <-]; lia.
Qed.

(** The digits read from [s] extend [acc] by at most one digit per
    character. *)
Lemma strtol_digits_bounds (s : list Z) :
  forall acc, 0 <= acc ->
    acc <= strtol_digits acc s < (acc + 1) * 16 ^ Z.of_nat (length s).
Proof.
  induction s as [| c s IH]; intros acc Hacc.
  - cbn. lia.
  - cbn [strtol_digits length]. rewrite Nat2Z.inj_succ, Z.pow_succ_r by lia.
    assert (0 < 16 ^ Z.of_nat (length s)) by (apply Z.pow_pos_nonneg; lia).
    destruct (xdigit_val c) as [d |] eqn:Hd.
    + apply xdigit_val_range in Hd.
      specialize (IH (acc * 16 + d) ltac:(lia)). nia.
    + nia.
Qed.

Lemma skip_space_length (s : list Z) : (length (skip_space s) <= length s)%nat.
Proof.
  induction s as [| c s IH]; cbn; [lia |].
  destruct (isspace c); cbn; lia.
Qed.

(** The two matches on character constants, as tests. *)
Lemma skip_0x_eq (s : list Z) :
  skip_0x s
  = match s with
    | c :: x :: s' =>
        if (c =? 48) && ((x =? 120) || (x =? 88)) then s' else s
    | _ => s
    end.
Proof.
  destruct s as [| c [| x s']]; try reflexivity.
  - unfold skip_0x. destruct c as [| p | p]; try reflexivity.
    repeat (destruct p as [p | p |]; try reflexivity).
  - destruct (Z.eqb_spec c 48) as [-> | Hc]; [reflexivity |].
    unfold skip_0x. destruct c as [| p | p]; try reflexivity.
    repeat (destruct p as [p | p |]; try reflexivity). contradiction.
Qed.

Lemma skip_0x_length (s : list Z) : (length (skip_0x s) <= length s)%nat.
Proof.
  rewrite skip_0x_eq. destruct s as [| c [| x s']]; cbn; try lia.
  destruct ((c =? 48) && ((x =? 120) || (x =? 88))); cbn; lia.
Qed.

Lemma strtol16_eq (s : list Z) :
  strtol16 s
  = match skip_space s with
    | c :: r =>
        if c =? 45
        then Z.max CInt.LONG_MIN (- strtol_digits 0 (skip_0x r))
        else if c =? 43
        then Z.min CInt.LONG_MAX (strtol_digits 0 (skip_0x r))
        else Z.min CInt.LONG_MAX (strtol_digits 0 (skip_0x (c :: r)))
    | [] => 0
    end.
Proof.
  unfold strtol16. destruct (skip_space s) as [| c r]; [reflexivity |].
  destruct (Z.eqb_spec c 45) as [-> | H45]; [reflexivity |].
  destruct (Z.eqb_spec c 43) as [-> | H43]; [reflexivity |].
  destruct c as [| p | p]; try reflexivity.
  repeat (destruct p as [p | p |]; try reflexivity); contradiction.
Qed.

Lemma pow16_mono (a b : nat) : (a <= b)%nat -> 16 ^ Z.of_nat a <= 16 ^ Z.of_nat b.
Proof. intros. apply Z.pow_le_mono_r; lia. Qed.

Lemma magnitude_bound (s : list Z) (n : nat) :
  (length s <= n)%nat ->
  0 <= strtol_digits 0 (skip_0x s) < 16 ^ Z.of_nat n.
Proof.
  intros Hn.
  pose proof (strtol_digits_bounds (skip_0x s) 0 ltac:(lia)) as H.
  pose proof (skip_0x_length s).
  pose proof (pow16_mono (length (skip_0x s)) n ltac:(lia)). lia.
Qed.

(** The text has at most [n] characters, so that at most [n] digits are
    read, one fewer after a sign. *)
Lemma strtol16_bounds (s : list Z) (n : nat) :
  (1 <= n <= 15)%nat -> (length s <= n)%nat ->
  - 16 ^ Z.of_nat (n - 1) < strtol16 s < 16 ^ Z.of_nat n.
Proof.
  intros Hn Hs. rewrite strtol16_eq.
  pose proof (skip_space_length s) as Hsp.
  assert (0 < 16 ^ Z.of_nat (n - 1)) by (apply Z.pow_pos_nonneg; lia).
  pose proof (pow16_mono (n - 1) n ltac:(lia)).
  assert (16 ^ Z.of_nat n <= 16 ^ 15)
    by (apply Z.pow_le_mono_r; lia).
  assert (E15 : 16 ^ 15 = 1152921504606846976) by reflexivity.
  assert (CInt.LONG_MAX = 9223372036854775807) by reflexivity.
  assert (CInt.LONG_MIN = -9223372036854775808) by reflexivity.
  destruct (skip_space s) as [| c r]; [lia |].
  cbn [length] in Hsp.
  destruct (c =? 45); [| destruct (c =? 43)].
  - pose proof (magnitude_bound r (n - 1) ltac:(lia)). lia.
  - pose proof (magnitude_bound r (n - 1) ltac:(lia)). lia.
  - pose proof (magnitude_bound (c :: r) n ltac:(cbn [length]; lia)). lia.
Qed.

Lemma mem_read_length_le (buf : list Z) (off n : nat) :
  (length (mem_read buf off n) <= n)%nat.
Proof. unfold mem_read. rewrite length_take. lia. Qed.

(** Conversion to [int] keeps what fits. *)
Lemma int32_small (v : Z) : - 2 ^ 31 <= v < 2 ^ 31 -> CInt.int32 v = v.
Proof.
  intros Hv. unfold CInt.int32, CInt.wrap_signed.
  change (2 ^ 32) with 4294967296. change (2 ^ (32 - 1)) with 2147483648.
  change (2 ^ 31) with 2147483648 in Hv.
  destruct (Z_lt_le_dec v 0).
  - replace (v mod 4294967296) with (v + 4294967296)
      by (apply (Z.mod_unique _ _ (-1)); lia).
    destruct (Z.ltb_spec (v + 4294967296) 2147483648); lia.
  - rewrite Z.mod_small by lia.
    destruct (Z.ltb_spec v 2147483648); lia.
Qed.

(** Up to seven characters never leave the range of [int]. *)
Lemma val_from_hex_bounds (buf : list Z) (off n : nat) :
  (1 <= n <= 7)%nat ->
  - 16 ^ Z.of_nat (n - 1) < val_from_hex buf off n < 16 ^ Z.of_nat n.
Proof.
  intros Hn. unfold val_from_hex.
  destruct (decide (15 < n)%nat); [lia |].
  pose proof (strtol16_bounds (mem_read buf off n) n ltac:(lia)
                (mem_read_length_le buf off n)) as H.
  assert (16 ^ Z.of_nat n <= 16 ^ 7) by (apply Z.pow_le_mono_r; lia).
  assert (16 ^ Z.of_nat (n - 1) <= 16 ^ 7) by (apply Z.pow_le_mono_r; lia).
  assert (16 ^ 7 = 268435456) by reflexivity.
  rewrite int32_small; [exact H |].
  change (2 ^ 31) with 2147483648. lia.
Qed.

Lemma val_from_hex_2_bounds (buf : list Z) (off : nat) :
  -15 <= val_from_hex buf off 2 <= 255.
Proof.
  pose proof (val_from_hex_bounds buf off 2 ltac:(lia)) as H.
  change (16 ^ Z.of_nat (2 - 1)) with 16 in H.
  change (16 ^ Z.of_nat 2) with 256 in H. lia.
Qed.

Lemma val_from_hex_4_bounds (buf : list Z) (off : nat) :
  -4095 <= val_from_hex buf off 4 <= 65535.
Proof.
  pose proof (val_from_hex_bounds buf off 4 ltac:(lia)) as H.
  change (16 ^ Z.of_nat (4 - 1)) with 4096 in H.
  change (16 ^ Z.of_nat 4) with 65536 in H. lia.
Qed.

(** The digits of a value, one more digit at the front. *)
Lemma hex_digits_S (n : nat) (v : Z) :
  hex_digits (S n) v
  = hex_digit ((v / 16 ^ Z.of_nat n) mod 16) :: hex_digits n v.
Proof.
  unfold hex_digits. rewrite seq_S, rev_app_distr. reflexivity.
Qed.

Lemma hex_digits_length (n : nat) (v : Z) : length (hex_digits n v) = n.
Proof. unfold hex_digits. rewrite length_map, length_rev, length_seq. reflexivity. Qed.

(** The sixteen digits printed are digits read, and are neither white
    space, a sign nor the x of a prefix. *)
Lemma hex_digit_cases (d : Z) :
  0 <= d < 16 ->
  xdigit_val (hex_digit d) = Some d /\ isspace (hex_digit d) = false /\
  (hex_digit d =? 45) = false /\ (hex_digit d =? 43) = false /\
  (hex_digit d =? 120) = false /\ (hex_digit d =? 88) = false /\
  48 <= hex_digit d <= 70.
Proof.
  intros Hd.
  assert (d = 0 \/ d = 1 \/ d = 2 \/ d = 3 \/ d = 4 \/ d = 5 \/ d = 6 \/ d = 7 \/
          d = 8 \/ d = 9 \/ d = 10 \/ d = 11 \/ d = 12 \/ d = 13 \/ d = 14 \/
          d = 15) as H by lia.
  repeat (destruct H as [-> | H]; [vm_compute; repeat split; congruence |]).
  subst d. vm_compute; repeat split; congruence.
Qed.

Lemma hex_digits_spec (n : nat) (v : Z) :
  Forall (fun c => 48 <= c <= 70) (hex_digits n v).
Proof.
  unfold hex_digits. apply Forall_map, Forall_forall. intros i _. cbn.
  apply hex_digit_cases, Z.mod_pos_bound. lia.
Qed.

(** Reading [n] printed digits shifts the accumulator by [n] digits and
    adds the value printed. *)
Lemma strtol_digits_hex_digits (v : Z) (rest : list Z) (n : nat) :
  forall acc,
    strtol_digits acc (hex_digits n v ++ rest)
    = strtol_digits (acc * 16 ^ Z.of_nat n + v mod 16 ^ Z.of_nat n) rest.
Proof.
  induction n as [| n IH]; intros acc.
  - cbn [hex_digits]. unfold hex_digits. cbn [seq rev map app].
    change (16 ^ Z.of_nat 0) with 1. rewrite Z.mod_1_r. f_equal. lia.
  - rewrite hex_digits_S. cbn [app strtol_digits].
    destruct (hex_digit_cases ((v / 16 ^ Z.of_nat n) mod 16)) as [-> _];
      [apply Z.mod_pos_bound; lia |].
    rewrite IH. f_equal.
    rewrite Nat2Z.inj_succ, Z.pow_succ_r by lia.
    assert (0 < 16 ^ Z.of_nat n) by (apply Z.pow_pos_nonneg; lia).
    rewrite (Z.mul_comm 16 (16 ^ Z.of_nat n)).
    rewrite (Z.rem_mul_r v (16 ^ Z.of_nat n) 16) by lia. lia.
Qed.

Lemma mem_read_middle (pre x post : list Z) :
  mem_read (pre ++ x ++ post) (length pre) (length x) = x.
Proof.
  unfold mem_read. rewrite drop_app_length, take_app_length. reflexivity.
Qed.

Lemma strtol16_hex_digits (n : nat) (v : Z) :
  (1 <= n <= 15)%nat -> 0 <= v < 16 ^ Z.of_nat n ->
  strtol16 (hex_digits n v) = v.
Proof.
  intros Hn Hv. rewrite strtol16_eq.
  destruct n as [| n]; [lia |].
  rewrite hex_digits_S.
  set (c := hex_digit ((v / 16 ^ Z.of_nat n) mod 16)).
  destruct (hex_digit_cases ((v / 16 ^ Z.of_nat n) mod 16))
    as (_ & Hsp & H45 & H43 & _); [apply Z.mod_pos_bound; lia |].
  fold c in Hsp, H45, H43.
  cbn [skip_space]. rewrite Hsp, H45, H43.
  assert (Hskip : skip_0x (c :: hex_digits n v) = c :: hex_digits n v).
  { rewrite skip_0x_eq. destruct n as [| m].
    - reflexivity.
    - rewrite hex_digits_S.
      destruct (hex_digit_cases ((v / 16 ^ Z.of_nat m) mod 16))
        as (_ & _ & _ & _ & -> & -> & _); [apply Z.mod_pos_bound; lia |].
      rewrite andb_false_r. reflexivity. }
  rewrite Hskip. unfold c. rewrite <- hex_digits_S.
  rewrite <- (app_nil_r (hex_digits (S n) v)).
  rewrite strtol_digits_hex_digits. cbn [strtol_digits].
  rewrite Z.mod_small by lia.
  assert (16 ^ Z.of_nat (S n) <= 16 ^ 15) by (apply Z.pow_le_mono_r; lia).
  assert (16 ^ 15 = 1152921504606846976) by reflexivity.
  assert (CInt.LONG_MAX = 9223372036854775807) by reflexivity.
  lia.
Qed.

Lemma val_from_hex_hex_digits (pre post : list Z) (n : nat) (v : Z) :
  (1 <= n <= 7)%nat -> 0 <= v < 16 ^ Z.of_nat n ->
  val_from_hex (pre ++ hex_digits n v ++ post) (length pre) n = v.
Proof.
  intros Hn Hv. unfold val_from_hex.
  destruct (decide (15 < n)%nat); [lia |].
  rewrite <- (hex_digits_length n v) at 2.
  rewrite mem_read_middle, strtol16_hex_digits by lia.
  apply int32_small.
  assert (16 ^ Z.of_nat n <= 16 ^ 7) by (apply Z.pow_le_mono_r; lia).
  assert (16 ^ 7 = 268435456) by reflexivity.
  change (2 ^ 31) with 2147483648. lia.
Qed.

Lemma fmt_04X_small (v : Z) : 0 <= v < 65536 -> fmt_04X v = hex_digits 4 v.
Proof.
  intros Hv. unfold fmt_04X, hex_len.
  destruct (Z.leb_spec v 0); [reflexivity |].
  assert (Z.log2 v < 16) by (apply Z.log2_lt_pow2; lia).
  assert (0 <= Z.log2 v) by apply Z.log2_nonneg.
  assert (Z.log2 v / 4 < 4) by (apply Z.div_lt_upper_bound; lia).
  assert (0 <= Z.log2 v / 4) by (apply Z.div_pos; lia).
  replace (Nat.max 4 (Z.to_nat (Z.log2 v / 4 + 1))) with 4%nat by lia.
  reflexivity.
Qed.

(** [strtol] reads no digit from a text that starts with none. *)
Lemma val_from_hex_no_digit (buf : list Z) (off n : nat) (c : Z) :
  buf !! off = Some c ->
  xdigit_val c = None -> isspace c = false -> c <> 43 -> c <> 45 ->
  val_from_hex buf off n = 0.
Proof.
  intros Hc Hx Hsp H43 H45. unfold val_from_hex.
  destruct (decide (15 < n)%nat); [reflexivity |].
  assert (Hs : strtol16 (mem_read buf off n) = 0); [| rewrite Hs; reflexivity].
  rewrite strtol16_eq. unfold mem_read.
  rewrite (drop_S buf c off Hc).
  destruct n as [| n]; [reflexivity |].
  cbn [take skip_space]. rewrite Hsp.
  destruct (Z.eqb_spec c 45); [contradiction |].
  destruct (Z.eqb_spec c 43); [contradiction |].
  assert (Hne : (c =? 48) = false).
  { destruct (Z.eqb_spec c 48) as [-> |]; [discriminate Hx | reflexivity]. }
  rewrite skip_0x_eq.
  destruct (take n (drop (S off) buf)) as [| x s'].
  - cbn [strtol_digits]. rewrite Hx. reflexivity.
  - rewrite Hne. cbn [andb strtol_digits]. rewrite Hx. reflexivity.
Qed.

(** An accepted reply is reported as 0 and logs nothing. *)
Lemma validate_ret_accepted (buf : list Z) (ret minlen : Z) :
  0 <= fst (validate_ret buf ret minlen) -> validate_ret buf ret minlen = (0, []).
Proof.
  intros H. apply validate_ret_accepts_iff in H as (H0 & Hm & Hc).
  unfold validate_ret.
  destruct (Z.ltb_spec ret 0); [lia |].
  destruct (Z.ltb_spec ret minlen); [lia |].
  rewrite Hc. reflexivity.
Qed.

(** X1: a field longer than 15 characters decodes to 0; a field of n
    characters, 1 <= n <= 7, decodes to an integer strictly between
    -16^(n-1) and 16^n whatever its characters are (the text may carry a
    sign): a two-character field lies in [-15, 255] and a four-character
    field in [-4095, 65535]. *)
Theorem val_from_hex_field_bounds (buf : list Z) (off n : nat) :
  ((15 < n)%nat -> val_from_hex buf off n = 0) /\
  ((1 <= n <= 7)%nat ->
   - 16 ^ Z.of_nat (n - 1) < val_from_hex buf off n < 16 ^ Z.of_nat n) /\
  -15 <= val_from_hex buf off 2 <= 255 /\
  -4095 <= val_from_hex buf off 4 <= 65535.
Proof.
  split; [| split; [| split]].
  - intros Hn. unfold val_from_hex. rewrite decide_True by exact Hn. reflexivity.
  - apply val_from_hex_bounds.
  - apply val_from_hex_2_bounds.
  - apply val_from_hex_4_bounds.
Qed.

Lemma val_from_hex_field_bounds_witness :
  (1 <= 2 <= 7)%nat /\
  - 16 ^ Z.of_nat (2 - 1) < val_from_hex (cstr "-F") 0 2 < 16 ^ Z.of_nat 2 /\
  val_from_hex (cstr "-F") 0 2 = -15 /\
  val_from_hex (cstr "FF") 0 2 = 255 /\
  val_from_hex (cstr "-FFF") 0 4 = -4095.
Proof.
  split; [lia |].
  split; [apply (val_from_hex_field_bounds (cstr "-F") 0 2); lia |].
  repeat split; reflexivity.
Defined.

(** X2: decoding reads back what upper-case hexadecimal formatting
    writes.  The n digits of v, 1 <= n <= 7 and 0 <= v < 16^n, placed
    anywhere in a buffer decode to v; so do the four characters that
    "%04X" prints for a 16-bit value. *)
Theorem val_from_hex_of_hex_digits (pre post : list Z) (n : nat) (v : Z) :
  (1 <= n <= 7)%nat -> 0 <= v < 16 ^ Z.of_nat n ->
  val_from_hex (pre ++ hex_digits n v ++ post) (length pre) n = v /\
  (n = 4%nat ->
   val_from_hex (pre ++ fmt_04X v ++ post) (length pre) 4 = v).
Proof.
  intros Hn Hv. split.
  - apply val_from_hex_hex_digits; assumption.
  - intros ->. rewrite fmt_04X_small by (change (16 ^ Z.of_nat 4) with 65536 in Hv; lia).
    apply val_from_hex_hex_digits; assumption.
Qed.

Lemma val_from_hex_of_hex_digits_witness :
  hex_digits 4 0xfda3 = cstr "FDA3" /\
  val_from_hex (cstr "~21012A420000" ++ hex_digits 4 0xfda3 ++ [13]) 13 4 = 0xfda3.
Proof.
  split; [reflexivity |].
  apply (proj1 (val_from_hex_of_hex_digits (cstr "~21012A420000") [13] 4 0xfda3
                  ltac:(lia) ltac:(change (16 ^ Z.of_nat 4) with 65536; lia))).
Defined.

(** X3: a field whose first character is neither a hexadecimal digit,
    white space nor a sign decodes to 0.  A reply that is long enough and
    whose return-code field starts with such a character is therefore
    accepted like one with return code 00. *)
Theorem val_from_hex_without_digits (buf : list Z) (off n : nat) (c : Z)
    (ret minlen : Z) :
  buf !! off = Some c ->
  xdigit_val c = None -> isspace c = false -> c <> 43 -> c <> 45 ->
  val_from_hex buf off n = 0 /\
  (off = 7%nat -> 0 <= ret -> minlen <= ret ->
   validate_ret buf ret minlen = (0, [])).
Proof.
  intros Hc Hx Hsp H43 H45. split.
  - exact (val_from_hex_no_digit buf off n c Hc Hx Hsp H43 H45).
  - intros -> H0 Hmin. apply validate_ret_accepted.
    apply validate_ret_accepts_iff. repeat split; try assumption.
    exact (val_from_hex_no_digit buf 7 2 c Hc Hx Hsp H43 H45).
Qed.

Lemma val_from_hex_without_digits_witness :
  validate_ret (cstr "~21012A??0000FD8C" ++ [13]) 18 13 = (0, []).
Proof.
  apply (proj2 (val_from_hex_without_digits (cstr "~21012A??0000FD8C" ++ [13])
                  7 2 63 18 13 eq_refl eq_refl eq_refl
                  ltac:(discriminate) ltac:(discriminate)));
    [reflexivity | lia | lia].
Defined.

(** ** The frame as a whole *)

(** A read of [n + m] cells is a read of [n] followed by one of [m]. *)
Lemma mem_read_add (l : list Z) (a n m : nat) :
  mem_read l a (n + m) = mem_read l a n ++ mem_read l (a + n) m.
Proof.
  unfold mem_read. rewrite <- drop_drop.
  rewrite <- (take_drop n (drop a l)) at 1.
  destruct (decide (n <= length (drop a l))%nat) as [Hle | Hgt].
  - rewrite take_app_add' by (rewrite length_take; lia). reflexivity.
  - rewrite (drop_ge (drop a l) n) by lia.
    rewrite !app_nil_r, take_nil, app_nil_r.
    rewrite !take_ge by (rewrite ?length_take; lia). reflexivity.
Qed.

(** A store leaves the cells behind it alone. *)
Lemma mem_write_drop (buf : list Z) (off : nat) (src b' : list Z) (k : nat) :
  mem_write buf off src = Some b' -> (off + length src <= k)%nat ->
  drop k b' = drop k buf.
Proof.
  intros H Hk. apply list_eq. intros i. rewrite !lookup_drop.
  rewrite (mem_write_lookup _ _ _ _ _ H).
  destruct (decide (off <= k + i < off + length src)%nat); [lia | reflexivity].
Qed.

(** The frame, field after field. *)
Lemma frame_make_bytes (plat : platform) (buf : list Z) (cmdi : gxe_cmd)
    (ver adr dptr : list Z) (dlen : nat) (frame : list Z) (n : nat) :
  frame_make plat buf cmdi ver adr dptr dlen = Some (frame, n) ->
  let body :=
    take 2 ver ++ take 2 adr ++ gxe_cmds cmdi
    ++ take 4 (proto_lchecksum plat (CInt.uint16 (Z.of_nat dlen)))
    ++ take dlen dptr in
  mem_read frame 1 (dlen + 12) = body /\
  take (dlen + 18) frame
  = [0x7e] ++ body ++ take 4 (proto_checksum plat body) ++ [0x0d].
Proof.
  intros H body.
  destruct (frame_make_layout _ _ _ _ _ _ _ _ _ H)
    as (Hsoi & Hver & Hadr & Hcid & Hlen & Hinfo & Heoi).
  destruct (frame_make_checksum_field _ _ _ _ _ _ _ _ _ H) as [_ Hchk].
  assert (Hbody : mem_read frame 1 (dlen + 12) = body).
  { replace (dlen + 12)%nat with (2 + (2 + (4 + (4 + dlen))))%nat by lia.
    rewrite !mem_read_add. cbn [Nat.add].
    rewrite Hver, Hadr, Hcid, Hlen, Hinfo. reflexivity. }
  split; [exact Hbody |].
  change (take (dlen + 18) frame) with (mem_read frame 0 (dlen + 18)).
  replace (dlen + 18)%nat with (1 + ((dlen + 12) + (4 + 1)))%nat by lia.
  rewrite (mem_read_add frame 0 1 (dlen + 12 + (4 + 1))).
  rewrite (mem_read_add frame (0 + 1) (dlen + 12) (4 + 1)).
  rewrite (mem_read_add frame (0 + 1 + (dlen + 12)) 4 1).
  replace (0 + 1 + (dlen + 12))%nat with (13 + dlen)%nat by lia.
  replace (13 + dlen + 4)%nat with (17 + dlen)%nat by lia.
  change (0 + 1)%nat with 1%nat.
  rewrite Hsoi, Hbody, Hchk, Hbody, Heoi. reflexivity.
Qed.

(** [frame_make] needs [dlen + 18] cells and leaves the others alone. *)
Lemma frame_make_tail (plat : platform) (buf : list Z) (cmdi : gxe_cmd)
    (ver adr dptr : list Z) (dlen : nat) (frame : list Z) (n : nat) :
  frame_make plat buf cmdi ver adr dptr dlen = Some (frame, n) ->
  (dlen + 18 <= length buf)%nat /\
  drop (dlen + 18) frame = drop (dlen + 18) buf.
Proof.
  unfold frame_make. intros H.
  apply bind_Some in H as (b1 & W1 & H).
  apply bind_Some in H as (v & R1 & H).
  apply bind_Some in H as (b2 & W2 & H).
  apply bind_Some in H as (a & R2 & H).
  apply bind_Some in H as (b3 & W3 & H).
  apply bind_Some in H as (b4 & W4 & H).
  apply bind_Some in H as (b5 & W5 & H).
  apply bind_Some in H as (d & R3 & H).
  apply bind_Some in H as (b6 & W6 & H).
  apply bind_Some in H as (b7 & W7 & H).
  apply bind_Some in H as (b8 & W8 & H).
  injection H as <- <-.
  apply src_read_Some in R1 as [-> Lv], R2 as [-> La], R3 as [-> Ld].
  pose proof (gxe_cmds_length cmdi) as Lc.
  pose proof (proto_lchecksum_length plat (CInt.uint16 (Z.of_nat dlen))) as Ll.
  pose proof (proto_checksum_length plat (mem_read b6 1 (dlen + 12))) as Lk.
  split.
  - pose proof (mem_write_length _ _ _ _ W1). pose proof (mem_write_length _ _ _ _ W2).
    pose proof (mem_write_length _ _ _ _ W3). pose proof (mem_write_length _ _ _ _ W4).
    pose proof (mem_write_length _ _ _ _ W5). pose proof (mem_write_length _ _ _ _ W6).
    pose proof (mem_write_length _ _ _ _ W7).
    unfold mem_write in W8. cbn [length] in W8.
    destruct (decide (17 + dlen + 1 <= length b7)%nat); [lia | discriminate].
  - rewrite (mem_write_drop _ _ _ _ _ W8) by (cbn [length]; lia).
    rewrite (mem_write_drop _ _ _ _ _ W7) by lia.
    rewrite (mem_write_drop _ _ _ _ _ W6) by lia.
    rewrite (mem_write_drop _ _ _ _ _ W5) by lia.
    rewrite (mem_write_drop _ _ _ _ _ W4) by lia.
    rewrite (mem_write_drop _ _ _ _ _ W3) by lia.
    rewrite (mem_write_drop _ _ _ _ _ W2) by lia.
    apply (mem_write_drop _ _ _ _ _ W1). cbn [length]. lia.
Qed.

Lemma frame_make_short_buffer (plat : platform) (buf : list Z) (cmdi : gxe_cmd)
    (ver adr dptr : list Z) (dlen : nat) :
  (length buf < dlen + 18)%nat ->
  frame_make plat buf cmdi ver adr dptr dlen = None.
Proof.
  intros Hbuf.
  destruct (frame_make plat buf cmdi ver adr dptr dlen) as [[frame n] |] eqn:Hmk;
    [| reflexivity].
  destruct (frame_make_tail _ _ _ _ _ _ _ _ _ Hmk) as [Hlen _]. lia.
Qed.

Lemma byte_sum_app (l1 l2 : list Z) : byte_sum (l1 ++ l2) = byte_sum l1 + byte_sum l2.
Proof.
  unfold byte_sum. induction l1 as [| a l1 IH]; cbn [app fold_right]; lia.
Qed.

Lemma byte_sum_bounds (lo hi : Z) (l : list Z) :
  Forall (fun b => lo <= b <= hi) l ->
  lo * Z.of_nat (length l) <= byte_sum l <= hi * Z.of_nat (length l).
Proof.
  induction 1 as [| b l Hb _ IH]; [cbn; lia |].
  cbn [byte_sum fold_right length]. unfold byte_sum in IH.
  rewrite Nat2Z.inj_succ. lia.
Qed.

Lemma char_value_ascii (plat : platform) (b : Z) : is_ascii b -> char_value plat b = b.
Proof.
  unfold is_ascii, char_value, CInt.wrap_signed, CInt.wrap_unsigned. intros Hb.
  change (2 ^ 8) with 256. change (2 ^ (8 - 1)) with 128.
  rewrite Z.mod_small by lia.
  destruct (CHAR_SIGNED plat); [| reflexivity].
  destruct (Z.ltb_spec b 128); lia.
Qed.

Lemma map_char_value_ascii (plat : platform) (l : list Z) :
  Forall is_ascii l -> map (char_value plat) l = l.
Proof.
  induction 1 as [| b l Hb _ IH]; [reflexivity |].
  cbn [map]. rewrite IH, char_value_ascii by assumption. reflexivity.
Qed.

Lemma gxe_cmds_ascii (c : gxe_cmd) : Forall (fun b => 48 <= b <= 70) (gxe_cmds c).
Proof.
  destruct c; vm_compute gxe_cmds;
    repeat (apply List.Forall_cons; [lia |]); apply List.Forall_nil.
Qed.

Lemma fmt_04X_take4 (v : Z) :
  take 4 (take 5 (fmt_04X v ++ [0])) = take 4 (fmt_04X v) /\
  length (take 4 (fmt_04X v)) = 4%nat /\
  Forall (fun b => 48 <= b <= 70) (take 4 (fmt_04X v)).
Proof.
  assert (4 <= length (fmt_04X v))%nat
    by (unfold fmt_04X; rewrite hex_digits_length; lia).
  repeat split.
  - rewrite take_take. change (4 `min` 5)%nat with 4%nat.
    apply take_app_le. lia.
  - rewrite length_take. lia.
  - apply Forall_take. unfold fmt_04X. apply hex_digits_spec.
Qed.

Lemma Forall_weaken_ascii (l : list Z) :
  Forall (fun b => 48 <= b <= 70) l -> Forall is_ascii l.
Proof.
  intros H. eapply Forall_impl; [exact H |]. unfold is_ascii. intros; cbn in *; lia.
Qed.

(** The checksummed bytes of a frame of seven-bit characters are read
    as they are, and their sum is bounded by their number. *)
Lemma frame_make_ascii_sum (plat : platform) (cmdi : gxe_cmd)
    (ver adr dptr : list Z) (dlen : nat) :
  Forall is_ascii (take 2 ver) -> Forall is_ascii (take 2 adr) ->
  Forall is_ascii (take dlen dptr) ->
  let body :=
    take 2 ver ++ take 2 adr ++ gxe_cmds cmdi
    ++ take 4 (proto_lchecksum plat (CInt.uint16 (Z.of_nat dlen)))
    ++ take dlen dptr in
  map (char_value plat) body = body /\
  384 <= byte_sum body <= 127 * (12 + Z.of_nat dlen).
Proof.
  intros Hver Hadr Hd body.
  unfold proto_lchecksum in body.
  destruct (fmt_04X_take4 (proto_lchecksum_word plat (CInt.uint16 (Z.of_nat dlen))))
    as (El & Ll & Fl).
  assert (Fc := gxe_cmds_ascii cmdi). assert (Lc := gxe_cmds_length cmdi).
  split.
  - apply map_char_value_ascii. unfold body. rewrite El.
    repeat apply Forall_app_2; auto using Forall_weaken_ascii.
  - unfold body. rewrite El, !byte_sum_app.
    pose proof (byte_sum_bounds 0 127 _ Hver) as B1.
    pose proof (byte_sum_bounds 0 127 _ Hadr) as B2.
    pose proof (byte_sum_bounds 48 70 _ Fc) as B3.
    pose proof (byte_sum_bounds 48 70 _ Fl) as B4.
    pose proof (byte_sum_bounds 0 127 _ Hd) as B5.
    rewrite Lc in B3. rewrite Ll in B4.
    pose proof (length_take_le ver 2) as L1.
    assert (length (take 2 ver) <= 2)%nat by (rewrite length_take; lia).
    assert (length (take 2 adr) <= 2)%nat by (rewrite length_take; lia).
    assert (length (take dlen dptr) <= dlen)%nat by (rewrite length_take; lia).
    nia.
Qed.

(** X4: with two characters of version and address and dlen bytes of
    payload at hand, frame_make stays inside a buffer of at least dlen+18
    bytes and leaves there SOI, the two version and the two address
    characters, the four characters of the command, the four of the
    LENGTH field, the payload, the first four characters of the checksum
    text of all these and EOI, the rest of the buffer being untouched; in
    a shorter buffer it writes past the end. *)
Theorem frame_make_frame (plat : platform) (buf : list Z) (cmdi : gxe_cmd)
    (ver adr dptr : list Z) (dlen : nat) :
  (2 <= length ver)%nat -> (2 <= length adr)%nat -> (dlen <= length dptr)%nat ->
  let body :=
    take 2 ver ++ take 2 adr ++ gxe_cmds cmdi
    ++ take 4 (proto_lchecksum plat (CInt.uint16 (Z.of_nat dlen)))
    ++ take dlen dptr in
  ((dlen + 18 <= length buf)%nat ->
   frame_make plat buf cmdi ver adr dptr dlen
   = Some ([0x7e] ++ body ++ take 4 (proto_checksum plat body) ++ [0x0d]
           ++ drop (dlen + 18) buf, (dlen + 18)%nat)) /\
  ((length buf < dlen + 18)%nat ->
   frame_make plat buf cmdi ver adr dptr dlen = None).
Proof.
  intros Hver Hadr Hd body. split.
  - intros Hbuf.
    destruct (frame_make_defined plat buf cmdi ver adr dptr dlen Hbuf Hver Hadr Hd)
      as [frame Hmk].
    rewrite Hmk. f_equal. f_equal.
    destruct (frame_make_bytes _ _ _ _ _ _ _ _ _ Hmk) as [_ Hb].
    destruct (frame_make_tail _ _ _ _ _ _ _ _ _ Hmk) as [_ Ht].
    rewrite <- (take_drop (dlen + 18) frame), Hb, Ht.
    fold body. rewrite <- !app_assoc. reflexivity.
  - apply frame_make_short_buffer.
Qed.

Lemma frame_make_frame_witness :
  frame_make le_host (local_buf 32) GXE_GET_ANALOG_DATA (cstrz "21") (cstrz "01") [] 0
  = Some (cstr "~21012A420000FDA3" ++ [13] ++ replicate 14 0, 18%nat) /\
  frame_make le_host (local_buf 17) GXE_GET_ANALOG_DATA (cstrz "21") (cstrz "01") [] 0
  = None.
Proof.
  split.
  - rewrite (proj1 (frame_make_frame le_host (local_buf 32) GXE_GET_ANALOG_DATA
                      (cstrz "21") (cstrz "01") [] 0
                      ltac:(cbn; lia) ltac:(cbn; lia) ltac:(cbn; lia)))
      by (cbn; lia).
    reflexivity.
  - apply (frame_make_frame le_host (local_buf 17) GXE_GET_ANALOG_DATA
             (cstrz "21") (cstrz "01") [] 0); cbn; lia.
Defined.

(** X5: when the version, the address and the payload are seven-bit
    characters and the payload has at most 500 bytes, the byte sum from
    VER to the end of INFO lies strictly between 0 and 65536 and the
    checksum field of the frame decodes to its 16-bit two's complement:
    sum and decoded checksum add up to 0 modulo 65536, whatever the
    signedness of char. *)
Theorem frame_make_checksum_ascii (plat : platform) (buf : list Z)
    (cmdi : gxe_cmd) (ver adr dptr : list Z) (dlen : nat) (frame : list Z) (n : nat) :
  frame_make plat buf cmdi ver adr dptr dlen = Some (frame, n) ->
  Forall is_ascii (take 2 ver) -> Forall is_ascii (take 2 adr) ->
  Forall is_ascii (take dlen dptr) -> (dlen <= 500)%nat ->
  checksummed plat frame dlen = mem_read frame 1 (dlen + 12) /\
  0 < byte_sum (mem_read frame 1 (dlen + 12)) < 65536 /\
  decoded_checksum frame dlen = 65536 - byte_sum (mem_read frame 1 (dlen + 12)) /\
  (byte_sum (mem_read frame 1 (dlen + 12)) + decoded_checksum frame dlen)
    mod 65536 = 0.
Proof.
  intros Hmk Hver Hadr Hd Hlen.
  destruct (frame_make_bytes _ _ _ _ _ _ _ _ _ Hmk) as [Hb _].
  destruct (frame_make_ascii_sum plat cmdi ver adr dptr dlen Hver Hadr Hd)
    as [Hcv Hsum].
  cbv zeta in Hb, Hcv, Hsum. rewrite <- Hb in Hcv, Hsum.
  assert (Hc : checksummed plat frame dlen = mem_read frame 1 (dlen + 12))
    by exact Hcv.
  destruct (frame_make_checksum_consistent _ _ _ _ _ _ _ _ _ Hmk) as [H1 H2].
  { rewrite Hc, Z.mod_small by lia. lia. }
  rewrite Hc in H1, H2. rewrite Z.mod_small in H1 by lia.
  repeat split; try assumption; lia.
Qed.

Lemma frame_make_checksum_ascii_witness :
  exists frame,
    frame_make le_host (local_buf 32) GXE_REMOTE_COMMAND (cstrz "21") (cstrz "01")
      (cstrz "2001") 4 = Some (frame, 22%nat) /\
    take 22 frame = cstr "~21012A45C0042001FCC6" ++ [13] /\
    Forall is_ascii (take 2 (cstrz "21")) /\ Forall is_ascii (take 2 (cstrz "01")) /\
    Forall is_ascii (take 4 (cstrz "2001")) /\
    byte_sum (mem_read frame 1 16) = 0x33a /\
    decoded_checksum frame 4 = 0xfcc6 /\
    (byte_sum (mem_read frame 1 16) + decoded_checksum frame 4) mod 65536 = 0.
Proof.
  assert (A1 : Forall is_ascii (take 2 (cstrz "21")))
    by (change (take 2 (cstrz "21")) with [50; 49];
        repeat (apply List.Forall_cons; [unfold is_ascii; lia |]);
        apply List.Forall_nil).
  assert (A2 : Forall is_ascii (take 2 (cstrz "01")))
    by (change (take 2 (cstrz "01")) with [48; 49];
        repeat (apply List.Forall_cons; [unfold is_ascii; lia |]);
        apply List.Forall_nil).
  assert (A3 : Forall is_ascii (take 4 (cstrz "2001")))
    by (change (take 4 (cstrz "2001")) with [50; 48; 48; 49];
        repeat (apply List.Forall_cons; [unfold is_ascii; lia |]);
        apply List.Forall_nil).
  eexists. split; [vm_compute; reflexivity |].
  split; [reflexivity |].
  split; [exact A1 |]. split; [exact A2 |]. split; [exact A3 |].
  split; [reflexivity |]. split; [reflexivity |].
  apply (frame_make_checksum_ascii le_host (local_buf 32) GXE_REMOTE_COMMAND
           (cstrz "21") (cstrz "01") (cstrz "2001") 4 _ _ eq_refl A1 A2 A3).
  lia.
Defined.

(** ** The text of the length field *)

(** The 16-bit word printed on a little-endian host. *)
Lemma proto_lchecksum_word_4096 (plat : platform) (dlen : Z) :
  WORDS_BIGENDIAN plat = false -> 0 <= dlen < 4096 ->
  proto_lchecksum_word plat dlen = dlen + 4096 * ((16 - dlen mod 16) mod 16).
Proof.
  intros Hle Hd. rewrite (proto_lchecksum_word_le plat dlen Hle).
  range_fact (fun d => proto_lchecksum_word le_host d
                       =? d + 4096 * ((16 - d mod 16) mod 16)) 4096 dlen H.
  apply Z.eqb_eq in H. exact H.
Qed.

Lemma hex_digits_3_low (d c : Z) :
  hex_digits 3 (d + 4096 * c) = hex_digits 3 d.
Proof.
  unfold hex_digits. cbn [seq rev app map].
  change (16 ^ Z.of_nat 2) with 256. change (16 ^ Z.of_nat 1) with 16.
  change (16 ^ Z.of_nat 0) with 1.
  replace (d + 4096 * c) with (d + (16 * c) * 256) at 1 by lia.
  replace (d + 4096 * c) with (d + (256 * c) * 16) at 1 by lia.
  replace (d + 4096 * c) with (d + (4096 * c) * 1) by lia.
  rewrite !Z.div_add by lia.
  replace (d / 256 + 16 * c) with (d / 256 + c * 16) by lia.
  replace (d / 16 + 256 * c) with (d / 16 + (16 * c) * 16) by lia.
  replace (d / 1 + 4096 * c) with (d / 1 + (256 * c) * 16) by lia.
  rewrite !Z.mod_add by lia. reflexivity.
Qed.

Lemma proto_lchecksum_text_le (plat : platform) (dlen : Z) :
  WORDS_BIGENDIAN plat = false -> 0 <= dlen < 4096 ->
  proto_lchecksum plat dlen
  = [hex_digit ((16 - dlen mod 16) mod 16)] ++ hex_digits 3 dlen ++ [0] /\
  val_from_hex (proto_lchecksum plat dlen) 1 3 = dlen.
Proof.
  intros Hle Hd.
  assert (Hc : 0 <= (16 - dlen mod 16) mod 16 < 16) by (apply Z.mod_pos_bound; lia).
  assert (Htext : proto_lchecksum plat dlen
                  = [hex_digit ((16 - dlen mod 16) mod 16)] ++ hex_digits 3 dlen ++ [0]).
  { unfold proto_lchecksum.
    rewrite (proto_lchecksum_word_4096 plat dlen Hle Hd).
    rewrite fmt_04X_small by lia.
    rewrite hex_digits_S, hex_digits_3_low.
    change (16 ^ Z.of_nat 3) with 4096.
    replace ((dlen + 4096 * ((16 - dlen mod 16) mod 16)) / 4096)
      with ((16 - dlen mod 16) mod 16)
      by (rewrite Z.mul_comm, Z.div_add, Z.div_small by lia; lia).
    rewrite Z.mod_mod by lia.
    apply take_ge. cbn [length app]. rewrite length_app, hex_digits_length.
    cbn [length]. lia. }
  split; [exact Htext |].
  rewrite Htext.
  apply (val_from_hex_hex_digits [hex_digit ((16 - dlen mod 16) mod 16)] [0] 3 dlen).
  - lia.
  - change (16 ^ Z.of_nat 3) with 4096. lia.
Qed.

(** With the bytes swapped, every masked term of the sum is a multiple
    of 256 and the checksum byte is 0. *)
Lemma proto_lchecksum_word_be (plat : platform) (dlen : Z) :
  WORDS_BIGENDIAN plat = true -> 0 <= dlen < 256 ->
  proto_lchecksum_word plat dlen = 256 * dlen.
Proof.
  intros Hbe Hd.
  assert (E : proto_lchecksum_word plat dlen
              = proto_lchecksum_word
                  {| CHAR_SIGNED := true; WORDS_BIGENDIAN := true |} dlen)
    by (unfold proto_lchecksum_word, htole16; rewrite Hbe; reflexivity).
  rewrite E.
  range_fact (fun d => proto_lchecksum_word
                         {| CHAR_SIGNED := true; WORDS_BIGENDIAN := true |} d
                       =? 256 * d) 256 dlen H.
  apply Z.eqb_eq in H. exact H.
Qed.

Lemma hex_digits_4_shifted (d : Z) :
  hex_digits 4 (256 * d) = hex_digits 2 d ++ [48; 48].
Proof.
  unfold hex_digits. cbn [seq rev app map].
  change (16 ^ Z.of_nat 3) with (16 * 256). change (16 ^ Z.of_nat 2) with 256.
  change (16 ^ Z.of_nat 1) with 16. change (16 ^ Z.of_nat 0) with 1.
  rewrite (Z.mul_comm 256 d).
  rewrite (Z.div_mul_cancel_r d 16 256) by lia.
  rewrite (Z.div_mul d 256) by lia.
  replace (d * 256 / 16) with (d * 16) by (replace (d * 256) with (d * 16 * 16) by lia;
                                            rewrite Z.div_mul by lia; reflexivity).
  rewrite !Z.div_1_r.
  replace (d * 256) with (d * 16 * 16) by lia.
  rewrite !Z.mod_mul by lia. reflexivity.
Qed.

(** X6: on a little-endian host and for a length below 4096 the LENGTH
    field is one checksum digit followed by the three hexadecimal digits
    of the length, and a NUL; the checksum digit is the negation modulo
    16 of the lowest length digit alone.  The length reads back from the
    last three characters, and for lengths below 16 (those of every
    request of this driver) the digit is the one the protocol asks for. *)
Theorem proto_lchecksum_text (plat : platform) (dlen : Z) :
  WORDS_BIGENDIAN plat = false -> 0 <= dlen < 4096 ->
  proto_lchecksum plat dlen
  = [hex_digit ((16 - dlen mod 16) mod 16)] ++ hex_digits 3 dlen ++ [0] /\
  val_from_hex (proto_lchecksum plat dlen) 1 3 = dlen /\
  (dlen < 16 -> (16 - dlen mod 16) mod 16 = lchecksum_spec dlen).
Proof.
  intros Hle Hd.
  destruct (proto_lchecksum_text_le plat dlen Hle Hd) as [Htext Hback].
  split; [exact Htext |]. split; [exact Hback |].
  intros H16.
  range_fact (fun d => (16 - d mod 16) mod 16 =? lchecksum_spec d) 16 dlen H.
  apply Z.eqb_eq in H. exact H.
Qed.

Lemma proto_lchecksum_text_witness :
  proto_lchecksum le_host 4 = cstrz "C004" /\
  val_from_hex (proto_lchecksum le_host 4) 1 3 = 4 /\
  proto_lchecksum le_host 0x56 = cstrz "A056".
Proof.
  destruct (proto_lchecksum_text le_host 4 eq_refl ltac:(lia)) as (H1 & H2 & _).
  destruct (proto_lchecksum_text le_host 0x56 eq_refl ltac:(lia)) as (H3 & _).
  split; [exact H1 |]. split; [exact H2 | exact H3].
Defined.

(** X7: on a big-endian host, where htole16 swaps the two bytes of the
    length before it is printed, the LENGTH field of a length below 256
    is the two hexadecimal digits of the length followed by 00, without a
    checksum digit: it reads back as 256 times the length, and is the
    field of a little-endian host for the empty payload only. *)
Theorem proto_lchecksum_big_endian (plat : platform) (dlen : Z) :
  WORDS_BIGENDIAN plat = true -> 0 <= dlen < 256 ->
  proto_lchecksum plat dlen = hex_digits 2 dlen ++ cstr "00" ++ [0] /\
  decoded_length_word plat dlen = 256 * dlen /\
  (proto_lchecksum plat dlen = proto_lchecksum le_host dlen <-> dlen = 0).
Proof.
  intros Hbe Hd.
  assert (Htext : proto_lchecksum plat dlen = hex_digits 2 dlen ++ cstr "00" ++ [0]).
  { unfold proto_lchecksum. rewrite (proto_lchecksum_word_be plat dlen Hbe Hd).
    rewrite fmt_04X_small by lia. rewrite hex_digits_4_shifted.
    rewrite <- app_assoc. change (cstr "00") with [48; 48]. apply take_ge.
    rewrite !length_app, hex_digits_length. cbn [length]. lia. }
  split; [exact Htext |]. split.
  - unfold decoded_length_word, proto_lchecksum.
    rewrite (proto_lchecksum_word_be plat dlen Hbe Hd).
    change (val_from_hex (take 5 (fmt_04X (256 * dlen) ++ [0])) 0 4)
      with (val_from_hex ([] ++ take 5 (fmt_04X (256 * dlen) ++ [0])) (length (@nil Z)) 4).
    rewrite fmt_04X_small by lia.
    replace (take 5 (hex_digits 4 (256 * dlen) ++ [0]))
      with (hex_digits 4 (256 * dlen) ++ [0])
      by (symmetry; apply take_ge; rewrite length_app, hex_digits_length;
          cbn [length]; lia).
    apply val_from_hex_hex_digits; [lia |].
    change (16 ^ Z.of_nat 4) with 65536. lia.
  - rewrite Htext.
    destruct (proto_lchecksum_text_le le_host dlen eq_refl ltac:(lia)) as [Hle _].
    rewrite Hle. split.
    + intros H.
      assert (H3 : (hex_digits 2 dlen ++ cstr "00" ++ [0]) !! 3%nat
                   = ([hex_digit ((16 - dlen mod 16) mod 16)]
                      ++ hex_digits 3 dlen ++ [0]) !! 3%nat) by (rewrite H; reflexivity).
      unfold hex_digits in H3. cbn in H3.
      change (16 ^ 0) with 1 in H3. rewrite Z.div_1_r in H3.
      change (byte_of_ascii "0") with 48 in H3.
      assert (Hm : 0 <= dlen mod 16 < 16) by (apply Z.mod_pos_bound; lia).
      assert (H2 : (hex_digits 2 dlen ++ cstr "00" ++ [0]) !! 2%nat
                   = ([hex_digit ((16 - dlen mod 16) mod 16)]
                      ++ hex_digits 3 dlen ++ [0]) !! 2%nat) by (rewrite H; reflexivity).
      unfold hex_digits in H2. cbn in H2.
      change (byte_of_ascii "0") with 48 in H2.
      change (16 ^ Z.of_nat 1) with 16 in H2.
      assert (Hq : 0 <= (dlen / 16) mod 16 < 16) by (apply Z.mod_pos_bound; lia).
      assert (E0 : dlen mod 16 = 0).
      { injection H3 as H3. unfold hex_digit in H3.
        destruct (Z.ltb_spec (dlen mod 16) 10); lia. }
      assert (E1 : (dlen / 16) mod 16 = 0).
      { injection H2 as H2. unfold hex_digit in H2.
        destruct (Z.ltb_spec ((dlen / 16) mod 16) 10); lia. }
      assert (dlen / 16 < 16) by (apply Z.div_lt_upper_bound; lia).
      assert (0 <= dlen / 16) by (apply Z.div_pos; lia).
      rewrite Z.mod_small in E1 by lia.
      pose proof (Z.div_mod dlen 16 ltac:(lia)). lia.
    + intros ->. reflexivity.
Qed.

Lemma proto_lchecksum_big_endian_witness :
  proto_lchecksum {| CHAR_SIGNED := true; WORDS_BIGENDIAN := true |} 4 = cstrz "0400" /\
  proto_lchecksum le_host 4 = cstrz "C004".
Proof.
  split; [| reflexivity].
  apply (proto_lchecksum_big_endian {| CHAR_SIGNED := true; WORDS_BIGENDIAN := true |}
           4 eq_refl ltac:(lia)).
Defined.

(** ** Capacity of substr_from_hex *)

(** X8: substr_from_hex into an array of len cells, len >= 1.  Let text
    be the decoded pairs of the input up to the first space.  When text
    has fewer than len bytes the array receives text and a NUL and keeps
    its other cells; when text has len bytes or more, the function writes
    past the end of the array.  The text never has more bytes than the
    input has pairs, so that an input of at most 2*(len-1) characters is
    always safe. *)
Theorem substr_from_hex_capacity (substr dbuf : list Z) (len dlen : nat) :
  (1 <= len)%nat -> Z.of_nat len <= CInt.SIZE_MAX -> length substr = len ->
  let text := until_space (hex_pairs dbuf dlen) in
  ((length text < len)%nat ->
   substr_from_hex substr len dbuf dlen
   = Some (map CInt.uint8 text ++ [0] ++ drop (length text + 1) substr)) /\
  ((len <= length text)%nat -> substr_from_hex substr len dbuf dlen = None) /\
  (length text <= Nat.div2 (dlen + 1))%nat.
Proof.
  intros Hlen Hmax Hsub text. split; [| split].
  - intros Hfit.
    rewrite (substr_from_hex_fits substr len dbuf dlen Hmax Hfit) by lia.
    unfold string_from_hex_spec. fold text.
    rewrite take_ge by lia. rewrite <- app_assoc. reflexivity.
  - intros Hover. apply substr_from_hex_overflow; assumption.
  - unfold text, hex_pairs, hex_pairs_from.
    set (l := map _ _).
    assert (Hl : length l = Nat.div2 (dlen + 1))
      by (unfold l; rewrite length_map, length_seq; reflexivity).
    rewrite <- Hl. clear. induction l as [| v l IH]; cbn [until_space length]; [lia |].
    destruct (v =? 32); cbn [length]; lia.
Qed.

Lemma substr_from_hex_capacity_witness :
  substr_from_hex (replicate 8 7) 8 (cstr "47584520") 8
  = Some (cstr "GXE" ++ [0; 7; 7; 7; 7]) /\
  substr_from_hex (replicate 3 7) 3 (cstr "47584520") 8 = None.
Proof.
  destruct (substr_from_hex_capacity (replicate 8 7) (cstr "47584520") 8 8
              ltac:(lia) ltac:(vm_compute; discriminate) eq_refl) as (H1 & _ & _).
  destruct (substr_from_hex_capacity (replicate 3 7) (cstr "47584520") 3 8
              ltac:(lia) ltac:(vm_compute; discriminate) eq_refl) as (_ & H2 & _).
  split.
  - rewrite H1 by (vm_compute; lia). reflexivity.
  - apply H2. vm_compute. lia.
Defined.

(** ** Outcomes of the transport adapter *)

(** A receive returns at most the capacity and keeps the size of the
    buffer. *)
Lemma ser_get_buf_result (buf : list Z) (buflen : nat) (s : serial) :
  let '(ret, buf', s') := Serial.ser_get_buf buf buflen s in
  ret <= Z.of_nat (Nat.min buflen (length buf)) /\
  length buf' = length buf /\
  ser_send_rets s' = ser_send_rets s.
Proof.
  unfold Serial.ser_get_buf.
  destruct (ser_replies s) as [| [r | data] rest]; cbn [ser_send_rets].
  - repeat split; try reflexivity; lia.
  - repeat split; try reflexivity; lia.
  - set (d := take (Nat.min buflen (length buf)) data).
    assert (Hd : (length d <= Nat.min buflen (length buf))%nat)
      by (unfold d; rewrite length_take; lia).
    repeat split.
    + lia.
    + rewrite length_app, length_drop. lia.
Qed.

(** X9: frame_send_and_recv builds its frame in a 32-byte array, so it
    is defined for payloads of at most 14 bytes and writes past the array
    for longer ones.  When defined it changes nothing but the line, hands
    it exactly one frame of dlen+18 bytes, and returns a count that does
    not exceed the capacity given, and the receive buffer keeps its
    length.  When the send fails it returns before the receive: the
    result of the send is returned, no reply is consumed and the buffer
    is untouched. *)
Theorem frame_send_and_recv_outcomes (plat : platform) (buf : list Z)
    (buflen : nat) (cmdi : gxe_cmd) (ver adr dptr : list Z) (dlen : nat)
    (st : driver) :
  (2 <= length ver)%nat -> (2 <= length adr)%nat -> (dlen <= length dptr)%nat ->
  ((14 < dlen)%nat ->
   frame_send_and_recv plat buf buflen cmdi ver adr dptr dlen st = None) /\
  ((dlen <= 14)%nat ->
   exists ret buf' st1 frame,
     frame_send_and_recv plat buf buflen cmdi ver adr dptr dlen st
     = Some ((ret, buf'), st1) /\
     poll_state st1 = poll_state st /\ devaddr st1 = devaddr st /\
     ds st1 = ds st /\ syslog st1 = syslog st /\
     ser_sent (ser st1) = ser_sent (ser st) ++ [frame] /\
     length frame = (dlen + 18)%nat /\
     ret <= Z.of_nat (Nat.min buflen (length buf)) /\
     length buf' = length buf /\
     (next_send (ser st) <= 0 ->
      ret = next_send (ser st) /\ buf' = buf /\
      ser_replies (ser st1) = ser_replies (ser st))).
Proof.
  intros Hver Hadr Hd. split.
  - intros Hlong. unfold frame_send_and_recv.
    rewrite frame_make_short_buffer
      by (unfold local_buf; rewrite length_replicate; lia).
    reflexivity.
  - intros Hshort.
    destruct (frame_make_defined plat (local_buf 32) cmdi ver adr dptr dlen)
      as [frame Hmk]; try assumption.
    { unfold local_buf. rewrite length_replicate. lia. }
    destruct (frame_make_length _ _ _ _ _ _ _ _ _ Hmk) as [Hlen _].
    unfold local_buf in Hlen. rewrite length_replicate in Hlen.
    unfold frame_send_and_recv, mbind, M_bind, lift_option, with_ser, mret, M_ret.
    rewrite Hmk. unfold Serial.ser_send_buf, next_send.
    assert (Hfl : length (take (dlen + 18) frame) = (dlen + 18)%nat)
      by (rewrite length_take; lia).
    destruct (ser_send_rets (ser st)) as [| r rest] eqn:Hrets.
    + change (0 <=? 0) with true. cbv iota.
      eexists _, _, _, _. split; [reflexivity |].
      cbn [poll_state devaddr ds syslog ser ser_sent ser_replies].
      repeat split; try reflexivity; try exact Hfl; lia.
    + destruct (Z.leb_spec r 0) as [Hr | Hr].
      * eexists _, _, _, _. split; [reflexivity |].
        cbn [poll_state devaddr ds syslog ser ser_sent ser_replies].
        repeat split; try reflexivity; try exact Hfl; lia.
      * cbn [ser].
        match goal with
        | |- context [Serial.ser_get_buf buf buflen ?s] =>
            pose proof (ser_get_buf_result buf buflen s) as Hget;
            pose proof (ser_get_buf_sent buf buflen s) as Hsent;
            destruct (Serial.ser_get_buf buf buflen s) as [[ret buf'] s2]
        end.
        cbn [snd ser_sent] in Hsent.
        destruct Hget as (H1 & H2 & _).
        eexists _, _, _, _. split; [reflexivity |].
        cbn [poll_state devaddr ds syslog ser].
        repeat split; try reflexivity; try assumption; try (intros; lia).
        all: first [exact Hsent | exact Hfl].
Qed.

Lemma frame_send_and_recv_outcomes_witness :
  exists st1,
    frame_send_and_recv le_host (local_buf 64) 64 GXE_REMOTE_COMMAND
      (cstrz "21") (cstrz "01") (cstrz "2001") 4
      {| poll_state := GXE_ANALOG; devaddr := cstrz "01"; ds := sample_store;
         ser := {| ser_send_rets := [-1]; ser_replies := [RecvData reply_accepted];
                   ser_sent := [] |};
         syslog := [] |}
    = Some ((-1, local_buf 64), st1) /\
    ser_replies (ser st1) = [RecvData reply_accepted] /\
    length (ser_sent (ser st1)) = 1%nat.
Proof.
  destruct (proj2 (frame_send_and_recv_outcomes le_host (local_buf 64) 64
                     GXE_REMOTE_COMMAND (cstrz "21") (cstrz "01") (cstrz "2001") 4
                     {| poll_state := GXE_ANALOG; devaddr := cstrz "01";
                        ds := sample_store;
                        ser := {| ser_send_rets := [-1];
                                  ser_replies := [RecvData reply_accepted];
                                  ser_sent := [] |};
                        syslog := [] |}
                     ltac:(cbn; lia) ltac:(cbn; lia) ltac:(cbn; lia))
              ltac:(lia))
    as (ret & buf' & st1 & frame & Hrun & _ & _ & _ & _ & Hsent & _ & _ & _ & Hfail).
  destruct Hfail as (Hret & Hbuf & Hrep); [vm_compute; discriminate |].
  vm_compute in Hrun. injection Hrun as <- <- <-.
  eexists. split; [vm_compute; reflexivity |]. split; reflexivity.
Defined.

(** ** Postconditions of the handlers *)

Lemma upd_poll_upd_ds_same (st : driver) :
  upd_poll (poll_state st) (upd_ds (ds st) st) = st.
Proof. destruct st; reflexivity. Qed.

Lemma wp_ret (Q : gxe_poll_state -> dstate -> Prop) (st : driver) :
  Q (poll_state st) (ds st) -> wp (mret tt) Q st.
Proof.
  intros H. exists (poll_state st), (ds st). split; [| exact H].
  rewrite upd_poll_upd_ds_same. reflexivity.
Qed.

Lemma wp_with_ds (f : dstate -> dstate) (Q : gxe_poll_state -> dstate -> Prop)
    (st : driver) :
  Q (poll_state st) (f (ds st)) -> wp (with_ds f) Q st.
Proof. intros H. exists (poll_state st), (f (ds st)). split; [reflexivity | exact H]. Qed.

Lemma wp_setinfo (name : string) (v : fact) (Q : gxe_poll_state -> dstate -> Prop)
    (st : driver) :
  Q (poll_state st) (Dstate.dstate_setinfo name v (ds st)) ->
  wp (dstate_setinfo name v) Q st.
Proof. apply wp_with_ds. Qed.

Lemma wp_set_poll_state (q : gxe_poll_state) (Q : gxe_poll_state -> dstate -> Prop)
    (st : driver) :
  Q q (ds st) -> wp (set_poll_state q) Q st.
Proof. intros H. exists q, (ds st). split; [reflexivity | exact H]. Qed.

(** The rules: one per operation of the monad that the handlers use. *)
Lemma wp_seq (m1 m2 : M unit) (Q : gxe_poll_state -> dstate -> Prop) (st : driver) :
  wp m1 (fun p d => wp m2 Q (upd_poll p (upd_ds d st))) st ->
  wp (m1;; m2) Q st.
Proof.
  intros (p & d & E1 & p' & d' & E2 & H).
  exists p', d'. split; [| exact H].
  unfold mbind, M_bind. rewrite E1, E2. reflexivity.
Qed.

Lemma wp_gets {A} (g : driver -> A) (k : A -> M unit)
    (Q : gxe_poll_state -> dstate -> Prop) (st : driver) :
  wp (k (g st)) Q st -> wp (gets g ≫= k) Q st.
Proof. intros H. unfold wp. rewrite bind_gets. exact H. Qed.

Lemma wp_when (b : bool) (m : M unit) (Q : gxe_poll_state -> dstate -> Prop)
    (st : driver) :
  (if b then wp m Q st else Q (poll_state st) (ds st)) -> wp (when b m) Q st.
Proof. destruct b; [trivial | apply wp_ret]. Qed.

Lemma wp_mono (m : M unit) (Q Q' : gxe_poll_state -> dstate -> Prop) (st : driver) :
  wp m Q st -> (forall p d, Q p d -> Q' p d) -> wp m Q' st.
Proof. intros (p & d & E & H) HQ. exists p, d. auto. Qed.

(** What a postcondition says of the state reached. *)
Lemma wp_elim (m : M unit) (Q : gxe_poll_state -> dstate -> Prop) (st : driver) :
  wp m Q st ->
  exists st2,
    m st = Some (tt, st2) /\ Q (poll_state st2) (ds st2) /\
    devaddr st2 = devaddr st /\ ser st2 = ser st /\ syslog st2 = syslog st.
Proof.
  intros (p & d & E & H). exists (upd_poll p (upd_ds d st)).
  repeat split; assumption.
Qed.

Ltac wp_step :=
  first
    [ apply wp_seq
    | apply wp_gets
    | apply wp_setinfo
    | apply wp_with_ds
    | apply wp_set_poll_state
    | apply wp_ret ];
  cbn [poll_state ds upd_poll upd_ds].

Ltac wp_run := cbv zeta; repeat wp_step.

Ltac split_all := repeat match goal with |- _ /\ _ => split end.

Ltac lookup_info :=
  cbn [info Dstate.dstate_setinfo Dstate.dstate_dataok Dstate.set_stale
       Dstate.status_init Dstate.status_set Dstate.status_commit
       Dstate.alarm_init Dstate.alarm_set Dstate.alarm_commit];
  repeat first [ rewrite lookup_insert_eq
               | rewrite lookup_insert_ne by congruence ].

(** The status and the two facts of the ON/OFF phase, case by case. *)
Lemma onoff_facts_post (onoff_buf : list Z) (st : driver) :
  wp (onoff_facts onoff_buf)
    (fun p d => p = poll_state st /\ onoff_post onoff_buf (ds st) d) st.
Proof.
  unfold onoff_facts, onoff_post.
  change (15 + 6)%nat with 21%nat. change (15 + 8)%nat with 23%nat.
  set (pwrval := val_from_hex onoff_buf 15 2).
  set (rectval := val_from_hex onoff_buf 19 2).
  set (bat := val_from_hex onoff_buf 21 2).
  set (tst := val_from_hex onoff_buf 23 2).
  cbv zeta.
  destruct (Z.eqb_spec pwrval 1);
    [destruct (Z.eqb_spec rectval 226) | destruct (Z.eqb_spec pwrval 2)];
    cbn [andb];
    (destruct (Z.eqb_spec bat 224);
     [| destruct (Z.eqb_spec bat 225);
        [| destruct (Z.eqb_spec bat 226); [| destruct (Z.eqb_spec bat 227)]]]);
    cbn [orb];
    (destruct (Z.eqb_spec tst 224); [| destruct (Z.eqb_spec tst 225)]);
    wp_run; split_all;
    try reflexivity; try (intros; lia); intros; lookup_info; reflexivity.
Qed.

Lemma onoff_publish_post (onoff_buf : list Z) (st : driver) :
  wp (onoff_publish onoff_buf)
    (fun p d =>
       p = onoff_next (val_from_hex onoff_buf 13 2) /\
       onoff_post onoff_buf (ds st) d) st.
Proof.
  rewrite onoff_publish_split. unfold when, onoff_next.
  rewrite dataflag_warn_bit, dataflag_onoff_bit.
  destruct (Z.testbit (val_from_hex onoff_buf 13 2) 4),
           (Z.testbit (val_from_hex onoff_buf 13 2) 0);
    repeat (lazymatch goal with
            | |- wp (onoff_facts _) _ _ => fail
            | _ => wp_step
            end);
    match goal with
    | |- wp (onoff_facts _) _ ?s =>
        apply (wp_mono _ _ _ _ (onoff_facts_post onoff_buf s))
    end;
    cbn [poll_state ds upd_poll upd_ds]; intros p d [-> H]; split;
    [reflexivity | exact H | reflexivity | exact H
     | reflexivity | exact H | reflexivity | exact H].
Qed.

Lemma int64_small (v : Z) : - 2 ^ 63 <= v < 2 ^ 63 -> CInt.int64 v = v.
Proof.
  intros Hv. unfold CInt.int64, CInt.wrap_signed.
  change (2 ^ 64) with 18446744073709551616.
  change (2 ^ (64 - 1)) with 9223372036854775808.
  change (2 ^ 63) with 9223372036854775808 in Hv.
  destruct (Z_lt_le_dec v 0).
  - replace (v mod 18446744073709551616) with (v + 18446744073709551616)
      by (apply (Z.mod_unique _ _ (-1)); lia).
    destruct (Z.ltb_spec (v + 18446744073709551616) 9223372036854775808); lia.
  - rewrite Z.mod_small by lia.
    destruct (Z.ltb_spec v 9223372036854775808); lia.
Qed.

Lemma not_elem_of_names (name : string) (names : list string) :
  name ∉ names -> Forall (fun k => k <> name) names.
Proof.
  intros H. apply Forall_forall. intros k Hk ->. exact (H Hk).
Qed.

Ltac other_names H :=
  apply not_elem_of_names in H;
  repeat match type of H with
         | Forall _ (_ :: _) =>
             let H1 := fresh in
             apply Forall_cons in H as [H1 H]
         end.

Lemma analog_facts_wp (analog_buf : list Z) (st : driver) :
  wp (analog_facts analog_buf)
    (fun p d => p = poll_state st /\ analog_facts_post analog_buf (ds st) d) st.
Proof.
  unfold analog_facts, analog_facts_post, analog_names.
  pose proof (val_from_hex_4_bounds analog_buf 79) as B1.
  pose proof (val_from_hex_4_bounds analog_buf 83) as B2.
  change (15 + 12)%nat with 27%nat. change (15 + 24)%nat with 39%nat.
  change (15 + 36)%nat with 51%nat. change (15 + 40)%nat with 55%nat.
  change (15 + 52)%nat with 67%nat. change (15 + 64)%nat with 79%nat.
  change (15 + 68)%nat with 83%nat. change (15 + 80)%nat with 95%nat.
  rewrite !int32_small by (change (2 ^ 31) with 2147483648; lia).
  wp_run. split_all; try reflexivity; try (lookup_info; reflexivity).
  intros name Hn. other_names Hn. lookup_info. reflexivity.
Qed.

(** The ANALOG phase: the next phase, then the status correction, then
    the facts. *)
Lemma analog_publish_post (analog_buf : list Z) (st : driver) :
  wp (analog_publish analog_buf)
    (fun p d =>
       p = analog_next (poll_state st) (val_from_hex analog_buf 13 2) (val_from_hex analog_buf 15 4)
             (Dstate.status_get "OL" (ds st)) (Dstate.status_get "OB" (ds st)) /\
       exists d1,
         analog_status_post analog_buf (ds st) d1 /\
         analog_facts_post analog_buf d1 d) st.
Proof.
  rewrite analog_publish_split. unfold when, status_rewrite, analog_next.
  unfold analog_status_post.
  rewrite dataflag_warn_bit, dataflag_onoff_bit. cbv zeta.
  set (volt := CInt.div (val_from_hex analog_buf 15 4) 100).
  destruct (Dstate.status_get "OL" (ds st)) eqn:Hol,
           (Dstate.status_get "OB" (ds st)) eqn:Hob;
    destruct (Z.testbit (val_from_hex analog_buf 13 2) 4),
             (Z.testbit (val_from_hex analog_buf 13 2) 0);
    (destruct (Z.eqb_spec volt 0) as [Hv | Hv];
     [ replace (volt >? 0) with false by lia
     | destruct (Z.gtb_spec volt 0) as [Hp | Hp] ]);
    cbn [andb orb];
    repeat (lazymatch goal with
            | |- wp (analog_facts _) _ _ => fail
            | |- wp (gets _ ≫= _) _ _ =>
                apply wp_gets; cbn [poll_state ds upd_poll upd_ds];
                rewrite ?Hol, ?Hob; cbn [andb]
            | _ => wp_step
            end);
    match goal with
    | |- wp (analog_facts _) _ ?s =>
        apply (wp_mono _ _ _ _ (analog_facts_wp analog_buf s))
    end;
    cbn [poll_state ds upd_poll upd_ds]; intros p d [-> H];
    (split; [reflexivity |]);
    eexists; (split; [| exact H]);
    split_all; try reflexivity; intros; try lia; try discriminate;
    split; reflexivity.
Qed.

(** [(long) field * 3 * 108000], printed with ["%lu"]. *)
Lemma sysparam_interval (v : Z) :
  -4095 <= v <= 65535 ->
  CInt.wrap_unsigned 64 (CInt.int64 (v * 3 * 108000))
  = if 0 <=? v then v * 324000 else 2 ^ 64 + v * 324000.
Proof.
  intros Hv. rewrite int64_small
    by (change (2 ^ 63) with 9223372036854775808; lia).
  unfold CInt.wrap_unsigned. change (2 ^ 64) with 18446744073709551616.
  destruct (Z.leb_spec 0 v).
  - rewrite Z.mod_small by lia. lia.
  - symmetry. apply (Z.mod_unique _ _ (-1)); lia.
Qed.

Lemma sysparam_publish_post (sysparam_buf : list Z) (st : driver) :
  wp (sysparam_publish sysparam_buf)
    (fun p d => p = GXE_WARNING /\ sysparam_post sysparam_buf (ds st) d) st.
Proof.
  unfold sysparam_publish, sysparam_post, sysparam_names, when.
  change (13 + 18)%nat with 31%nat. change (31 + 4)%nat with 35%nat.
  change (31 + 16)%nat with 47%nat. change (31 + 20)%nat with 51%nat.
  change (31 + 60)%nat with 91%nat.
  rewrite (sysparam_interval _ (val_from_hex_4_bounds sysparam_buf 91)).
  cbv zeta.
  destruct (val_from_hex sysparam_buf 47 4 =? 1),
           (val_from_hex sysparam_buf 51 4 =? 1);
    destruct (Z.leb_spec 0 (val_from_hex sysparam_buf 91 4));
    wp_run; split_all; try reflexivity; try (intros; lia);
    try (intros; lookup_info; reflexivity);
    intros name Hn; other_names Hn; lookup_info; reflexivity.
Qed.

Lemma warning_scan_wp (warn_buf : list Z) (i : nat) (tbl : list (option string))
    (st : driver) :
  wp (warning_scan warn_buf i tbl)
    (fun p d =>
       p = poll_state st /\
       d = add_alarms (active_names warn_buf i tbl) (ds st)) st.
Proof.
  exists (poll_state st), (add_alarms (active_names warn_buf i tbl) (ds st)).
  split; [| split; reflexivity].
  rewrite warning_scan_run. destruct st; reflexivity.
Qed.

Lemma warning_publish_post (warn_buf : list Z) (st : driver) :
  wp (warning_publish warn_buf)
    (fun p d => p = GXE_ONOFF /\ warning_post warn_buf (ds st) d) st.
Proof.
  unfold warning_publish, warning_post.
  do 4 wp_step. apply wp_seq.
  match goal with
  | |- wp (warning_scan _ _ _) _ ?s =>
      apply (wp_mono _ _ _ _ (warning_scan_wp warn_buf 0 gxe_warns s))
  end.
  cbn [poll_state ds upd_poll upd_ds]. intros p d [-> ->].
  wp_run. split_all; reflexivity.
Qed.

(** ** One tick of the polling state machine *)

(** The dispatch on the phase, as one polling cycle. *)
Lemma upsdrv_updateinfo_cycle (plat : platform) (st : driver) :
  upsdrv_updateinfo plat st
  = poll_cycle plat (phase_buflen (poll_state st)) (phase_request (poll_state st))
      (phase_minlen (poll_state st)) (phase_failed (poll_state st))
      (phase_publish (poll_state st)) st.
Proof.
  unfold upsdrv_updateinfo. rewrite bind_gets.
  destruct (poll_state st); cbn [phase_buflen phase_request phase_minlen
                                 phase_failed phase_publish].
  - apply (f_equal (fun m => m st) (upsdrv_updateinfo_onoff_cycle plat)).
  - apply (f_equal (fun m => m st) (upsdrv_updateinfo_analog_cycle plat)).
  - apply (f_equal (fun m => m st) (upsdrv_updateinfo_warning_cycle plat)).
  - apply (f_equal (fun m => m st) (upsdrv_updateinfo_sysparam_cycle plat)).
Qed.

Lemma add_log_nil (st : driver) : add_log [] st = st.
Proof. destruct st. unfold add_log. cbn. rewrite app_nil_r. reflexivity. Qed.

(** A tick whose reply is accepted runs the publication of its phase
    from the state the exchange has left. *)
Lemma tick_accepted (plat : platform) (st st1 : driver) (ret : Z) (buf : list Z) :
  phase_exchange plat (poll_state st) st = Some ((ret, buf), st1) ->
  0 <= fst (validate_ret buf ret (phase_minlen (poll_state st))) ->
  upsdrv_updateinfo plat st = phase_publish (poll_state st) buf st1 /\
  poll_state st1 = poll_state st /\ ds st1 = ds st /\
  devaddr st1 = devaddr st /\ syslog st1 = syslog st.
Proof.
  intros Hx Hok. rewrite phase_exchange_eq in Hx.
  destruct (frame_send_and_recv_effect _ _ _ _ _ _ _ _ _ _ _ Hx)
    as (Hp & Ha & Hd & Hl & _).
  rewrite upsdrv_updateinfo_cycle, (poll_cycle_run _ _ _ _ _ _ _ _ _ _ Hx).
  rewrite (validate_ret_accepted _ _ _ Hok). cbn [fst snd].
  change (0 <? 0) with false. cbv iota. rewrite add_log_nil. auto.
Qed.

(** Every publication returns, leaves the batch fresh and ends in the
    phase that [next_phase] gives. *)
Lemma phase_publish_post (p : gxe_poll_state) (buf : list Z) (st : driver) :
  poll_state st = p ->
  wp (phase_publish p buf)
    (fun p' d => p' = next_phase p buf (ds st) /\ stale d = false) st.
Proof.
  intros Hp. destruct p; cbn [phase_publish next_phase].
  - apply (wp_mono _ _ _ _ (onoff_publish_post buf st)).
    intros p d (-> & H). split; [reflexivity | apply H].
  - apply (wp_mono _ _ _ _ (analog_publish_post buf st)).
    intros p d (-> & d1 & _ & H). rewrite Hp. split; [reflexivity | apply H].
  - apply (wp_mono _ _ _ _ (warning_publish_post buf st)).
    intros p d (-> & H). split; [reflexivity | apply H].
  - apply (wp_mono _ _ _ _ (sysparam_publish_post buf st)).
    intros p d (-> & H). split; [reflexivity | apply H].
Qed.

Lemma phase_failed_post (p : gxe_poll_state) (st : driver) :
  poll_state st = p ->
  wp (phase_failed p)
    (fun p' d => p' = p /\ d = Dstate.dstate_datastale (ds st)) st.
Proof.
  intros Hp. destruct p; cbn [phase_failed]; wp_run; auto.
Qed.

Lemma proto_lchecksum_zero (plat : platform) :
  take 4 (proto_lchecksum plat (CInt.uint16 (Z.of_nat 0))) = cstr "0000".
Proof. destruct plat as [cs [|]]; reflexivity. Qed.

(** The frame of a request without payload. *)
Lemma request_frame_made (plat : platform) (cmd : gxe_cmd) (adr frame : list Z)
    (n : nat) :
  frame_make plat (local_buf 32) cmd (cstrz "21") adr [] 0 = Some (frame, n) ->
  take 18 frame = request_frame plat cmd adr.
Proof.
  intros H. destruct (frame_make_bytes _ _ _ _ _ _ _ _ _ H) as [_ Hb].
  cbv zeta in Hb. rewrite proto_lchecksum_zero in Hb.
  change (take 2 (cstrz "21")) with (cstr "21") in Hb.
  change (take 0 (@nil Z)) with (@nil Z) in Hb. rewrite !app_nil_r in Hb.
  exact Hb.
Qed.

(** An address array of fewer than two cells is read past its end. *)
Lemma frame_make_short_address (plat : platform) (cmdi : gxe_cmd)
    (adr dptr : list Z) (dlen : nat) :
  (length adr < 2)%nat ->
  frame_make plat (local_buf 32) cmdi (cstrz "21") adr dptr dlen = None.
Proof.
  intros Hadr. unfold frame_make.
  destruct (mem_write (local_buf 32) 0 [126]) as [b1 |]; [| reflexivity].
  cbn [mbind option_bind].
  destruct (src_read (cstrz "21") 2) as [v |]; [| reflexivity].
  cbn [mbind option_bind].
  destruct (mem_write b1 1 v) as [b2 |]; [| reflexivity].
  cbn [mbind option_bind].
  assert (src_read adr 2 = None) as ->
    by (unfold src_read; rewrite decide_False by lia; reflexivity).
  reflexivity.
Qed.

Lemma request_frame_length (plat : platform) (cmd : gxe_cmd) (adr : list Z) :
  (2 <= length adr)%nat -> length (request_frame plat cmd adr) = 18%nat.
Proof.
  intros Hadr. unfold request_frame. cbv zeta.
  rewrite !length_app, !length_take, gxe_cmds_length, proto_checksum_length.
  change (length (cstr "21")) with 2%nat. change (length (cstr "0000")) with 4%nat.
  cbn [length]. lia.
Qed.

(** A tick returns whatever the line does, and sends its request. *)
Lemma upsdrv_updateinfo_runs (plat : platform) (st : driver) :
  (2 <= length (devaddr st))%nat ->
  exists st2,
    upsdrv_updateinfo plat st = Some (tt, st2) /\
    devaddr st2 = devaddr st /\
    ser_sent (ser st2)
    = ser_sent (ser st)
      ++ [request_frame plat (phase_request (poll_state st)) (devaddr st)].
Proof.
  intros Hadr.
  destruct (phase_exchange_defined plat (poll_state st) st Hadr)
    as ([ret buf] & st1 & Hx).
  rewrite phase_exchange_eq in Hx.
  destruct (frame_send_and_recv_effect _ _ _ _ _ _ _ _ _ _ _ Hx)
    as (Hp & Ha & Hd & Hl & frame & Hmk & Hsent).
  apply request_frame_made in Hmk. change (0 + 18)%nat with 18%nat in Hsent.
  rewrite Hmk in Hsent.
  rewrite upsdrv_updateinfo_cycle, (poll_cycle_run _ _ _ _ _ _ _ _ _ _ Hx).
  set (st' := add_log (snd (validate_ret buf ret (phase_minlen (poll_state st)))) st1).
  assert (Hwp : wp (if fst (validate_ret buf ret (phase_minlen (poll_state st))) <? 0
                    then phase_failed (poll_state st)
                    else phase_publish (poll_state st) buf)
                  (fun _ _ => True) st').
  { destruct (fst (validate_ret buf ret (phase_minlen (poll_state st))) <? 0).
    - apply (wp_mono _ _ _ _ (phase_failed_post (poll_state st) st' Hp)). trivial.
    - apply (wp_mono _ _ _ _ (phase_publish_post (poll_state st) buf st' Hp)).
      trivial. }
  apply wp_elim in Hwp as (st2 & Hrun & _ & Ha2 & Hs2 & _).
  exists st2. split.
  { destruct (fst (validate_ret buf ret (phase_minlen (poll_state st))) <? 0);
      exact Hrun. }
  split; [rewrite Ha2; exact Ha | rewrite Hs2; exact Hsent].
Qed.

Lemma upsdrv_updateinfo_short_address (plat : platform) (st : driver) :
  (length (devaddr st) < 2)%nat -> upsdrv_updateinfo plat st = None.
Proof.
  intros Hadr. rewrite upsdrv_updateinfo_cycle.
  unfold poll_cycle. rewrite bind_gets.
  unfold frame_send_and_recv, mbind at 1, M_bind at 1, mbind at 1, M_bind at 1.
  rewrite frame_make_short_address by exact Hadr. reflexivity.
Qed.

(** The phase after a tick whose reply is accepted. *)
Lemma accepted_reply_phase (plat : platform) (st st1 : driver)
    (ret : Z) (buf : list Z) :
  phase_exchange plat (poll_state st) st = Some ((ret, buf), st1) ->
  0 <= fst (validate_ret buf ret (phase_minlen (poll_state st))) ->
  exists st2,
    upsdrv_updateinfo plat st = Some (tt, st2) /\
    poll_state st2 = next_phase (poll_state st) buf (ds st) /\
    stale (ds st2) = false.
Proof.
  intros Hx Hok.
  destruct (tick_accepted plat st st1 ret buf Hx Hok) as (-> & Hp & Hd & _ & Hl).
  destruct (wp_elim _ _ _ (phase_publish_post (poll_state st) buf st1 Hp))
    as (st2 & Hrun & [Hn Hs] & _ & _ & Hl2).
  exists st2. rewrite Hd in Hn. auto.
Qed.






(** X11: with an address array of at least two cells a tick always
    returns, whatever the line does; it hands exactly one frame to the
    line, the 18-byte request of the current phase addressed with the
    first two characters of the address, and leaves the address alone.
    With a shorter address array the frame builder reads past its end. *)
Theorem upsdrv_updateinfo_request (plat : platform) (st : driver) :
  ((2 <= length (devaddr st))%nat ->
   exists st2,
     upsdrv_updateinfo plat st = Some (tt, st2) /\
     devaddr st2 = devaddr st /\
     ser_sent (ser st2)
     = ser_sent (ser st)
       ++ [request_frame plat (phase_request (poll_state st)) (devaddr st)] /\
     length (request_frame plat (phase_request (poll_state st)) (devaddr st))
     = 18%nat) /\
  ((length (devaddr st) < 2)%nat -> upsdrv_updateinfo plat st = None).
Proof.
  split.
  - intros Hadr.
    destruct (upsdrv_updateinfo_runs plat st Hadr) as (st2 & Hrun & Ha & Hs).
    exists st2. split; [exact Hrun |]. split; [exact Ha |]. split; [exact Hs |].
    apply request_frame_length. exact Hadr.
  - apply upsdrv_updateinfo_short_address.
Qed.

Lemma upsdrv_updateinfo_request_witness :
  exists st2,
    upsdrv_updateinfo le_host (sample_driver GXE_ANALOG sample_store [])
    = Some (tt, st2) /\
    devaddr st2 = cstrz "01" /\
    ser_sent (ser st2) = [cstr "~21012A420000FDA3" ++ [13]].
Proof.
  destruct (proj1 (upsdrv_updateinfo_request le_host
                     (sample_driver GXE_ANALOG sample_store []))
              ltac:(cbn; lia))
    as (st2 & Hrun & Ha & Hs & _).
  exists st2. split; [exact Hrun |]. split; [exact Ha | exact Hs].
Defined.

(** X12: the transitions of the polling state machine.  After a reply
    that passes validation the tick leaves the batch fresh, logs nothing,
    and moves SYSPARAM to WARNING and WARNING to ON/OFF; from ON/OFF it
    goes to WARNING if bit 0 of the data flag is set, else stays in
    ON/OFF if bit 4 is set, else goes to ANALOG; ANALOG goes to WARNING
    when the status is corrected against the input voltage or bit 0 is
    set, else to ON/OFF if bit 4 is set, and otherwise stays in ANALOG. *)
Theorem accepted_reply_next_phase (plat : platform) (st st1 : driver)
    (ret : Z) (buf : list Z) :
  phase_exchange plat (poll_state st) st = Some ((ret, buf), st1) ->
  0 <= fst (validate_ret buf ret (phase_minlen (poll_state st))) ->
  exists st2,
    upsdrv_updateinfo plat st = Some (tt, st2) /\
    poll_state st2 = next_phase (poll_state st) buf (ds st) /\
    stale (ds st2) = false /\
    syslog st2 = syslog st.
Proof.
  intros Hx Hok.
  destruct (tick_accepted plat st st1 ret buf Hx Hok) as (-> & Hp & Hd & _ & Hl).
  destruct (wp_elim _ _ _ (phase_publish_post (poll_state st) buf st1 Hp))
    as (st2 & Hrun & [Hn Hs] & _ & _ & Hl2).
  exists st2. rewrite Hd in Hn. rewrite Hl2, Hl. auto.
Qed.

Lemma accepted_reply_next_phase_witness :
  exists st2,
    upsdrv_updateinfo le_host
      (sample_driver GXE_ANALOG on_battery_store [RecvData analog_reply_half_volt])
    = Some (tt, st2) /\
    poll_state st2 = GXE_ANALOG /\ stale (ds st2) = false.
Proof.
  destruct (accepted_reply_next_phase le_host
              (sample_driver GXE_ANALOG on_battery_store
                 [RecvData analog_reply_half_volt]) _ _ _ eq_refl)
    as (st2 & Hrun & Hn & Hs & _).
  - vm_compute. discriminate.
  - exists st2. split; [exact Hrun |]. split; [exact Hn | exact Hs].
Defined.

(** ** What an accepted reply publishes *)

(** X13: an accepted ON/OFF reply rewrites the status from the power
    supply field (offset 15) and the rectifier field (offset 19): OB for
    01 with E2, OL for 01 otherwise, OL BYPASS for 02, and an empty
    status for any other supply value; former flags are dropped.  The
    battery field (offset 21) sets battery.charger.status to resting
    (E0), charging (E1, E2) or discharging (E3), the test field (offset
    23) sets ups.test.result to In progress (E0) or Idle (E1); any other
    value leaves the fact as it was.  No other fact and no alarm is
    touched, and the batch is marked fresh. *)
Theorem onoff_reply_published (plat : platform) (st st1 : driver)
    (ret : Z) (buf : list Z) :
  poll_state st = GXE_ONOFF ->
  phase_exchange plat GXE_ONOFF st = Some ((ret, buf), st1) ->
  0 <= fst (validate_ret buf ret (13 + 0x14)) ->
  let pwrval := val_from_hex buf 15 2 in
  let rectval := val_from_hex buf 19 2 in
  let bat := val_from_hex buf 21 2 in
  let tst := val_from_hex buf 23 2 in
  exists st2,
    upsdrv_updateinfo plat st = Some (tt, st2) /\
    stale (ds st2) = false /\
    status_buf (ds st2) = ups_status (ds st2) /\
    (pwrval = 0x01 -> rectval = 0xe2 -> ups_status (ds st2) = ["OB"%string]) /\
    (pwrval = 0x01 -> rectval <> 0xe2 -> ups_status (ds st2) = ["OL"%string]) /\
    (pwrval = 0x02 -> ups_status (ds st2) = ["OL"; "BYPASS"]%string) /\
    (pwrval <> 0x01 -> pwrval <> 0x02 -> ups_status (ds st2) = []) /\
    alarm_buf (ds st2) = alarm_buf (ds st) /\
    ups_alarm (ds st2) = ups_alarm (ds st) /\
    (bat = 0xe0 ->
     info (ds st2) !! "battery.charger.status"%string = Some (FStr "resting")) /\
    (bat = 0xe1 \/ bat = 0xe2 ->
     info (ds st2) !! "battery.charger.status"%string = Some (FStr "charging")) /\
    (bat = 0xe3 ->
     info (ds st2) !! "battery.charger.status"%string
     = Some (FStr "discharging")) /\
    (bat < 0xe0 \/ 0xe3 < bat ->
     info (ds st2) !! "battery.charger.status"%string
     = info (ds st) !! "battery.charger.status"%string) /\
    (tst = 0xe0 ->
     info (ds st2) !! "ups.test.result"%string = Some (FStr "In progress")) /\
    (tst = 0xe1 ->
     info (ds st2) !! "ups.test.result"%string = Some (FStr "Idle")) /\
    (tst <> 0xe0 -> tst <> 0xe1 ->
     info (ds st2) !! "ups.test.result"%string
     = info (ds st) !! "ups.test.result"%string) /\
    (forall name : string,
       name <> "battery.charger.status"%string ->
       name <> "ups.test.result"%string ->
       info (ds st2) !! name = info (ds st) !! name).
Proof.
  intros Hphase Hx Hok. rewrite <- Hphase in Hx.
  change (13 + 0x14) with (phase_minlen GXE_ONOFF) in Hok. rewrite <- Hphase in Hok.
  destruct (tick_accepted plat st st1 ret buf Hx Hok) as (-> & _ & Hd & _).
  rewrite Hphase. cbn [phase_publish].
  destruct (wp_elim _ _ _ (onoff_publish_post buf st1))
    as (st2 & Hrun & [_ H] & _).
  rewrite Hd in H. cbv zeta.
  exists st2. split; [exact Hrun | exact H].
Qed.

Lemma onoff_reply_published_witness :
  exists st2,
    upsdrv_updateinfo le_host
      (sample_driver GXE_ONOFF on_battery_store [RecvData onoff_reply_onoff_flag])
    = Some (tt, st2) /\
    ups_status (ds st2) = ["OL"%string] /\
    info (ds st2) !! "battery.charger.status"%string = Some (FStr "resting") /\
    info (ds st2) !! "ups.test.result"%string = Some (FStr "Idle").
Proof.
  destruct (onoff_reply_published le_host
              (sample_driver GXE_ONOFF on_battery_store
                 [RecvData onoff_reply_onoff_flag]) _ _ _ eq_refl eq_refl)
    as (st2 & Hrun & _ & _ & _ & Hol & _ & _ & _ & _ & Hbat & _ & _ & _ & _ & Htst & _).
  - vm_compute. discriminate.
  - exists st2. split; [exact Hrun |]. split; [| split].
    + apply Hol; vm_compute; [reflexivity | discriminate].
    + apply Hbat. vm_compute. reflexivity.
    + apply Htst. vm_compute. reflexivity.
Defined.

(** X14: an accepted ANALOG reply sets nine facts and no other: the six
    measurements in hundredths and the runtime as single-precision
    values, and ups.realpower and ups.power as ten times their field,
    which never overflows an int.  The alarms are left alone, and so is
    the status unless it contradicts the measured input voltage; the
    batch is marked fresh. *)
Theorem analog_reply_published (plat : platform) (st st1 : driver)
    (ret : Z) (buf : list Z) :
  poll_state st = GXE_ANALOG ->
  phase_exchange plat GXE_ANALOG st = Some ((ret, buf), st1) ->
  0 <= fst (validate_ret buf ret (13 + 0x56)) ->
  let volt := CInt.div (val_from_hex buf 15 4) 100 in
  exists st2,
    upsdrv_updateinfo plat st = Some (tt, st2) /\
    stale (ds st2) = false /\
    info (ds st2) !! "input.voltage"%string
    = Some (FFloat "%.02f" (centi buf 15)) /\
    info (ds st2) !! "output.voltage"%string
    = Some (FFloat "%.02f" (centi buf 27)) /\
    info (ds st2) !! "output.current"%string
    = Some (FFloat "%.02f" (centi buf 39)) /\
    info (ds st2) !! "battery.voltage"%string
    = Some (FFloat "%.02f" (centi buf 51)) /\
    info (ds st2) !! "output.frequency"%string
    = Some (FFloat "%.02f" (centi buf 55)) /\
    info (ds st2) !! "input.frequency"%string
    = Some (FFloat "%.02f" (centi buf 67)) /\
    info (ds st2) !! "ups.realpower"%string
    = Some (FInt "%d" (val_from_hex buf 79 4 * 10)) /\
    info (ds st2) !! "ups.power"%string
    = Some (FInt "%d" (val_from_hex buf 83 4 * 10)) /\
    info (ds st2) !! "battery.runtime.low"%string
    = Some (FFloat "%.2f" (F32.mul (centi buf 95) (F32.of_int 60))) /\
    (forall name : string,
       name ∉ analog_names -> info (ds st2) !! name = info (ds st) !! name) /\
    alarm_buf (ds st2) = alarm_buf (ds st) /\
    ups_alarm (ds st2) = ups_alarm (ds st) /\
    ((volt =? 0) && Dstate.status_get "OL" (ds st) = false ->
     (volt >? 0) && Dstate.status_get "OB" (ds st) = false ->
     status_buf (ds st2) = status_buf (ds st) /\
     ups_status (ds st2) = ups_status (ds st)).
Proof.
  intros Hphase Hx Hok. rewrite <- Hphase in Hx.
  change (13 + 0x56) with (phase_minlen GXE_ANALOG) in Hok. rewrite <- Hphase in Hok.
  destruct (tick_accepted plat st st1 ret buf Hx Hok) as (-> & _ & Hd & _).
  rewrite Hphase. cbn [phase_publish].
  destruct (wp_elim _ _ _ (analog_publish_post buf st1))
    as (st2 & Hrun & (_ & d1 & Hs & Hf) & _).
  rewrite Hd in Hs. cbv zeta. unfold analog_status_post in Hs.
  destruct Hs as (_ & Hi & Hab & Hua & _ & _ & Hsame).
  destruct Hf as (F0 & Hsb & Hus & Hab' & Hua' & F1 & F2 & F3 & F4 & F5 & F6 & F7
                  & F8 & F9 & Hother).
  exists st2. split_all; try assumption.
  - intros name Hn. rewrite (Hother name Hn), Hi. reflexivity.
  - congruence.
  - congruence.
  - intros H1 H2. specialize (Hsame H1 H2). subst d1. split; assumption.
Qed.

Lemma analog_reply_published_witness :
  exists st2,
    upsdrv_updateinfo le_host
      (sample_driver GXE_ANALOG on_battery_store [RecvData analog_reply_half_volt])
    = Some (tt, st2) /\
    info (ds st2) !! "input.voltage"%string
    = Some (FFloat "%.02f" (S754_finite false 8388608 (-24))) /\
    info (ds st2) !! "ups.power"%string = Some (FInt "%d" 0) /\
    info (ds st2) !! "ups.mfr"%string = None /\
    ups_status (ds st2) = ["OB"%string].
Proof.
  destruct (analog_reply_published le_host
              (sample_driver GXE_ANALOG on_battery_store
                 [RecvData analog_reply_half_volt]) _ _ _ eq_refl eq_refl)
    as (st2 & Hrun & _ & Hin & _ & _ & _ & _ & _ & _ & Hpow & _ & Hother & _ & _
        & Hstatus).
  - vm_compute. discriminate.
  - exists st2. split; [exact Hrun |]. split; [| split; [| split]].
    + rewrite Hin. vm_compute. reflexivity.
    + rewrite Hpow. vm_compute. reflexivity.
    + rewrite Hother; [reflexivity |]. vm_compute.
      intros H. repeat (apply elem_of_cons in H as [H | H]; [discriminate H |]).
      apply elem_of_nil in H. exact H.
    + apply Hstatus; vm_compute; reflexivity.
Defined.

(** X15: an accepted SYSPARAM reply publishes the nominal voltage and
    frequency as the integers of their fields and the battery test
    interval as 324000 times its field (read as an unsigned long, so that
    a negative field wraps around 2^64); it touches no fact outside its
    five names, neither the status nor the alarms, and marks the batch
    fresh. *)
Theorem sysparam_reply_published (plat : platform) (st st1 : driver)
    (ret : Z) (buf : list Z) :
  poll_state st = GXE_SYSPARAM ->
  phase_exchange plat GXE_SYSPARAM st = Some ((ret, buf), st1) ->
  0 <= fst (validate_ret buf ret (13 + 0x6a)) ->
  let interval := val_from_hex buf 91 4 in
  exists st2,
    upsdrv_updateinfo plat st = Some (tt, st2) /\
    stale (ds st2) = false /\
    status_buf (ds st2) = status_buf (ds st) /\
    ups_status (ds st2) = ups_status (ds st) /\
    alarm_buf (ds st2) = alarm_buf (ds st) /\
    ups_alarm (ds st2) = ups_alarm (ds st) /\
    info (ds st2) !! "output.voltage.nominal"%string
    = Some (FInt "%d" (val_from_hex buf 31 4)) /\
    info (ds st2) !! "output.frequency.nominal"%string
    = Some (FInt "%d" (val_from_hex buf 35 4)) /\
    (0 <= interval ->
     info (ds st2) !! "ups.test.interval"%string
     = Some (FInt "%lu" (interval * 324000))) /\
    (interval < 0 ->
     info (ds st2) !! "ups.test.interval"%string
     = Some (FInt "%lu" (2 ^ 64 + interval * 324000))) /\
    (forall name : string,
       name ∉ sysparam_names -> info (ds st2) !! name = info (ds st) !! name).
Proof.
  intros Hphase Hx Hok. rewrite <- Hphase in Hx.
  change (13 + 0x6a) with (phase_minlen GXE_SYSPARAM) in Hok. rewrite <- Hphase in Hok.
  destruct (tick_accepted plat st st1 ret buf Hx Hok) as (-> & _ & Hd & _).
  rewrite Hphase. cbn [phase_publish].
  destruct (wp_elim _ _ _ (sysparam_publish_post buf st1))
    as (st2 & Hrun & [_ H] & _).
  rewrite Hd in H. cbv zeta.
  exists st2. split; [exact Hrun | exact H].
Qed.

Lemma sysparam_reply_published_witness :
  exists st2,
    upsdrv_updateinfo le_host
      (sample_driver GXE_SYSPARAM sample_store [RecvData sysparam_reply_220])
    = Some (tt, st2) /\
    info (ds st2) !! "output.voltage.nominal"%string = Some (FInt "%d" 220) /\
    info (ds st2) !! "output.frequency.nominal"%string = Some (FInt "%d" 50) /\
    info (ds st2) !! "ups.test.interval"%string = Some (FInt "%lu" 324000).
Proof.
  destruct (sysparam_reply_published le_host
              (sample_driver GXE_SYSPARAM sample_store
                 [RecvData sysparam_reply_220]) _ _ _ eq_refl eq_refl)
    as (st2 & Hrun & _ & _ & _ & _ & _ & Hv & Hf & Hi & _).
  - vm_compute. discriminate.
  - exists st2. split; [exact Hrun |]. split; [| split].
    + rewrite Hv. vm_compute. reflexivity.
    + rewrite Hf. vm_compute. reflexivity.
    + rewrite Hi by (vm_compute; discriminate). vm_compute. reflexivity.
Defined.

(** X16: an accepted WARNING reply replaces the alarms, in the
    transaction and as committed, by the names of the table entries whose
    slot holds 01, 02, 03 or F0, in table order; it touches neither the
    status nor any fact, and marks the batch fresh. *)
Theorem warning_reply_published (plat : platform) (st st1 : driver)
    (ret : Z) (buf : list Z) :
  poll_state st = GXE_WARNING ->
  phase_exchange plat GXE_WARNING st = Some ((ret, buf), st1) ->
  0 <= fst (validate_ret buf ret (13 + 0x36)) ->
  exists st2,
    upsdrv_updateinfo plat st = Some (tt, st2) /\
    stale (ds st2) = false /\
    status_buf (ds st2) = status_buf (ds st) /\
    ups_status (ds st2) = ups_status (ds st) /\
    alarm_buf (ds st2) = active_names buf 0 gxe_warns /\
    ups_alarm (ds st2) = active_names buf 0 gxe_warns /\
    info (ds st2) = info (ds st).
Proof.
  intros Hphase Hx Hok. rewrite <- Hphase in Hx.
  change (13 + 0x36) with (phase_minlen GXE_WARNING) in Hok. rewrite <- Hphase in Hok.
  destruct (tick_accepted plat st st1 ret buf Hx Hok) as (-> & _ & Hd & _).
  rewrite Hphase. cbn [phase_publish].
  destruct (wp_elim _ _ _ (warning_publish_post buf st1))
    as (st2 & Hrun & [_ H] & _).
  rewrite Hd in H.
  exists st2. split; [exact Hrun | exact H].
Qed.

Lemma warning_reply_published_witness :
  exists st2,
    upsdrv_updateinfo le_host
      (sample_driver GXE_WARNING sample_store [RecvData warning_reply_rectifier])
    = Some (tt, st2) /\
    ups_alarm (ds st2) = ["Rectifier Failure"%string] /\
    ups_status (ds st2) = ["OL"%string].
Proof.
  destruct (warning_reply_published le_host
              (sample_driver GXE_WARNING sample_store
                 [RecvData warning_reply_rectifier]) _ _ _ eq_refl eq_refl)
    as (st2 & Hrun & _ & _ & Hs & _ & Ha & _).
  - vm_compute. discriminate.
  - exists st2. split; [exact Hrun |]. split.
    + rewrite Ha. vm_compute. reflexivity.
    + rewrite Hs. reflexivity.
Defined.

(** ** The polling cycle as a whole *)

(** X17: the cycle that start-up and a handled command begin.  From
    SYSPARAM three ticks with accepted replies, the last with bits 0 and
    4 of its data flag clear, go through WARNING and ON/OFF to ANALOG;
    the three requests go out in this order and nothing else does. *)
Theorem polling_cycle (plat : platform) (s0 s1 s2 s3 : driver)
    (b1 b2 b3 : list Z) :
  poll_state s0 = GXE_SYSPARAM ->
  accepted_tick plat s0 b1 s1 ->
  accepted_tick plat s1 b2 s2 ->
  accepted_tick plat s2 b3 s3 ->
  Z.testbit (val_from_hex b3 13 2) 0 = false ->
  Z.testbit (val_from_hex b3 13 2) 4 = false ->
  poll_state s1 = GXE_WARNING /\ poll_state s2 = GXE_ONOFF /\
  poll_state s3 = GXE_ANALOG /\
  stale (ds s3) = false /\
  ser_sent (ser s3)
  = ser_sent (ser s0)
    ++ [request_frame plat GXE_GET_SYS_PARAM (devaddr s0);
        request_frame plat GXE_GET_WARNING_DATA (devaddr s0);
        request_frame plat GXE_GET_ONOFF_DATA (devaddr s0)].
Proof.
  intros Hp0 (r1 & t1 & Hx1 & Hok1 & Hrun1) (r2 & t2 & Hx2 & Hok2 & Hrun2)
         (r3 & t3 & Hx3 & Hok3 & Hrun3) Hb0 Hb4.
  destruct (accepted_reply_phase plat s0 t1 r1 b1 Hx1 Hok1) as (u1 & E1 & Hn1 & _).
  destruct (accepted_reply_phase plat s1 t2 r2 b2 Hx2 Hok2) as (u2 & E2 & Hn2 & _).
  destruct (accepted_reply_phase plat s2 t3 r3 b3 Hx3 Hok3) as (u3 & E3 & Hn3 & Hs3).
  rewrite Hrun1 in E1. injection E1 as <-.
  rewrite Hrun2 in E2. injection E2 as <-.
  rewrite Hrun3 in E3. injection E3 as <-.
  rewrite Hp0 in Hn1. cbn [next_phase] in Hn1.
  rewrite Hn1 in Hn2. cbn [next_phase] in Hn2.
  rewrite Hn2 in Hn3. cbn [next_phase] in Hn3.
  unfold onoff_next in Hn3. rewrite Hb0, Hb4 in Hn3.
  assert (A0 : (2 <= length (devaddr s0))%nat).
  { destruct (Nat.le_gt_cases 2 (length (devaddr s0))) as [H | H]; [exact H |].
    rewrite (upsdrv_updateinfo_short_address plat s0 H) in Hrun1. discriminate. }
  destruct (upsdrv_updateinfo_runs plat s0 A0) as (v1 & F1 & Ha1 & Hs1).
  rewrite Hrun1 in F1. injection F1 as <-.
  destruct (upsdrv_updateinfo_runs plat s1 ltac:(rewrite Ha1; exact A0))
    as (v2 & F2 & Ha2 & Hs2).
  rewrite Hrun2 in F2. injection F2 as <-.
  destruct (upsdrv_updateinfo_runs plat s2 ltac:(rewrite Ha2, Ha1; exact A0))
    as (v3 & F3 & Ha3 & Hs3').
  rewrite Hrun3 in F3. injection F3 as <-.
  repeat split; try assumption.
  rewrite Hs3', Hs2, Hs1, Ha2, Ha1, Hp0, Hn1, Hn2, <- !app_assoc. reflexivity.
Qed.

Lemma polling_cycle_witness :
  let s1 := after_tick le_host cycle_start in
  let s2 := after_tick le_host s1 in
  let s3 := after_tick le_host s2 in
  accepted_tick le_host cycle_start (sysparam_reply_220 ++ replicate 4 0) s1 /\
  accepted_tick le_host s1 (warning_reply_rectifier ++ replicate 56 0) s2 /\
  accepted_tick le_host s2 (onoff_reply_plain ++ replicate 26 0) s3 /\
  poll_state s3 = GXE_ANALOG /\
  ser_sent (ser s3)
  = [cstr "~21012A470000FD9E" ++ [13]; cstr "~21012A440000FDA1" ++ [13];
     cstr "~21012A430000FDA2" ++ [13]].
Proof.
  cbv zeta.
  assert (T1 : accepted_tick le_host cycle_start
                 (sysparam_reply_220 ++ replicate 4 0)
                 (after_tick le_host cycle_start)).
  { eexists _, _. split; [vm_compute; reflexivity |].
    split; [vm_compute; discriminate | vm_compute; reflexivity]. }
  assert (T2 : accepted_tick le_host (after_tick le_host cycle_start)
                 (warning_reply_rectifier ++ replicate 56 0)
                 (after_tick le_host (after_tick le_host cycle_start))).
  { eexists _, _. split; [vm_compute; reflexivity |].
    split; [vm_compute; discriminate | vm_compute; reflexivity]. }
  assert (T3 : accepted_tick le_host
                 (after_tick le_host (after_tick le_host cycle_start))
                 (onoff_reply_plain ++ replicate 26 0)
                 (after_tick le_host
                    (after_tick le_host (after_tick le_host cycle_start)))).
  { eexists _, _. split; [vm_compute; reflexivity |].
    split; [vm_compute; discriminate | vm_compute; reflexivity]. }
  assert (B0 : Z.testbit (val_from_hex (onoff_reply_plain ++ replicate 26 0) 13 2) 0
               = false) by (vm_compute; reflexivity).
  assert (B4 : Z.testbit (val_from_hex (onoff_reply_plain ++ replicate 26 0) 13 2) 4
               = false) by (vm_compute; reflexivity).
  destruct (polling_cycle le_host cycle_start _ _ _ _ _ _ eq_refl T1 T2 T3 B0 B4)
    as (_ & _ & Hp & _ & Hsent).
  split; [exact T1 |]. split; [exact T2 |]. split; [exact T3 |].
  split; [exact Hp |]. rewrite Hsent. vm_compute. reflexivity.
Defined.

(** ** Start-up *)










Lemma bind_run {A B} (m : M A) (k : A -> M B) (st st' : driver) (a : A) :
  m st = Some (a, st') -> (m ≫= k) st = k a st'.
Proof. intros H. unfold mbind, M_bind. rewrite H. reflexivity. Qed.









(** ** Command dispatch: every command *)

Lemma instcmd_attempt_defined (plat : platform) (b data : list Z) (st : driver) :
  (2 <= length (devaddr st))%nat -> (4 <= length data)%nat ->
  exists r st1, instcmd_attempt plat b data 4 st = Some (r, st1).
Proof.
  intros Hadr Hdata.
  destruct (frame_send_and_recv_defined plat b 64 GXE_REMOTE_COMMAND data 4 st
              Hadr ltac:(lia) Hdata) as ([ret b1] & st1 & Hx).
  unfold instcmd_attempt. rewrite bind_gets, (bind_run _ _ _ _ _ Hx).
  unfold validate_ret_logged. destruct (validate_ret b1 ret 13) as [v lines].
  unfold mbind, M_bind, upslogx, mret, M_ret. eauto.
Qed.

(** The retry loop returns after at most [n] attempts, each of which
    sends one frame and touches nothing but the line and the log. *)
Lemma instcmd_retry_run (plat : platform) (data : list Z) (n : nat) :
  (4 <= length data)%nat ->
  forall (b : list Z) (st : driver),
    (2 <= length (devaddr st))%nat ->
    exists r st2 frames,
      instcmd_retry plat n b data 4 st = Some (r, st2) /\
      ds st2 = ds st /\ devaddr st2 = devaddr st /\
      ser_sent (ser st2) = ser_sent (ser st) ++ frames /\
      Forall (remote_frame data) frames /\
      (r = STAT_INSTCMD_HANDLED /\ poll_state st2 = GXE_SYSPARAM /\
       (1 <= length frames <= n)%nat \/
       r = STAT_INSTCMD_FAILED /\ poll_state st2 = poll_state st /\
       length frames = n).
Proof.
  intros Hdata. induction n as [| n IH]; intros b st Hadr.
  - exists STAT_INSTCMD_FAILED. eexists. exists [].
    split; [reflexivity |]. cbn [ds devaddr ser poll_state].
    rewrite app_nil_r. repeat split; auto.
  - rewrite instcmd_retry_S.
    destruct (instcmd_attempt_defined plat b data st Hadr Hdata)
      as ([v b1] & st1 & Hatt).
    rewrite Hatt.
    destruct (instcmd_attempt_effect _ _ _ _ _ _ Hatt)
      as (Hp & Hd & Ha & frame & Hsent & Hfr).
    destruct (v <? 0); cbn [negb].
    + destruct (IH b1 st1 ltac:(rewrite Ha; exact Hadr))
        as (r & st2 & frames & Hrun & Hd2 & Ha2 & Hs2 & Hall & Hcase).
      exists r, st2, (frame :: frames). split; [exact Hrun |].
      split; [congruence |]. split; [congruence |].
      split; [rewrite Hs2, Hsent, <- app_assoc; reflexivity |].
      split; [constructor; assumption |].
      cbn [length].
      destruct Hcase as [(-> & Hq & Hk) | (-> & Hq & Hk)]; [left | right];
        (split; [reflexivity |]); (split; [congruence | lia]).
    + exists STAT_INSTCMD_HANDLED, (upd_poll GXE_SYSPARAM st1), [frame].
      split; [reflexivity |]. cbn [ds devaddr ser upd_poll poll_state length].
      split; [exact Hd |]. split; [exact Ha |]. split; [exact Hsent |].
      split; [constructor; [assumption | constructor] |].
      left. repeat split; lia.
Qed.

(** A payload is selected by one of the four names only. *)
Lemma instcmd_data_cases (cmdname data : list Z) :
  instcmd_data cmdname = Some data ->
  (same_nocase cmdname (cstrz "test.battery.start") /\ data = cstrz "1002") \/
  (same_nocase cmdname (cstrz "test.battery.stop") /\ data = cstrz "1003") \/
  (same_nocase cmdname (cstrz "load.on") /\ data = cstrz "2001") \/
  (same_nocase cmdname (cstrz "load.off") /\ data = cstrz "2003").
Proof.
  unfold instcmd_data.
  destruct (strcasecmp cmdname (cstrz "test.battery.start") =? 0) eqn:H1;
    [| destruct (strcasecmp cmdname (cstrz "test.battery.stop") =? 0) eqn:H2;
       [| destruct (strcasecmp cmdname (cstrz "load.on") =? 0) eqn:H3;
          [| destruct (strcasecmp cmdname (cstrz "load.off") =? 0) eqn:H4] ] ];
    intros [= <-]; rewrite ?strcasecmp_eqb in *; tauto.
Qed.

Lemma instcmd_data_length (cmdname data : list Z) :
  instcmd_data cmdname = Some data -> length data = 5%nat.
Proof.
  intros H. apply instcmd_data_cases in H.
  destruct H as [[_ ->] | [[_ ->] | [[_ ->] | [_ ->]]]]; reflexivity.
Qed.

Lemma instcmd_data_of_name (cmdname : list Z) (name code : string) :
  (name, code)
    ∈ [("test.battery.start", "1002"); ("test.battery.stop", "1003");
       ("load.on", "2001"); ("load.off", "2003")]%string ->
  same_nocase cmdname (cstrz name) ->
  instcmd_data cmdname = Some (cstrz code).
Proof.
  intros Hin Hsame. unfold instcmd_data.
  assert (Hne : forall other : string,
            map tolower (c_chars (cstrz name)) <> map tolower (c_chars (cstrz other)) ->
            (strcasecmp cmdname (cstrz other) =? 0) = false).
  { intros other Hdiff.
    destruct (strcasecmp cmdname (cstrz other) =? 0) eqn:E; [| reflexivity].
    apply strcasecmp_eqb in E. unfold same_nocase in *. congruence. }
  assert (Heq : (strcasecmp cmdname (cstrz name) =? 0) = true)
    by (apply strcasecmp_eqb; exact Hsame).
  repeat (apply elem_of_cons in Hin as [Hin | Hin];
          [injection Hin as -> ->;
           rewrite ?(Hne "test.battery.start"%string) by (vm_compute; discriminate);
           rewrite ?(Hne "test.battery.stop"%string) by (vm_compute; discriminate);
           rewrite ?(Hne "load.on"%string) by (vm_compute; discriminate);
           rewrite Heq; reflexivity |]).
  apply elem_of_nil in Hin. contradiction.
Qed.

(** X21: with an address array of at least two cells an instant command
    always returns.  It never touches the state store nor the address;
    it sends at most three frames, each a 22-byte remote command carrying
    the payload of the named command.  HANDLED means that at least one
    frame was sent and that the next phase is SYSPARAM; FAILED that
    exactly three frames were sent and the phase is unchanged; UNKNOWN
    that nothing was sent and the phase is unchanged. *)
Theorem instcmd_effects (plat : platform) (cmdname extra : list Z) (st : driver) :
  (2 <= length (devaddr st))%nat ->
  exists r st2 frames,
    instcmd plat cmdname extra st = Some (r, st2) /\
    ds st2 = ds st /\ devaddr st2 = devaddr st /\
    ser_sent (ser st2) = ser_sent (ser st) ++ frames /\
    (length frames <= 3)%nat /\
    (forall data, instcmd_data cmdname = Some data ->
       Forall (remote_frame data) frames) /\
    (r = STAT_INSTCMD_HANDLED ->
     poll_state st2 = GXE_SYSPARAM /\ (1 <= length frames)%nat) /\
    (r = STAT_INSTCMD_FAILED ->
     poll_state st2 = poll_state st /\ length frames = 3%nat) /\
    (r = STAT_INSTCMD_UNKNOWN ->
     poll_state st2 = poll_state st /\ frames = [] /\
     instcmd_data cmdname = None).
Proof.
  intros Hadr. unfold instcmd.
  destruct (instcmd_data cmdname) as [data |] eqn:Hdata.
  - pose proof (instcmd_data_length _ _ Hdata) as Hlen.
    destruct (instcmd_retry_run plat data PROBE_RETRIES ltac:(lia) (local_buf 64)
                st Hadr)
      as (r & st2 & frames & Hrun & Hd & Ha & Hs & Hall & Hcase).
    unfold PROBE_RETRIES in Hcase.
    exists r, st2, frames. split; [exact Hrun |].
    split; [exact Hd |]. split; [exact Ha |]. split; [exact Hs |].
    split; [destruct Hcase as [(_ & _ & Hk) | (_ & _ & Hk)]; lia |].
    split; [intros data' [= <-]; exact Hall |].
    destruct Hcase as [(-> & Hq & Hk) | (-> & Hq & Hk)];
      repeat split; intros; try discriminate; try assumption; lia.
  - exists STAT_INSTCMD_UNKNOWN. eexists. exists [].
    split; [reflexivity |]. cbn [ds devaddr ser poll_state length].
    rewrite app_nil_r.
    repeat split; intros; try discriminate; try reflexivity; lia.
Qed.

Lemma instcmd_effects_witness :
  exists st2,
    instcmd le_host (cstrz "Test.Battery.Start") (cstrz "")
      (sample_driver GXE_ANALOG sample_store [RecvFail 0; RecvData reply_accepted])
    = Some (STAT_INSTCMD_HANDLED, st2) /\
    ds st2 = sample_store /\ poll_state st2 = GXE_SYSPARAM /\
    ser_sent (ser st2)
    = [cstr "~21012A45C0041002FCC6" ++ [13]; cstr "~21012A45C0041002FCC6" ++ [13]].
Proof.
  destruct (instcmd_effects le_host (cstrz "Test.Battery.Start") (cstrz "")
              (sample_driver GXE_ANALOG sample_store
                 [RecvFail 0; RecvData reply_accepted]) ltac:(cbn; lia))
    as (r & st2 & frames & Hrun & Hd & _ & _ & _ & _ & Hh & _).
  vm_compute in Hrun. injection Hrun as <- <-.
  eexists. split; [vm_compute; reflexivity |].
  split; [exact Hd |]. split; [apply Hh; reflexivity |].
  vm_compute. reflexivity.
Defined.

(** X22: the payloads of the four instant commands.  A name that equals
    test.battery.start, test.battery.stop, load.on or load.off up to the
    case of its letters selects 1002, 1003, 2001 or 2003; no other name
    selects a payload. *)
Theorem instcmd_payloads (cmdname : list Z) :
  (forall name code : string,
     (name, code)
       ∈ [("test.battery.start", "1002"); ("test.battery.stop", "1003");
          ("load.on", "2001"); ("load.off", "2003")]%string ->
     same_nocase cmdname (cstrz name) ->
     instcmd_data cmdname = Some (cstrz code)) /\
  (forall data, instcmd_data cmdname = Some data ->
     exists name code : string,
       (name, code)
         ∈ [("test.battery.start", "1002"); ("test.battery.stop", "1003");
            ("load.on", "2001"); ("load.off", "2003")]%string /\
       same_nocase cmdname (cstrz name) /\ data = cstrz code).
Proof.
  split.
  - intros name code. apply instcmd_data_of_name.
  - intros data H. apply instcmd_data_cases in H.
    destruct H as [[H ->] | [[H ->] | [[H ->] | [H ->]]]].
    + exists "test.battery.start"%string, "1002"%string. split; [set_solver | auto].
    + exists "test.battery.stop"%string, "1003"%string. split; [set_solver | auto].
    + exists "load.on"%string, "2001"%string. split; [set_solver | auto].
    + exists "load.off"%string, "2003"%string. split; [set_solver | auto].
Qed.

Lemma instcmd_payloads_witness :
  same_nocase (cstrz "LOAD.off") (cstrz "load.off") /\
  instcmd_data (cstrz "LOAD.off") = Some (cstrz "2003") /\
  instcmd_data (cstrz "load.offline") = None.
Proof.
  assert (H : same_nocase (cstrz "LOAD.off") (cstrz "load.off")) by reflexivity.
  split; [exact H |]. split; [| reflexivity].
  apply (proj1 (instcmd_payloads (cstrz "LOAD.off")) "load.off"%string "2003"%string);
    [set_solver | exact H].
Defined.
